(** * SimpleMicroservices: the in-memory Person/Address/Organization/House API

    A shallow embedding of [main.py] and of the pydantic models in
    [models/], followed by the properties of the four entity stores.

    Layout:
    - [PyDict]: Python's insertion-ordered [dict];
    - [pyval]: the run-time values that [model_dump] produces and that a
      model constructor validates;
    - the monad of computations that read the clock, draw identifiers and
      raise;
    - one module per model class;
    - [Main]: the handlers of [main.py];
    - the properties. *)

From Stdlib Require Import String Ascii DecimalString List ZArith NArith Bool Arith Lia.
Import ListNotations.

Local Open Scope string_scope.
Local Open Scope list_scope.

(* ===================================================================== *)
(** ** Python dictionaries *)
(* ===================================================================== *)

(** Keys need a decidable equality ([__eq__] on [str] and on [UUID]). *)
Class Key (K : Type) := {
  key_eqb : K -> K -> bool;
  key_eqb_spec : forall a b, reflect (a = b) (key_eqb a b)
}.

#[export] Instance string_Key : Key string :=
  {| key_eqb := String.eqb; key_eqb_spec := String.eqb_spec |}.

#[export] Instance N_Key : Key N :=
  {| key_eqb := N.eqb; key_eqb_spec := N.eqb_spec |}.

Module PyDict.
Section Dict.
Context {K V : Type} `{Key K}.

(** A [dict] keeps its items in insertion order; [list(d.values())]
    observes that order, so the model is an association list. *)
Definition t := list (K * V).

Definition empty : t := [].

(** [d.get(k)], and [d[k]] when the key is present. *)
Fixpoint get (k : K) (d : t) : option V :=
  match d with
  | [] => None
  | (k', v) :: d' => if key_eqb k k' then Some v else get k d'
  end.

(** [k in d] *)
Definition contains (k : K) (d : t) : bool :=
  match get k d with Some _ => true | None => false end.

(** [d[k] = v]: a present key keeps its position and takes the new
    value, a new key goes to the end. *)
Fixpoint setitem (k : K) (v : V) (d : t) : t :=
  match d with
  | [] => [(k, v)]
  | (k', v') :: d' =>
      if key_eqb k k' then (k', v) :: d' else (k', v') :: setitem k v d'
  end.

(** [d.update(other)] *)
Definition update (d other : t) : t :=
  fold_left (fun acc kv => setitem (fst kv) (snd kv) acc) other d.

(** [list(d.values())], [list(d.keys())], [len(d)] *)
Definition values (d : t) : list V := map snd d.
Definition keys (d : t) : list K := map fst d.
Definition len (d : t) : nat := length d.

(** The items whose key is in [ks] (used for [exclude_unset]). *)
Definition restrict (ks : list K) (d : t) : t :=
  filter (fun kv => existsb (key_eqb (fst kv)) ks) d.

End Dict.
Arguments t : clear implicits.
End PyDict.

(* ===================================================================== *)
(** ** Run-time values *)
(* ===================================================================== *)

(** [uuid.UUID]: a 128-bit identifier, kept as its integer value. *)
Definition UUID := N.

(** [datetime.datetime], naive UTC: microseconds since the epoch.  The
    update handlers store [datetime.utcnow().isoformat()], the ISO-8601
    text of the reading; pydantic reads that text back to the same instant
    when the record is next rebuilt, so the model keeps the instant. *)
Definition datetime := Z.

(** [datetime.date] *)
Record date := { year : nat; month : nat; day : nat }.

(** Left-pads the decimal digits of [n] with zeros to [width]. *)
Definition zero_padded (width n : nat) : string :=
  let digits := DecimalString.NilZero.string_of_uint (Nat.to_uint n) in
  String.concat EmptyString (repeat "0" (width - String.length digits)) ++ digits.

(** [str(d)] for a date: [YYYY-MM-DD]. *)
Definition str_date (d : date) : string :=
  zero_padded 4 (year d) ++ "-" ++ zero_padded 2 (month d) ++ "-"
    ++ zero_padded 2 (day d).

(** [str(x)] for an [Optional[date]]: [str(None)] is the text [None]. *)
Definition str_optional_date (d : option date) : string :=
  match d with Some d => str_date d | None => "None" end.

(** What [model_dump()] yields and what a model constructor is given:
    [None], [str], [UUID], [datetime], [date], [list], [dict], and
    [PObject] for an object of any other class. *)
#[local] Set Warnings "-register-all".
Inductive pyval : Type :=
| PNone
| PStr (s : string)
| PUuid (u : UUID)
| PDatetime (t : datetime)
| PDate (d : date)
| PList (l : list pyval)
| PDict (d : list (string * pyval))
| PObject.

Definition pydict := PyDict.t string pyval.

(** *** Text of a UUID

    pydantic reads the text of a UUID in four spellings: 32 hexadecimal
    digits; the same digits in groups of 8, 4, 4, 4 and 12 with a hyphen
    between the groups; that hyphenated form in braces; and that
    hyphenated form after [urn:uuid:]. *)

Definition hex_digit (c : ascii) : option N :=
  let n := N_of_ascii c in
  if ((48 <=? n) && (n <=? 57))%N then Some (n - 48)%N
  else if ((97 <=? n) && (n <=? 102))%N then Some (n - 87)%N
  else if ((65 <=? n) && (n <=? 70))%N then Some (n - 55)%N
  else None.

Fixpoint hex_value (acc : N) (s : string) : option N :=
  match s with
  | EmptyString => Some acc
  | String c s' =>
      match hex_digit c with
      | Some d => hex_value (16 * acc + d)%N s'
      | None => None
      end
  end.

(** 32 hexadecimal digits *)
Definition parse_simple (s : string) : option UUID :=
  if (String.length s =? 32)%nat then hex_value 0%N s else None.

Definition is_hyphen (c : option ascii) : bool :=
  match c with Some c => Ascii.eqb c "-"%char | None => false end.

(** 36 characters: hyphens at 8, 13, 18 and 23, hexadecimal digits
    elsewhere. *)
Definition parse_hyphenated (s : string) : option UUID :=
  if (String.length s =? 36)%nat
     && is_hyphen (String.get 8 s) && is_hyphen (String.get 13 s)
     && is_hyphen (String.get 18 s) && is_hyphen (String.get 23 s)
  then parse_simple (substring 0 8 s ++ substring 9 4 s ++ substring 14 4 s
                       ++ substring 19 4 s ++ substring 24 12 s)
  else None.

Definition uuid_of_string (s : string) : option UUID :=
  let n := String.length s in
  if (n =? 32)%nat then parse_simple s
  else if (n =? 36)%nat then parse_hyphenated s
  else if (n =? 38)%nat then
    if String.prefix "{" s && String.eqb (substring 37 1 s) "}"
    then parse_hyphenated (substring 1 36 s) else None
  else if (n =? 45)%nat then
    if String.prefix "urn:uuid:" s
    then parse_hyphenated (substring 9 36 s) else None
  else None.

(* ===================================================================== *)
(** ** Computations: state, exceptions, clock and identifier source *)
(* ===================================================================== *)

(** The exceptions a request can end with: the [HTTPException] a handler
    raises itself; pydantic's [ValidationError], and the [KeyError] and
    [AttributeError] of a failed subscript or attribute access, none of
    which a handler catches; and the [RequestValidationError] with which
    the framework answers (422) a body that does not decode into the
    handler's parameter, without calling the handler. *)
Inductive exn : Type :=
| HTTPException (status_code : nat) (detail : string)
| ValidationError
| RequestValidationError
| KeyError
| AttributeError.

Inductive result (A : Type) : Type :=
| Return (a : A)
| Raise (e : exn).
Arguments Return {A} a.
Arguments Raise {A} e.

(** A computation over a state [S] that returns or raises. *)
Definition M (S A : Type) : Type := S -> result A * S.

Definition ret {S A} (a : A) : M S A := fun s => (Return a, s).

Definition raise {S A} (e : exn) : M S A := fun s => (Raise e, s).

Definition bind {S A B} (c : M S A) (k : A -> M S B) : M S B :=
  fun s =>
    match c s with
    | (Return a, s') => k a s'
    | (Raise e, s') => (Raise e, s')
    end.

Declare Scope monad_scope.
Delimit Scope monad_scope with monad.
Notation "x <- c ;; k" := (bind c (fun x => k))
  (at level 61, c at next level, right associativity) : monad_scope.
Notation "c ;;; k" := (bind c (fun _ => k))
  (at level 61, right associativity) : monad_scope.
Local Open Scope monad_scope.

(** Two computations one after the other, the second whatever became of
    the first; the outcome is an exception when either raised.  This is
    how pydantic validates a model or a list: every field (every item)
    is validated in turn, each default factory is run, and
    [ValidationError] is raised once all of them were seen. *)
Definition ap {S A B} (cf : M S (A -> B)) (ca : M S A) : M S B :=
  fun s =>
    let (rf, s1) := cf s in
    let (ra, s2) := ca s1 in
    (match rf, ra with
     | Return f, Return a => Return (f a)
     | Raise e, _ => Raise e
     | Return _, Raise e => Raise e
     end, s2).

Notation "cf <*> ca" := (ap cf ca)
  (at level 50, left associativity) : monad_scope.

(** Every item of a list in turn, whatever became of the ones before. *)
Fixpoint traverse {S A B} (f : A -> M S B) (l : list A) : M S (list B) :=
  match l with
  | [] => ret []
  | a :: l' => ret cons <*> f a <*> traverse f l'
  end.

(** The environment of the process: the system clock and the random
    identifier source.  The [n]-th call of [datetime.utcnow()] returns
    [utcnow_at n], the [n]-th call of [uuid4()] returns [uuid4_at n]. *)
Record Env : Type := {
  utcnow_at : nat -> datetime;
  clock_reads : nat;
  uuid4_at : nat -> UUID;
  uuid_draws : nat
}.

(** [datetime.utcnow()] *)
Definition utcnow : M Env datetime :=
  fun e =>
    (Return (utcnow_at e (clock_reads e)),
     {| utcnow_at := utcnow_at e; clock_reads := S (clock_reads e);
        uuid4_at := uuid4_at e; uuid_draws := uuid_draws e |}).

(** [uuid4()] *)
Definition uuid4 : M Env UUID :=
  fun e =>
    (Return (uuid4_at e (uuid_draws e)),
     {| utcnow_at := utcnow_at e; clock_reads := clock_reads e;
        uuid4_at := uuid4_at e; uuid_draws := S (uuid_draws e) |}).

(* ===================================================================== *)
(** ** pydantic: field validation and serialisation *)
(* ===================================================================== *)

(** A validator turns the value given for a field into the field's type
    or raises [ValidationError].

    pydantic validates every field of a model before it raises, so a
    constructor below is written with [<*>]: a field that fails does not
    keep the default factories of the other fields from running. *)
Definition validator (A : Type) : Type := pyval -> M Env A.

(** [str]: only a [str] is accepted. *)
Definition as_str : validator string :=
  fun v => match v with PStr s => ret s | _ => raise ValidationError end.

(** [UUID]: a [UUID] object, or the text of one. *)
Definition as_uuid : validator UUID :=
  fun v =>
    match v with
    | PUuid u => ret u
    | PStr s =>
        match uuid_of_string s with
        | Some u => ret u
        | None => raise ValidationError
        end
    | _ => raise ValidationError
    end.

(** [datetime] *)
Definition as_datetime : validator datetime :=
  fun v => match v with PDatetime t => ret t | _ => raise ValidationError end.

(** [date] *)
Definition as_date : validator date :=
  fun v => match v with PDate d => ret d | _ => raise ValidationError end.

(** [Optional[T]] *)
Definition as_optional {A} (f : validator A) : validator (option A) :=
  fun v => match v with PNone => ret None | _ => a <- f v ;; ret (Some a) end.

(** [List[T]] *)
Definition as_list {A} (f : validator A) : validator (list A) :=
  fun v =>
    match v with PList l => traverse f l | _ => raise ValidationError end.

(** One field of a model constructor called with keyword arguments
    [kwargs]: the value given is validated; without one the field's
    default is taken ([default_factory] is run then, and only then). *)
Definition field {A} (kwargs : pydict) (name : string)
    (validate : validator A) (default : M Env A) : M Env A :=
  match PyDict.get name kwargs with
  | Some v => validate v
  | None => default
  end.

(** The default of a field declared with [Field(...)]: it is required. *)
Definition required {A} : M Env A := raise ValidationError.

(** [model_dump] of an [Optional[T]] field. *)
Definition dump_optional {A} (f : A -> pyval) (o : option A) : pyval :=
  match o with Some a => f a | None => PNone end.

(** The names of [names] that [kwargs] gives a value: [model_fields_set]
    of the instance built from [kwargs]. *)
Definition fields_given (names : list string) (kwargs : pydict) : list string :=
  filter (fun k => PyDict.contains k kwargs) names.

(** [name in model_fields_set] *)
Definition is_set (name : string) (fields_set : list string) : bool :=
  existsb (String.eqb name) fields_set.

(* ===================================================================== *)
(** ** models/address.py *)
(* ===================================================================== *)

Module AddressBase.

(** Modelled from the spec: [models/address.py] is not among the sources.
    Section 3 gives an Address an identifier ("generated at creation time
    unless client-supplied") and street, city, state/region, postal code
    and country, "all optional free-text fields except identifier". *)
Record t : Type := {
  id : UUID;
  street : option string;
  city : option string;
  state : option string;
  postal_code : option string;
  country : option string
}.

Definition field_names : list string :=
  ["id"; "street"; "city"; "state"; "postal_code"; "country"].

(** [a.model_dump()] *)
Definition model_dump (a : t) : pydict :=
  [ ("id", PUuid (id a));
    ("street", dump_optional PStr (street a));
    ("city", dump_optional PStr (city a));
    ("state", dump_optional PStr (state a));
    ("postal_code", dump_optional PStr (postal_code a));
    ("country", dump_optional PStr (country a)) ].

(** [AddressBase] called with the keyword arguments [kwargs] *)
Definition init (kwargs : pydict) : M Env t :=
  ret Build_t
    <*> field kwargs "id" as_uuid uuid4
    <*> field kwargs "street" (as_optional as_str) (ret None)
    <*> field kwargs "city" (as_optional as_str) (ret None)
    <*> field kwargs "state" (as_optional as_str) (ret None)
    <*> field kwargs "postal_code" (as_optional as_str) (ret None)
    <*> field kwargs "country" (as_optional as_str) (ret None).

(** A field of type [AddressBase] given a [dict]. *)
Definition validate : validator t :=
  fun v => match v with PDict d => init d | _ => raise ValidationError end.

(** An instance together with its [model_fields_set], the names of the
    fields the caller gave explicitly.  Only
    [model_dump(exclude_unset=True)] looks at that set, and [main.py]
    calls it on Update payloads only, so only the addresses nested in an
    Update payload carry it. *)
Record supplied : Type := {
  value : t;
  model_fields_set : list string
}.

(** [a.model_dump(exclude_unset=True)] *)
Definition model_dump_exclude_unset (s : supplied) : pydict :=
  PyDict.restrict (model_fields_set s) (model_dump (value s)).

(** Decoding a request body: the instance and the fields it was given. *)
Definition validate_supplied : validator supplied :=
  fun v =>
    match v with
    | PDict d =>
        a <- init d ;;
        ret {| value := a; model_fields_set := fields_given field_names d |}
    | _ => raise ValidationError
    end.

(** The address that [init] builds from [model_dump_exclude_unset s]: the
    fields given keep their value, the others take their default ([None],
    and a fresh identifier [fresh]). *)
Definition completed (fresh : UUID) (s : supplied) : t :=
  let fs := model_fields_set s in
  let a := value s in
  {| id := if is_set "id" fs then id a else fresh;
     street := if is_set "street" fs then street a else None;
     city := if is_set "city" fs then city a else None;
     state := if is_set "state" fs then state a else None;
     postal_code := if is_set "postal_code" fs then postal_code a else None;
     country := if is_set "country" fs then country a else None |}.

End AddressBase.

(** The server representation of every entity kind: the fields of its
    Base class followed by [created_at] and [updated_at], both declared
    with [default_factory=datetime.utcnow] ([OrganizationRead],
    [HouseRead]; [AddressRead] and [PersonRead] are modelled from the
    spec, whose section 9 records the "implicit
    default-timestamp-generation inside the data model").  The two
    declarations are the same in every Read class, so they are stated
    once, over the Base class [B]. *)
Module ReadModel.

Record t (B : Type) : Type := {
  base : B;
  created_at : datetime;
  updated_at : datetime
}.
Arguments base {B} _.
Arguments created_at {B} _.
Arguments updated_at {B} _.

Section Read.
Context {B : Type} (base_dump : B -> pydict) (base_init : pydict -> M Env B).

(** [r.model_dump()]: the Base fields, then the two timestamps. *)
Definition model_dump (r : t B) : pydict :=
  base_dump (base r)
    ++ [ ("created_at", PDatetime (created_at r));
         ("updated_at", PDatetime (updated_at r)) ].

(** A Read class called with the keyword arguments [kwargs]: each
    timestamp that [kwargs] does not give is read from the clock by its
    own [default_factory] call, [created_at] first. *)
Definition init (kwargs : pydict) : M Env (t B) :=
  ret (Build_t B)
    <*> base_init kwargs
    <*> field kwargs "created_at" as_datetime utcnow
    <*> field kwargs "updated_at" as_datetime utcnow.

End Read.

(** [r.updated_at = now] *)
Definition set_updated_at {B} (now : datetime) (r : t B) : t B :=
  {| base := base r; created_at := created_at r; updated_at := now |}.

End ReadModel.

Module AddressCreate.
(** Modelled from the spec: the creation payload of an Address, an
    [AddressBase] with nothing added (as [OrganizationCreate] is to
    [OrganizationBase]). *)
Definition t : Type := AddressBase.t.
Definition model_dump : t -> pydict := AddressBase.model_dump.
End AddressCreate.

Module AddressRead.
(** Modelled from the spec: the server representation of an Address, an
    [AddressBase] with the two timestamps (as [OrganizationRead] is to
    [OrganizationBase]). *)
Definition t : Type := ReadModel.t AddressBase.t.
Definition model_dump : t -> pydict :=
  ReadModel.model_dump AddressBase.model_dump.
Definition init : pydict -> M Env t := ReadModel.init AddressBase.init.
End AddressRead.

Module AddressUpdate.

(** Modelled from the spec: the partial-update payload of an Address.
    Every attribute but the identifier ("once created, an entity's
    identifier never changes") may be given, and each defaults to [None]
    when it is not. *)
Record t : Type := {
  street : option string;
  city : option string;
  state : option string;
  postal_code : option string;
  country : option string;
  model_fields_set : list string
}.

(** [update.model_dump(exclude_unset=True)] *)
Definition model_dump_exclude_unset (u : t) : pydict :=
  PyDict.restrict (model_fields_set u)
    [ ("street", dump_optional PStr (street u));
      ("city", dump_optional PStr (city u));
      ("state", dump_optional PStr (state u));
      ("postal_code", dump_optional PStr (postal_code u));
      ("country", dump_optional PStr (country u)) ].

End AddressUpdate.

(* ===================================================================== *)
(** ** models/person.py *)
(* ===================================================================== *)

(** Modelled from the spec: [UNIType] is declared in [models/person.py],
    which is not among the sources.  The glossary calls a UNI "a
    fixed-format institutional short identifier"; it is a [str], and the
    format is not given.  A token held by a model instance has passed the
    format check and passes it again, so what re-validation can reject is
    a value that is not a [str]. *)
Definition UNIType : Type := string.
Definition as_UNIType : validator UNIType := as_str.

(** [EmailStr]: the text of an e-mail address.  An address held by a
    model instance has passed the syntax check and passes it again. *)
Definition as_EmailStr : validator string := as_str.

Module PersonBase.

(** Modelled from the spec: section 3 gives a Person an identifier, a UNI,
    first and last name, e-mail, phone, birth date and an embedded
    collection of Address values.  The spec does not say which may be
    [None]; phone and birth date are taken as optional and the others as
    required, as [OrganizationBase] does for the attributes the two
    share. *)
Record t : Type := {
  id : UUID;
  uni : UNIType;
  first_name : string;
  last_name : string;
  email : string;
  phone : option string;
  birth_date : option date;
  addresses : list AddressBase.t
}.

Definition model_dump (p : t) : pydict :=
  [ ("id", PUuid (id p));
    ("uni", PStr (uni p));
    ("first_name", PStr (first_name p));
    ("last_name", PStr (last_name p));
    ("email", PStr (email p));
    ("phone", dump_optional PStr (phone p));
    ("birth_date", dump_optional PDate (birth_date p));
    ("addresses",
      PList (map (fun a => PDict (AddressBase.model_dump a)) (addresses p))) ].

Definition init (kwargs : pydict) : M Env t :=
  ret Build_t
    <*> field kwargs "id" as_uuid uuid4
    <*> field kwargs "uni" as_UNIType required
    <*> field kwargs "first_name" as_str required
    <*> field kwargs "last_name" as_str required
    <*> field kwargs "email" as_EmailStr required
    <*> field kwargs "phone" (as_optional as_str) (ret None)
    <*> field kwargs "birth_date" (as_optional as_date) (ret None)
    <*> field kwargs "addresses" (as_list AddressBase.validate) (ret []).

End PersonBase.

Module PersonCreate.
(** Modelled from the spec: the creation payload of a Person, a
    [PersonBase] with nothing added.  It carries the identifier, which
    section 3 has "generated at creation time unless client-supplied". *)
Definition t : Type := PersonBase.t.
Definition model_dump : t -> pydict := PersonBase.model_dump.
End PersonCreate.

Module PersonRead.
(** Modelled from the spec: the server representation of a Person, a
    [PersonBase] with the two timestamps. *)
Definition t : Type := ReadModel.t PersonBase.t.
Definition model_dump : t -> pydict :=
  ReadModel.model_dump PersonBase.model_dump.
Definition init : pydict -> M Env t := ReadModel.init PersonBase.init.
End PersonRead.

Module PersonUpdate.

(** Modelled from the spec: the partial-update payload of a Person, every
    attribute but the identifier, each [None] unless given. *)
Record t : Type := {
  uni : option UNIType;
  first_name : option string;
  last_name : option string;
  email : option string;
  phone : option string;
  birth_date : option date;
  addresses : option (list AddressBase.supplied);
  model_fields_set : list string
}.

Definition model_dump_exclude_unset (u : t) : pydict :=
  PyDict.restrict (model_fields_set u)
    [ ("uni", dump_optional PStr (uni u));
      ("first_name", dump_optional PStr (first_name u));
      ("last_name", dump_optional PStr (last_name u));
      ("email", dump_optional PStr (email u));
      ("phone", dump_optional PStr (phone u));
      ("birth_date", dump_optional PDate (birth_date u));
      ("addresses",
        dump_optional
          (fun l => PList (map (fun s =>
             PDict (AddressBase.model_dump_exclude_unset s)) l))
          (addresses u)) ].

End PersonUpdate.

(* ===================================================================== *)
(** ** models/organization.py *)
(* ===================================================================== *)

Module OrganizationBase.

Record t : Type := {
  id : UUID;
  org_name : string;
  email : string;
  phone : option string;
  address : AddressBase.t
}.

Definition model_dump (o : t) : pydict :=
  [ ("id", PUuid (id o));
    ("org_name", PStr (org_name o));
    ("email", PStr (email o));
    ("phone", dump_optional PStr (phone o));
    ("address", PDict (AddressBase.model_dump (address o))) ].

Definition init (kwargs : pydict) : M Env t :=
  ret Build_t
    <*> field kwargs "id" as_uuid uuid4
    <*> field kwargs "org_name" as_str required
    <*> field kwargs "email" as_EmailStr required
    <*> field kwargs "phone" (as_optional as_str) (ret None)
    <*> field kwargs "address" AddressBase.validate required.

End OrganizationBase.

Module OrganizationCreate.
(** [class OrganizationCreate(OrganizationBase)] adds no field. *)
Definition t : Type := OrganizationBase.t.
Definition model_dump : t -> pydict := OrganizationBase.model_dump.
End OrganizationCreate.

Module OrganizationRead.
Definition t : Type := ReadModel.t OrganizationBase.t.
Definition model_dump : t -> pydict :=
  ReadModel.model_dump OrganizationBase.model_dump.
Definition init : pydict -> M Env t := ReadModel.init OrganizationBase.init.
End OrganizationRead.

Module OrganizationUpdate.

(** Every field is [Optional] with default [None]. *)
Record t : Type := {
  org_name : option string;
  email : option string;
  phone : option string;
  address : option AddressBase.supplied;
  model_fields_set : list string
}.

Definition model_dump_exclude_unset (u : t) : pydict :=
  PyDict.restrict (model_fields_set u)
    [ ("org_name", dump_optional PStr (org_name u));
      ("email", dump_optional PStr (email u));
      ("phone", dump_optional PStr (phone u));
      ("address",
        dump_optional
          (fun s => PDict (AddressBase.model_dump_exclude_unset s))
          (address u)) ].

End OrganizationUpdate.

(* ===================================================================== *)
(** ** models/house.py *)
(* ===================================================================== *)

Module HouseBase.

(** The declaration of [address] ends in a comma (line 40), so the class
    attribute is a one-element tuple holding the [Field(...)] descriptor
    and pydantic takes that tuple as the field's default: a House built
    without an address holds the tuple.  [address = None] stands for that
    case, [Some a] for an address that was given. *)
Record t : Type := {
  id : UUID;
  phone : option string;
  address : option AddressBase.t;
  people : list UNIType
}.

Definition model_dump (h : t) : pydict :=
  [ ("id", PUuid (id h));
    ("phone", dump_optional PStr (phone h));
    ("address",
      match address h with
      | Some a => PDict (AddressBase.model_dump a)
      | None => PObject
      end);
    ("people", PList (map PStr (people h))) ].

Definition init (kwargs : pydict) : M Env t :=
  ret Build_t
    <*> field kwargs "id" as_uuid uuid4
    <*> field kwargs "phone" (as_optional as_str) (ret None)
    <*> field kwargs "address"
          (fun v => a <- AddressBase.validate v ;; ret (Some a))
          (ret None)
    <*> field kwargs "people" (as_list as_UNIType) (ret []).

End HouseBase.

Module HouseCreate.
(** [class HouseCreate(HouseBase)] adds no field. *)
Definition t : Type := HouseBase.t.
Definition model_dump : t -> pydict := HouseBase.model_dump.
End HouseCreate.

Module HouseRead.
Definition t : Type := ReadModel.t HouseBase.t.
Definition model_dump : t -> pydict :=
  ReadModel.model_dump HouseBase.model_dump.
Definition init : pydict -> M Env t := ReadModel.init HouseBase.init.
End HouseRead.

Module HouseUpdate.

(** [people] is declared [Optional[List[UUID]]], where [HouseBase.people]
    is a [List[UNIType]]. *)
Record t : Type := {
  phone : option string;
  address : option AddressBase.supplied;
  people : option (list UUID);
  model_fields_set : list string
}.

Definition field_names : list string := ["phone"; "address"; "people"].

Definition model_dump_exclude_unset (u : t) : pydict :=
  PyDict.restrict (model_fields_set u)
    [ ("phone", dump_optional PStr (phone u));
      ("address",
        dump_optional
          (fun s => PDict (AddressBase.model_dump_exclude_unset s))
          (address u));
      ("people", dump_optional (fun l => PList (map PUuid l)) (people u)) ].

(** Decoding the body of a [PATCH /houses/{house_id}] request. *)
Definition init (kwargs : pydict) : M Env t :=
  ret (fun phone address people =>
         {| phone := phone; address := address; people := people;
            model_fields_set := fields_given field_names kwargs |})
    <*> field kwargs "phone" (as_optional as_str) (ret None)
    <*> field kwargs "address"
          (as_optional AddressBase.validate_supplied) (ret None)
    <*> field kwargs "people" (as_optional (as_list as_uuid)) (ret None).

End HouseUpdate.

(* ===================================================================== *)
(** ** main.py *)
(* ===================================================================== *)

Module Main.

(** The handlers of the four entity kinds.  A handler is a computation on
    the state of the process that returns the response body or raises;
    the status of a normal response (200, and 201 for the create routes)
    is fixed by the route and is no part of the handler.  The health and
    root routes touch no store and are left out. *)

(** The state of the process: its environment and the four in-memory
    "databases". *)
Record World : Type := {
  env : Env;
  persons : PyDict.t UUID PersonRead.t;
  addresses : PyDict.t UUID AddressRead.t;
  organizations : PyDict.t UUID OrganizationRead.t;
  houses : PyDict.t UUID HouseRead.t
}.

(** One of the four module-level dictionaries. *)
Record store (V : Type) : Type := {
  content : World -> PyDict.t UUID V;
  replace_content : PyDict.t UUID V -> World -> World
}.
Arguments content {V} _ _.
Arguments replace_content {V} _ _ _.

Definition persons_db : store PersonRead.t :=
  {| content := persons;
     replace_content := fun d w =>
       {| env := env w; persons := d; addresses := addresses w;
          organizations := organizations w; houses := houses w |} |}.

Definition addresses_db : store AddressRead.t :=
  {| content := addresses;
     replace_content := fun d w =>
       {| env := env w; persons := persons w; addresses := d;
          organizations := organizations w; houses := houses w |} |}.

Definition organizations_db : store OrganizationRead.t :=
  {| content := organizations;
     replace_content := fun d w =>
       {| env := env w; persons := persons w; addresses := addresses w;
          organizations := d; houses := houses w |} |}.

Definition houses_db : store HouseRead.t :=
  {| content := houses;
     replace_content := fun d w =>
       {| env := env w; persons := persons w; addresses := addresses w;
          organizations := organizations w; houses := d |} |}.

Definition with_env (e : Env) (w : World) : World :=
  {| env := e; persons := persons w; addresses := addresses w;
     organizations := organizations w; houses := houses w |}.

(** Runs a computation on the environment inside the process. *)
Definition in_env {A} (c : M Env A) : M World A :=
  fun w => let (r, e) := c (env w) in (r, with_env e w).

Section StoreAccess.
Context {V : Type} (db : store V).

(** [k in db] *)
Definition contains (k : UUID) : M World bool :=
  fun w => (Return (PyDict.contains k (content db w)), w).

(** [db[k]] *)
Definition getitem (k : UUID) : M World V :=
  fun w =>
    match PyDict.get k (content db w) with
    | Some v => (Return v, w)
    | None => (Raise KeyError, w)
    end.

(** [db[k] = v] *)
Definition setitem (k : UUID) (v : V) : M World unit :=
  fun w => (Return tt, replace_content db (PyDict.setitem k v (content db w)) w).

(** [list(db.values())] *)
Definition values : M World (list V) :=
  fun w => (Return (PyDict.values (content db w)), w).

End StoreAccess.

(** [if flt is not None: results = [x for x in results if test]] *)
Definition filter_if {A F} (flt : option F) (test : F -> A -> bool)
    (results : list A) : list A :=
  match flt with
  | Some f => filter (test f) results
  | None => results
  end.

(** [x == s] for an [Optional[str]] attribute [x] and a [str] [s]. *)
Definition optional_str_eq (x : option string) (s : string) : bool :=
  match x with Some x => String.eqb x s | None => false end.

(* --------------------------------------------------------------------- *)
(** *** Address endpoints *)
(* --------------------------------------------------------------------- *)

Definition create_address (address : AddressCreate.t) : M World AddressRead.t :=
  present <- contains addresses_db (AddressBase.id address) ;;
  if present : bool then
    raise (HTTPException 400 "Address with this ID already exists")
  else
    r <- in_env (AddressRead.init (AddressCreate.model_dump address)) ;;
    setitem addresses_db (AddressBase.id address) r ;;;
    getitem addresses_db (AddressBase.id address).

Definition list_addresses (street city state postal_code country : option string)
    : M World (list AddressRead.t) :=
  results <- values addresses_db ;;
  let results := filter_if street (fun street a =>
    optional_str_eq (AddressBase.street (ReadModel.base a)) street) results in
  let results := filter_if city (fun city a =>
    optional_str_eq (AddressBase.city (ReadModel.base a)) city) results in
  let results := filter_if state (fun state a =>
    optional_str_eq (AddressBase.state (ReadModel.base a)) state) results in
  let results := filter_if postal_code (fun postal_code a =>
    optional_str_eq (AddressBase.postal_code (ReadModel.base a)) postal_code)
    results in
  let results := filter_if country (fun country a =>
    optional_str_eq (AddressBase.country (ReadModel.base a)) country) results in
  ret results.

Definition get_address (address_id : UUID) : M World AddressRead.t :=
  present <- contains addresses_db address_id ;;
  if negb present then raise (HTTPException 404 "Address not found")
  else getitem addresses_db address_id.

Definition update_address (address_id : UUID) (update : AddressUpdate.t)
    : M World AddressRead.t :=
  present <- contains addresses_db address_id ;;
  if negb present then raise (HTTPException 404 "Address not found")
  else
    old <- getitem addresses_db address_id ;;
    let stored :=
      PyDict.update (AddressRead.model_dump old)
        (AddressUpdate.model_dump_exclude_unset update) in
    r <- in_env (AddressRead.init stored) ;;
    setitem addresses_db address_id r ;;;
    now <- in_env utcnow ;;
    r <- getitem addresses_db address_id ;;
    setitem addresses_db address_id (ReadModel.set_updated_at now r) ;;;
    getitem addresses_db address_id.

(* --------------------------------------------------------------------- *)
(** *** Person endpoints *)
(* --------------------------------------------------------------------- *)

Definition create_person (person : PersonCreate.t) : M World PersonRead.t :=
  person_read <- in_env (PersonRead.init (PersonCreate.model_dump person)) ;;
  setitem persons_db (PersonBase.id (ReadModel.base person_read)) person_read ;;;
  ret person_read.

Definition list_persons
    (uni first_name last_name email phone birth_date city country : option string)
    : M World (list PersonRead.t) :=
  results <- values persons_db ;;
  let results := filter_if uni (fun uni p =>
    String.eqb (PersonBase.uni (ReadModel.base p)) uni) results in
  let results := filter_if first_name (fun first_name p =>
    String.eqb (PersonBase.first_name (ReadModel.base p)) first_name) results in
  let results := filter_if last_name (fun last_name p =>
    String.eqb (PersonBase.last_name (ReadModel.base p)) last_name) results in
  let results := filter_if email (fun email p =>
    String.eqb (PersonBase.email (ReadModel.base p)) email) results in
  let results := filter_if phone (fun phone p =>
    optional_str_eq (PersonBase.phone (ReadModel.base p)) phone) results in
  let results := filter_if birth_date (fun birth_date p =>
    String.eqb (str_optional_date (PersonBase.birth_date (ReadModel.base p)))
      birth_date) results in
  (* nested address filtering *)
  let results := filter_if city (fun city p =>
    existsb (fun addr => optional_str_eq (AddressBase.city addr) city)
      (PersonBase.addresses (ReadModel.base p))) results in
  let results := filter_if country (fun country p =>
    existsb (fun addr => optional_str_eq (AddressBase.country addr) country)
      (PersonBase.addresses (ReadModel.base p))) results in
  ret results.

Definition get_person (person_id : UUID) : M World PersonRead.t :=
  present <- contains persons_db person_id ;;
  if negb present then raise (HTTPException 404 "Person not found")
  else getitem persons_db person_id.

Definition update_person (person_id : UUID) (update : PersonUpdate.t)
    : M World PersonRead.t :=
  present <- contains persons_db person_id ;;
  if negb present then raise (HTTPException 404 "Person not found")
  else
    old <- getitem persons_db person_id ;;
    let stored :=
      PyDict.update (PersonRead.model_dump old)
        (PersonUpdate.model_dump_exclude_unset update) in
    r <- in_env (PersonRead.init stored) ;;
    setitem persons_db person_id r ;;;
    now <- in_env utcnow ;;
    r <- getitem persons_db person_id ;;
    setitem persons_db person_id (ReadModel.set_updated_at now r) ;;;
    getitem persons_db person_id.

(* --------------------------------------------------------------------- *)
(** *** Organization endpoints *)
(* --------------------------------------------------------------------- *)

Definition create_organization (organization : OrganizationCreate.t)
    : M World OrganizationRead.t :=
  present <- contains organizations_db (OrganizationBase.id organization) ;;
  if present : bool then
    raise (HTTPException 400 "Organization with this ID already exists")
  else
    organization_read <-
      in_env (OrganizationRead.init (OrganizationCreate.model_dump organization)) ;;
    setitem organizations_db
      (OrganizationBase.id (ReadModel.base organization_read))
      organization_read ;;;
    ret organization_read.

Definition list_organizations (org_name email phone city country : option string)
    : M World (list OrganizationRead.t) :=
  results <- values organizations_db ;;
  let results := filter_if org_name (fun org_name p =>
    String.eqb (OrganizationBase.org_name (ReadModel.base p)) org_name)
    results in
  let results := filter_if email (fun email p =>
    String.eqb (OrganizationBase.email (ReadModel.base p)) email) results in
  let results := filter_if phone (fun phone p =>
    optional_str_eq (OrganizationBase.phone (ReadModel.base p)) phone)
    results in
  (* nested address filtering *)
  let results := filter_if city (fun city p =>
    optional_str_eq
      (AddressBase.city (OrganizationBase.address (ReadModel.base p))) city)
    results in
  let results := filter_if country (fun country p =>
    optional_str_eq
      (AddressBase.country (OrganizationBase.address (ReadModel.base p)))
      country) results in
  ret results.

Definition get_organization (organization_id : UUID)
    : M World OrganizationRead.t :=
  present <- contains organizations_db organization_id ;;
  if negb present then raise (HTTPException 404 "Organization not found")
  else getitem organizations_db organization_id.

Definition update_organization (organization_id : UUID)
    (update : OrganizationUpdate.t) : M World OrganizationRead.t :=
  present <- contains organizations_db organization_id ;;
  if negb present then raise (HTTPException 404 "Organization not found")
  else
    old <- getitem organizations_db organization_id ;;
    let stored :=
      PyDict.update (OrganizationRead.model_dump old)
        (OrganizationUpdate.model_dump_exclude_unset update) in
    r <- in_env (OrganizationRead.init stored) ;;
    setitem organizations_db organization_id r ;;;
    now <- in_env utcnow ;;
    r <- getitem organizations_db organization_id ;;
    setitem organizations_db organization_id (ReadModel.set_updated_at now r) ;;;
    getitem organizations_db organization_id.

(* --------------------------------------------------------------------- *)
(** *** House endpoints *)
(* --------------------------------------------------------------------- *)

Definition create_house (house : HouseCreate.t) : M World HouseRead.t :=
  present <- contains houses_db (HouseBase.id house) ;;
  if present : bool then
    raise (HTTPException 400 "House with this ID already exists")
  else
    house_read <- in_env (HouseRead.init (HouseCreate.model_dump house)) ;;
    setitem houses_db (HouseBase.id (ReadModel.base house_read)) house_read ;;;
    ret house_read.

(** [p.address] where an attribute of the address is read next: the
    class-default tuple has no such attribute. *)
Definition address_of (p : HouseRead.t) : M World AddressBase.t :=
  match HouseBase.address (ReadModel.base p) with
  | Some a => ret a
  | None => raise AttributeError
  end.

(** A list comprehension whose condition can raise. *)
Fixpoint filterM {S A} (test : A -> M S bool) (l : list A) : M S (list A) :=
  match l with
  | [] => ret []
  | x :: l' =>
      keep <- test x ;;
      rest <- filterM test l' ;;
      ret (if keep : bool then x :: rest else rest)
  end.

Definition filterM_if {S A F} (flt : option F) (test : F -> A -> M S bool)
    (results : list A) : M S (list A) :=
  match flt with
  | Some f => filterM (test f) results
  | None => ret results
  end.

Definition list_houses (phone : option string) (person_uni : option UNIType)
    (city country : option string) : M World (list HouseRead.t) :=
  results <- values houses_db ;;
  let results := filter_if phone (fun phone p =>
    optional_str_eq (HouseBase.phone (ReadModel.base p)) phone) results in
  (* nested address filtering *)
  results <- filterM_if city (fun city p =>
    a <- address_of p ;; ret (optional_str_eq (AddressBase.city a) city))
    results ;;
  results <- filterM_if country (fun country p =>
    a <- address_of p ;; ret (optional_str_eq (AddressBase.country a) country))
    results ;;
  (* nested person filtering *)
  let results := filter_if person_uni (fun person_uni p =>
    existsb (fun uni => String.eqb uni person_uni)
      (HouseBase.people (ReadModel.base p))) results in
  ret results.

Definition get_house (house_id : UUID) : M World HouseRead.t :=
  present <- contains houses_db house_id ;;
  if negb present then raise (HTTPException 404 "House not found")
  else getitem houses_db house_id.

Definition update_house (house_id : UUID) (update : HouseUpdate.t)
    : M World HouseRead.t :=
  present <- contains houses_db house_id ;;
  if negb present then raise (HTTPException 404 "House not found")
  else
    old <- getitem houses_db house_id ;;
    let stored :=
      PyDict.update (HouseRead.model_dump old)
        (HouseUpdate.model_dump_exclude_unset update) in
    r <- in_env (HouseRead.init stored) ;;
    setitem houses_db house_id r ;;;
    now <- in_env utcnow ;;
    r <- getitem houses_db house_id ;;
    setitem houses_db house_id (ReadModel.set_updated_at now r) ;;;
    getitem houses_db house_id.

(** [PATCH /houses/{house_id}] with the JSON object [body]: the framework
    decodes [body] into a [HouseUpdate] and calls [update_house], or
    answers 422 when [body] is not a [HouseUpdate]. *)
Definition patch_houses (house_id : UUID) (body : pydict) : M World HouseRead.t :=
  fun w =>
    match in_env (HouseUpdate.init body) w with
    | (Return update, w') => update_house house_id update w'
    | (Raise _, w') => (Raise RequestValidationError, w')
    end.

End Main.

(* ===================================================================== *)
(** ** Vocabulary of the properties *)
(* ===================================================================== *)

Module Spec.
Import Main.

(** A record passes an optional filter; an absent filter asks nothing. *)
Definition passes {A F} (flt : option F) (test : F -> A -> bool) (x : A) : bool :=
  match flt with Some f => test f x | None => true end.

(** The person has at least one embedded address in the city, or in the
    country. *)
Definition lives_in_city (city : string) (p : PersonRead.t) : Prop :=
  exists addr, In addr (PersonBase.addresses (ReadModel.base p))
               /\ AddressBase.city addr = Some city.

Definition lives_in_country (country : string) (p : PersonRead.t) : Prop :=
  exists addr, In addr (PersonBase.addresses (ReadModel.base p))
               /\ AddressBase.country addr = Some country.

(** The record that a Read constructor builds from a creation payload
    [b] in the environment [e]: [created_at] is the next reading of the
    clock and [updated_at] the one after it. *)
Definition stamped {B} (e : Env) (b : B) : ReadModel.t B :=
  {| ReadModel.base := b;
     ReadModel.created_at := utcnow_at e (clock_reads e);
     ReadModel.updated_at := utcnow_at e (S (clock_reads e)) |}.

(** The environment after [n] more readings of the clock. *)
Definition after_reads (n : nat) (e : Env) : Env :=
  {| utcnow_at := utcnow_at e; clock_reads := n + clock_reads e;
     uuid4_at := uuid4_at e; uuid_draws := uuid_draws e |}.

(** *** Requests *)

(** One call of a handler of [main.py]. *)
Inductive request : Type :=
| CreateAddress (address : AddressCreate.t)
| ListAddresses (street city state postal_code country : option string)
| GetAddress (address_id : UUID)
| UpdateAddress (address_id : UUID) (update : AddressUpdate.t)
| CreatePerson (person : PersonCreate.t)
| ListPersons (uni first_name last_name email phone birth_date city country
               : option string)
| GetPerson (person_id : UUID)
| UpdatePerson (person_id : UUID) (update : PersonUpdate.t)
| CreateOrganization (organization : OrganizationCreate.t)
| ListOrganizations (org_name email phone city country : option string)
| GetOrganization (organization_id : UUID)
| UpdateOrganization (organization_id : UUID) (update : OrganizationUpdate.t)
| CreateHouse (house : HouseCreate.t)
| ListHouses (phone : option string) (person_uni : option UNIType)
             (city country : option string)
| GetHouse (house_id : UUID)
| UpdateHouse (house_id : UUID) (update : HouseUpdate.t).

(** The process after a request was served, whatever the response. *)
Definition serve (rq : request) (w : World) : World :=
  match rq with
  | CreateAddress address => snd (create_address address w)
  | ListAddresses street city state postal_code country =>
      snd (list_addresses street city state postal_code country w)
  | GetAddress address_id => snd (get_address address_id w)
  | UpdateAddress address_id update => snd (update_address address_id update w)
  | CreatePerson person => snd (create_person person w)
  | ListPersons uni first_name last_name email phone birth_date city country =>
      snd (list_persons uni first_name last_name email phone birth_date city
             country w)
  | GetPerson person_id => snd (get_person person_id w)
  | UpdatePerson person_id update => snd (update_person person_id update w)
  | CreateOrganization organization => snd (create_organization organization w)
  | ListOrganizations org_name email phone city country =>
      snd (list_organizations org_name email phone city country w)
  | GetOrganization organization_id => snd (get_organization organization_id w)
  | UpdateOrganization organization_id update =>
      snd (update_organization organization_id update w)
  | CreateHouse house => snd (create_house house w)
  | ListHouses phone person_uni city country =>
      snd (list_houses phone person_uni city country w)
  | GetHouse house_id => snd (get_house house_id w)
  | UpdateHouse house_id update => snd (update_house house_id update w)
  end.

(** The process after a sequence of requests, served one after the other. *)
Definition serve_all (rqs : list request) (w : World) : World :=
  fold_left (fun w rq => serve rq w) rqs w.

(** The process as it starts: the four dictionaries are empty. *)
Definition just_started (w : World) : Prop :=
  persons w = [] /\ addresses w = [] /\ organizations w = [] /\ houses w = [].

(** *** Timestamps *)

(** The system clock never steps back: a later reading is not smaller. *)
Definition clock_never_steps_back (e : Env) : Prop :=
  forall i j, i <= j -> (utcnow_at e i <= utcnow_at e j)%Z.

(** [updated_at >= created_at] *)
Definition timestamps_ordered {B} (r : ReadModel.t B) : Prop :=
  (ReadModel.created_at r <= ReadModel.updated_at r)%Z.

(** Every record of every store has its timestamps in order. *)
Definition all_timestamps_ordered (w : World) : Prop :=
  (forall r, In r (PyDict.values (persons w)) -> timestamps_ordered r)
  /\ (forall r, In r (PyDict.values (addresses w)) -> timestamps_ordered r)
  /\ (forall r, In r (PyDict.values (organizations w)) -> timestamps_ordered r)
  /\ (forall r, In r (PyDict.values (houses w)) -> timestamps_ordered r).

(** What Update does to the timestamps of a record: [created_at] stays,
    and [updated_at] moves forward to the reading of the clock. *)
Definition restamped_by_update {B} (e : Env) (old new : ReadModel.t B)
    : Prop :=
  ReadModel.created_at new = ReadModel.created_at old
  /\ ReadModel.updated_at new = utcnow_at e (clock_reads e)
  /\ (ReadModel.updated_at old <= ReadModel.updated_at new)%Z.

(** No record of the store was stamped later than the next reading of
    the clock. *)
Definition stamped_in_the_past {B} (e : Env) (d : PyDict.t UUID (ReadModel.t B))
    : Prop :=
  forall r, In r (PyDict.values d) ->
    timestamps_ordered r
    /\ (ReadModel.updated_at r <= utcnow_at e (clock_reads e))%Z.

(** A computation that neither reads nor replaces the clock. *)
Definition keeps_clock {A} (c : M Env A) : Prop :=
  forall e res e', c e = (res, e') ->
    utcnow_at e' = utcnow_at e /\ clock_reads e' = clock_reads e.

(** The invariant behind [all_timestamps_ordered]: the clock never steps
    back and no stored record was stamped later than its next reading. *)
Definition well_stamped (w : World) : Prop :=
  clock_never_steps_back (env w)
  /\ stamped_in_the_past (env w) (persons w)
  /\ stamped_in_the_past (env w) (addresses w)
  /\ stamped_in_the_past (env w) (organizations w)
  /\ stamped_in_the_past (env w) (houses w).

(** A store after a request: as before, or with one item assigned a
    record whose timestamps are in order and not in the future. *)
Definition store_step {B} (e' : Env) (d d' : PyDict.t UUID (ReadModel.t B))
    : Prop :=
  d' = d
  \/ exists k r,
       d' = PyDict.setitem k r d /\ timestamps_ordered r
       /\ (ReadModel.updated_at r <= utcnow_at e' (clock_reads e'))%Z.

(** *** Partial update, field by field

    The merge that section 4.1 describes: a field present in the partial
    payload overwrites the stored one, an absent field is left as it is.
    [None] is the outcome when the merged record is not a record of the
    entity kind: an explicit null given for a field that is not
    nullable. *)

(** A field that is not nullable: the payload holds [Some x] for a value
    [x] and [None] for an explicit null. *)
Definition overwrite {A} (name : string) (fields_set : list string)
    (given : option A) (stored : A) : option A :=
  if is_set name fields_set then given else Some stored.

(** A nullable field. *)
Definition overwrite_nullable {A} (name : string) (fields_set : list string)
    (given stored : option A) : option A :=
  if is_set name fields_set then given else stored.

(** The addresses built from the addresses of a payload, each drawing its
    identifier from [uuid4_at] when the payload gave none. *)
Fixpoint completed_all (uuid4_at : nat -> UUID) (draws : nat)
    (l : list AddressBase.supplied) : list AddressBase.t :=
  match l with
  | [] => []
  | s :: l' =>
      AddressBase.completed (uuid4_at draws) s
        :: completed_all uuid4_at
             (if is_set "id" (AddressBase.model_fields_set s)
              then draws else S draws) l'
  end.

Definition merge_address (u : AddressUpdate.t) (old : AddressBase.t)
    : AddressBase.t :=
  let fs := AddressUpdate.model_fields_set u in
  {| AddressBase.id := AddressBase.id old;
     AddressBase.street :=
       overwrite_nullable "street" fs (AddressUpdate.street u)
         (AddressBase.street old);
     AddressBase.city :=
       overwrite_nullable "city" fs (AddressUpdate.city u)
         (AddressBase.city old);
     AddressBase.state :=
       overwrite_nullable "state" fs (AddressUpdate.state u)
         (AddressBase.state old);
     AddressBase.postal_code :=
       overwrite_nullable "postal_code" fs (AddressUpdate.postal_code u)
         (AddressBase.postal_code old);
     AddressBase.country :=
       overwrite_nullable "country" fs (AddressUpdate.country u)
         (AddressBase.country old) |}.

Definition merge_person (e : Env) (u : PersonUpdate.t) (old : PersonBase.t)
    : option PersonBase.t :=
  let fs := PersonUpdate.model_fields_set u in
  match overwrite "uni" fs (PersonUpdate.uni u) (PersonBase.uni old),
        overwrite "first_name" fs (PersonUpdate.first_name u)
          (PersonBase.first_name old),
        overwrite "last_name" fs (PersonUpdate.last_name u)
          (PersonBase.last_name old),
        overwrite "email" fs (PersonUpdate.email u) (PersonBase.email old),
        overwrite "addresses" fs
          (option_map (completed_all (uuid4_at e) (uuid_draws e))
             (PersonUpdate.addresses u))
          (PersonBase.addresses old)
  with
  | Some uni, Some first_name, Some last_name, Some email, Some addresses =>
      Some {| PersonBase.id := PersonBase.id old;
              PersonBase.uni := uni;
              PersonBase.first_name := first_name;
              PersonBase.last_name := last_name;
              PersonBase.email := email;
              PersonBase.phone :=
                overwrite_nullable "phone" fs (PersonUpdate.phone u)
                  (PersonBase.phone old);
              PersonBase.birth_date :=
                overwrite_nullable "birth_date" fs (PersonUpdate.birth_date u)
                  (PersonBase.birth_date old);
              PersonBase.addresses := addresses |}
  | _, _, _, _, _ => None
  end.

Definition merge_organization (e : Env) (u : OrganizationUpdate.t)
    (old : OrganizationBase.t) : option OrganizationBase.t :=
  let fs := OrganizationUpdate.model_fields_set u in
  match overwrite "org_name" fs (OrganizationUpdate.org_name u)
          (OrganizationBase.org_name old),
        overwrite "email" fs (OrganizationUpdate.email u)
          (OrganizationBase.email old),
        overwrite "address" fs
          (option_map (AddressBase.completed (uuid4_at e (uuid_draws e)))
             (OrganizationUpdate.address u))
          (OrganizationBase.address old)
  with
  | Some org_name, Some email, Some address =>
      Some {| OrganizationBase.id := OrganizationBase.id old;
              OrganizationBase.org_name := org_name;
              OrganizationBase.email := email;
              OrganizationBase.phone :=
                overwrite_nullable "phone" fs (OrganizationUpdate.phone u)
                  (OrganizationBase.phone old);
              OrganizationBase.address := address |}
  | _, _, _ => None
  end.

(** For a House, the resident list of a payload is a list of [UUID]s,
    which are not UNIs: only the empty list is a resident list of the
    merged record. *)
Definition merge_house (e : Env) (u : HouseUpdate.t) (old : HouseBase.t)
    : option HouseBase.t :=
  let fs := HouseUpdate.model_fields_set u in
  match overwrite_nullable "address" fs
          (option_map (AddressBase.completed (uuid4_at e (uuid_draws e)))
             (HouseUpdate.address u))
          (HouseBase.address old),
        (if is_set "people" fs
         then match HouseUpdate.people u with
              | Some [] => Some []
              | _ => None
              end
         else Some (HouseBase.people old))
  with
  | Some address, Some people =>
      Some {| HouseBase.id := HouseBase.id old;
              HouseBase.phone :=
                overwrite_nullable "phone" fs (HouseUpdate.phone u)
                  (HouseBase.phone old);
              HouseBase.address := Some address;
              HouseBase.people := people |}
  | _, _ => None
  end.

(** The record that an update leaves: the merged fields, the stored
    [created_at], and [now] as [updated_at]. *)
Definition restamp {B} (b : B) (old : ReadModel.t B) (now : datetime)
    : ReadModel.t B :=
  {| ReadModel.base := b;
     ReadModel.created_at := ReadModel.created_at old;
     ReadModel.updated_at := now |}.

(** A computation that raises nothing but [ValidationError]. *)
Definition only_ValidationError {A} (c : M Env A) : Prop :=
  forall e x e', c e = (Raise x, e') -> x = ValidationError.

(** The value a computation returned, if it returned. *)
Definition returned {A} (r : result A) : option A :=
  match r with Return a => Some a | Raise _ => None end.

(** The resident list that [GET /houses/{house_id}] shows. *)
Definition people_shown (house_id : UUID) (w : World) : option (list UNIType) :=
  option_map (fun r => HouseBase.people (ReadModel.base r))
    (returned (fst (get_house house_id w))).

(** *** Errors, identifiers and addresses *)

(** The computation left with an exception. *)
Definition raises {A} (r : result A) : bool :=
  match r with Return _ => false | Raise _ => true end.

(** The request is answered with an error. *)
Definition failed (rq : request) (w : World) : bool :=
  match rq with
  | CreateAddress address => raises (fst (create_address address w))
  | ListAddresses street city state postal_code country =>
      raises (fst (list_addresses street city state postal_code country w))
  | GetAddress address_id => raises (fst (get_address address_id w))
  | UpdateAddress address_id update =>
      raises (fst (update_address address_id update w))
  | CreatePerson person => raises (fst (create_person person w))
  | ListPersons uni first_name last_name email phone birth_date city country =>
      raises (fst (list_persons uni first_name last_name email phone
                     birth_date city country w))
  | GetPerson person_id => raises (fst (get_person person_id w))
  | UpdatePerson person_id update =>
      raises (fst (update_person person_id update w))
  | CreateOrganization organization =>
      raises (fst (create_organization organization w))
  | ListOrganizations org_name email phone city country =>
      raises (fst (list_organizations org_name email phone city country w))
  | GetOrganization organization_id =>
      raises (fst (get_organization organization_id w))
  | UpdateOrganization organization_id update =>
      raises (fst (update_organization organization_id update w))
  | CreateHouse house => raises (fst (create_house house w))
  | ListHouses phone person_uni city country =>
      raises (fst (list_houses phone person_uni city country w))
  | GetHouse house_id => raises (fst (get_house house_id w))
  | UpdateHouse house_id update =>
      raises (fst (update_house house_id update w))
  end.

(** The exception a computation left with, if it raised. *)
Definition exception {A} (r : result A) : option exn :=
  match r with Return _ => None | Raise x => Some x end.

(** The exception a request ends with, if it fails. *)
Definition error_of (rq : request) (w : World) : option exn :=
  match rq with
  | CreateAddress address => exception (fst (create_address address w))
  | ListAddresses street city state postal_code country =>
      exception (fst (list_addresses street city state postal_code country w))
  | GetAddress address_id => exception (fst (get_address address_id w))
  | UpdateAddress address_id update =>
      exception (fst (update_address address_id update w))
  | CreatePerson person => exception (fst (create_person person w))
  | ListPersons uni first_name last_name email phone birth_date city country =>
      exception (fst (list_persons uni first_name last_name email phone
                        birth_date city country w))
  | GetPerson person_id => exception (fst (get_person person_id w))
  | UpdatePerson person_id update =>
      exception (fst (update_person person_id update w))
  | CreateOrganization organization =>
      exception (fst (create_organization organization w))
  | ListOrganizations org_name email phone city country =>
      exception (fst (list_organizations org_name email phone city country w))
  | GetOrganization organization_id =>
      exception (fst (get_organization organization_id w))
  | UpdateOrganization organization_id update =>
      exception (fst (update_organization organization_id update w))
  | CreateHouse house => exception (fst (create_house house w))
  | ListHouses phone person_uni city country =>
      exception (fst (list_houses phone person_uni city country w))
  | GetHouse house_id => exception (fst (get_house house_id w))
  | UpdateHouse house_id update =>
      exception (fst (update_house house_id update w))
  end.

(** The four stores of [w'] are those of [w]. *)
Definition same_stores (w w' : World) : Prop :=
  persons w' = persons w /\ addresses w' = addresses w
  /\ organizations w' = organizations w /\ houses w' = houses w.

(** No key of the store occurs twice, and every record sits under its own
    identifier. *)
Definition filed_by_id {B} (id_of : B -> UUID)
    (d : PyDict.t UUID (ReadModel.t B)) : Prop :=
  NoDup (PyDict.keys d)
  /\ forall k r, In (k, r) d -> id_of (ReadModel.base r) = k.

Definition all_filed_by_id (w : World) : Prop :=
  filed_by_id PersonBase.id (persons w)
  /\ filed_by_id AddressBase.id (addresses w)
  /\ filed_by_id OrganizationBase.id (organizations w)
  /\ filed_by_id HouseBase.id (houses w).

(** Every stored House has an address. *)
Definition houses_have_address (w : World) : Prop :=
  forall r, In r (PyDict.values (houses w)) ->
    HouseBase.address (ReadModel.base r) <> None.

(** A store after a request: as before, or with one item assigned a
    record that satisfies [extra] and carries the identifier it is filed
    under, or the identifier of the record it replaces. *)
Definition refiled {B} (id_of : B -> UUID) (extra : ReadModel.t B -> Prop)
    (d d' : PyDict.t UUID (ReadModel.t B)) : Prop :=
  d' = d
  \/ exists k r,
       d' = PyDict.setitem k r d /\ extra r
       /\ (id_of (ReadModel.base r) = k
           \/ exists old,
                PyDict.get k d = Some old
                /\ id_of (ReadModel.base r) = id_of (ReadModel.base old)).

(** Every attribute that the address [s] of a payload does not give is
    [None] in [a]. *)
Definition not_given_is_None (s : AddressBase.supplied) (a : AddressBase.t)
    : Prop :=
  let fs := AddressBase.model_fields_set s in
  (is_set "street" fs = false -> AddressBase.street a = None)
  /\ (is_set "city" fs = false -> AddressBase.city a = None)
  /\ (is_set "state" fs = false -> AddressBase.state a = None)
  /\ (is_set "postal_code" fs = false -> AddressBase.postal_code a = None)
  /\ (is_set "country" fs = false -> AddressBase.country a = None).

(** The house passes the filters of [list_houses]. *)
Definition house_passes (phone : option string) (person_uni : option UNIType)
    (city country : option string) (p : HouseRead.t) : bool :=
  passes phone (fun phone p =>
    optional_str_eq (HouseBase.phone (ReadModel.base p)) phone) p
  && passes city (fun city p =>
       match HouseBase.address (ReadModel.base p) with
       | Some a => optional_str_eq (AddressBase.city a) city
       | None => false
       end) p
  && passes country (fun country p =>
       match HouseBase.address (ReadModel.base p) with
       | Some a => optional_str_eq (AddressBase.country a) country
       | None => false
       end) p
  && passes person_uni (fun person_uni p =>
       existsb (fun uni => String.eqb uni person_uni)
         (HouseBase.people (ReadModel.base p))) p.

End Spec.

(* ===================================================================== *)
(** ** A running example *)
(* ===================================================================== *)

Module Example.
Import Main.

(** A clock that advances by one microsecond between readings, and an
    identifier source. *)
Definition env0 : Env :=
  {| utcnow_at := fun n => (Z.of_nat n + 1736936430000000)%Z;
     clock_reads := 0;
     uuid4_at := fun n => (N.of_nat n + 1000)%N;
     uuid_draws := 0 |}.

Definition empty_world : World :=
  {| env := env0; persons := []; addresses := []; organizations := [];
     houses := [] |}.

Definition main_st : AddressBase.t :=
  {| AddressBase.id := 1%N;
     AddressBase.street := Some "1 Main St";
     AddressBase.city := Some "NYC";
     AddressBase.state := Some "NY";
     AddressBase.postal_code := Some "10025";
     AddressBase.country := Some "US" |}.

Definition downing_st : AddressBase.t :=
  {| AddressBase.id := 2%N;
     AddressBase.street := Some "10 Downing St";
     AddressBase.city := Some "London";
     AddressBase.state := None;
     AddressBase.postal_code := Some "SW1A 2AA";
     AddressBase.country := Some "UK" |}.

Definition person : PersonCreate.t :=
  {| PersonBase.id := 3%N;
     PersonBase.uni := "abc1234";
     PersonBase.first_name := "Ada";
     PersonBase.last_name := "Lovelace";
     PersonBase.email := "ada@example.com";
     PersonBase.phone := None;
     PersonBase.birth_date := Some {| year := 1815; month := 12; day := 10 |};
     PersonBase.addresses := [main_st; downing_st] |}.

Definition organization : OrganizationCreate.t :=
  {| OrganizationBase.id := 4%N;
     OrganizationBase.org_name := "Computer Science";
     OrganizationBase.email := "columbia_cs@columbia.edu";
     OrganizationBase.phone := Some "+1-212-555-0199";
     OrganizationBase.address := main_st |}.

Definition house : HouseCreate.t :=
  {| HouseBase.id := 5%N;
     HouseBase.phone := Some "+1-212-555-0199";
     HouseBase.address := Some main_st;
     HouseBase.people := ["abc1234"] |}.

(** The process after one entity of each kind was created. *)
Definition populated : World :=
  let w := snd (create_address main_st empty_world) in
  let w := snd (create_person person w) in
  let w := snd (create_organization organization w) in
  snd (create_house house w).

(** A second creation payload under the identifier of [person]. *)
Definition namesake : PersonCreate.t :=
  {| PersonBase.id := 3%N;
     PersonBase.uni := "gh2";
     PersonBase.first_name := "Grace";
     PersonBase.last_name := "Hopper";
     PersonBase.email := "grace@example.com";
     PersonBase.phone := Some "+1-212-555-0100";
     PersonBase.birth_date := None;
     PersonBase.addresses := [] |}.

(** [{"city": "Boston"}] *)
Definition move_to_boston : AddressUpdate.t :=
  {| AddressUpdate.street := None;
     AddressUpdate.city := Some "Boston";
     AddressUpdate.state := None;
     AddressUpdate.postal_code := None;
     AddressUpdate.country := None;
     AddressUpdate.model_fields_set := ["city"] |}.

(** [{"org_name": null}] *)
Definition null_name : OrganizationUpdate.t :=
  {| OrganizationUpdate.org_name := None;
     OrganizationUpdate.email := None;
     OrganizationUpdate.phone := None;
     OrganizationUpdate.address := None;
     OrganizationUpdate.model_fields_set := ["org_name"] |}.

(** [{"phone": "+1-415-555-0199"}] *)
Definition new_phone : OrganizationUpdate.t :=
  {| OrganizationUpdate.org_name := None;
     OrganizationUpdate.email := None;
     OrganizationUpdate.phone := Some "+1-415-555-0199";
     OrganizationUpdate.address := None;
     OrganizationUpdate.model_fields_set := ["phone"] |}.

(** [{"address": {"city": "Boston"}}]: of the address only the city is
    given; the other attributes hold their defaults. *)
Definition house_moves : HouseUpdate.t :=
  {| HouseUpdate.phone := None;
     HouseUpdate.address :=
       Some {| AddressBase.value :=
                 {| AddressBase.id := 999%N;
                    AddressBase.street := None;
                    AddressBase.city := Some "Boston";
                    AddressBase.state := None;
                    AddressBase.postal_code := None;
                    AddressBase.country := None |};
               AddressBase.model_fields_set := ["city"] |};
     HouseUpdate.people := None;
     HouseUpdate.model_fields_set := ["address"] |}.

(** [{"first_name": "Augusta", "phone": null}] *)
Definition renamed : PersonUpdate.t :=
  {| PersonUpdate.uni := None;
     PersonUpdate.first_name := Some "Augusta";
     PersonUpdate.last_name := None;
     PersonUpdate.email := None;
     PersonUpdate.phone := None;
     PersonUpdate.birth_date := None;
     PersonUpdate.addresses := None;
     PersonUpdate.model_fields_set := ["first_name"; "phone"] |}.

(** A process whose clock returns the same reading every time (a coarse
    clock read again within one tick), after one Organization was
    created. *)
Definition stalled : World :=
  snd (create_organization organization
         {| env := {| utcnow_at := fun _ => 1736936430000000%Z;
                      clock_reads := 0;
                      uuid4_at := fun n => (N.of_nat n + 1000)%N;
                      uuid_draws := 0 |};
            persons := []; addresses := []; organizations := [];
            houses := [] |}).

(** A process, just started, whose clock steps back from one reading to
    the next (the system clock is being set back). *)
Definition backward : World :=
  {| env := {| utcnow_at := fun n => (- Z.of_nat n + 1736936430000000)%Z;
               clock_reads := 0;
               uuid4_at := fun n => (N.of_nat n + 1000)%N;
               uuid_draws := 0 |};
     persons := []; addresses := []; organizations := []; houses := [] |}.

(** The process after [house], with [people = ["abc1234"]], was created. *)
Definition with_house : World := snd (create_house house empty_world).

(** The body [{"people": ["xyz9999"]}] of a PATCH request. *)
Definition replace_people : pydict := [("people", PList [PStr "xyz9999"])].

(** The same request with a resident list that does decode: the text of
    a UUID. *)
Definition replace_people_by_uuid : pydict :=
  [("people", PList [PStr "550e8400-e29b-41d4-a716-446655440000"])].

(** Requests that create [house] and then change its phone number. *)
Definition house_requests : list Spec.request :=
  [ Spec.CreateHouse house;
    Spec.UpdateHouse 5%N
      {| HouseUpdate.phone := Some "+1-415-555-0199";
         HouseUpdate.address := None;
         HouseUpdate.people := None;
         HouseUpdate.model_fields_set := ["phone"] |};
    Spec.GetHouse 5%N ].

(** [{"address": {"city": "Boston"}}] for an Organization. *)
Definition org_moves : OrganizationUpdate.t :=
  {| OrganizationUpdate.org_name := None;
     OrganizationUpdate.email := None;
     OrganizationUpdate.phone := None;
     OrganizationUpdate.address :=
       Some {| AddressBase.value :=
                 {| AddressBase.id := 999%N;
                    AddressBase.street := None;
                    AddressBase.city := Some "Boston";
                    AddressBase.state := None;
                    AddressBase.postal_code := None;
                    AddressBase.country := None |};
               AddressBase.model_fields_set := ["city"] |};
     OrganizationUpdate.model_fields_set := ["address"] |}.

(** The record that the update [org_moves] of [organization] returns. *)
Definition org_moved : OrganizationRead.t :=
  match fst (update_organization 4%N org_moves populated) with
  | Return r => r
  | Raise _ => Spec.stamped env0 organization
  end.

(** The record that the update [move_to_boston] of [main_st] returns. *)
Definition moved : AddressRead.t :=
  match fst (update_address 1%N move_to_boston populated) with
  | Return r => r
  | Raise _ => Spec.stamped env0 main_st
  end.

(** [{}]: a payload that gives no field. *)
Definition nothing : OrganizationUpdate.t :=
  {| OrganizationUpdate.org_name := None;
     OrganizationUpdate.email := None;
     OrganizationUpdate.phone := None;
     OrganizationUpdate.address := None;
     OrganizationUpdate.model_fields_set := [] |}.

(** A House payload whose resident list is one UUID. *)
Definition take_residents : HouseUpdate.t :=
  {| HouseUpdate.phone := None;
     HouseUpdate.address := None;
     HouseUpdate.people := Some [113059749145936325402354257176981405696%N];
     HouseUpdate.model_fields_set := ["people"] |}.

(** A House payload without an address. *)
Definition homeless : HouseCreate.t :=
  {| HouseBase.id := 9%N;
     HouseBase.phone := None;
     HouseBase.address := None;
     HouseBase.people := [] |}.

End Example.

(* ===================================================================== *)
(** * Properties *)
(* ===================================================================== *)

(** ** Dictionaries *)

Module PyDictFacts.
Import PyDict.
Section Facts.
Context {K V : Type} `{Key K}.
Implicit Types (d other : PyDict.t K V) (k : K) (v : V).

Lemma key_eqb_refl (k : K) : key_eqb k k = true.
Proof. destruct (key_eqb_spec k k); congruence. Qed.

Lemma key_eqb_neq (a b : K) : a <> b -> key_eqb a b = false.
Proof. intros Hab. destruct (key_eqb_spec a b); congruence. Qed.

Lemma get_setitem_same k v d : get k (setitem k v d) = Some v.
Proof.
  induction d as [|[k' v'] d IH]; simpl.
  - now rewrite key_eqb_refl.
  - destruct (key_eqb k k') eqn:E; simpl; rewrite E; auto.
Qed.

Lemma get_setitem_other k k' v d :
  k' <> k -> get k' (setitem k v d) = get k' d.
Proof.
  intros Hne. induction d as [|[k0 v0] d IH]; simpl.
  - now rewrite key_eqb_neq.
  - destruct (key_eqb_spec k k0) as [->|Hk]; simpl.
    + now rewrite key_eqb_neq.
    + destruct (key_eqb k' k0); auto.
Qed.

Lemma get_setitem k k' v d :
  get k' (setitem k v d) = if key_eqb k' k then Some v else get k' d.
Proof.
  destruct (key_eqb_spec k' k) as [->|Hne].
  - apply get_setitem_same.
  - now apply get_setitem_other.
Qed.

Lemma len_setitem_present k v d :
  contains k d = true -> len (setitem k v d) = len d.
Proof.
  unfold contains, len. induction d as [|[k' v'] d IH]; simpl.
  - discriminate.
  - destruct (key_eqb k k'); simpl; auto.
Qed.

Lemma len_setitem_absent k v d :
  contains k d = false -> len (setitem k v d) = S (len d).
Proof.
  unfold contains, len. induction d as [|[k' v'] d IH]; simpl.
  - reflexivity.
  - destruct (key_eqb k k'); simpl; [discriminate|auto].
Qed.

Lemma keys_setitem_present k v d :
  contains k d = true -> keys (setitem k v d) = keys d.
Proof.
  unfold contains, keys. induction d as [|[k' v'] d IH]; simpl.
  - discriminate.
  - destruct (key_eqb k k'); simpl; intros; [reflexivity|f_equal; auto].
Qed.

Lemma setitem_absent k v d :
  contains k d = false -> setitem k v d = d ++ [(k, v)].
Proof.
  unfold contains. induction d as [|[k' v'] d IH]; simpl.
  - reflexivity.
  - destruct (key_eqb k k'); [discriminate|].
    intros Hd. now rewrite IH.
Qed.

Lemma get_update k d other :
  get k (update d other) =
  match get k (rev other) with Some v => Some v | None => get k d end.
Proof.
  unfold update. revert d.
  induction other as [|[k0 v0] other IH] using rev_ind; intros d.
  - reflexivity.
  - rewrite fold_left_app, rev_app_distr. simpl.
    rewrite get_setitem.
    destruct (key_eqb k k0); [reflexivity|apply IH].
Qed.

Lemma get_restrict k ks d :
  get k (restrict ks d) = if existsb (key_eqb k) ks then get k d else None.
Proof.
  induction d as [|[k' v'] d IH]; simpl.
  - now destruct (existsb _ ks).
  - destruct (existsb (key_eqb k') ks) eqn:E; simpl;
      destruct (key_eqb_spec k k') as [->|Hne]; auto.
    + now rewrite E.
    + now rewrite IH, E.
Qed.

(** Every stored value is in [values], and conversely. *)
Lemma get_In_values k d v : get k d = Some v -> In v (values d).
Proof.
  unfold values. induction d as [|[k' v'] d IH]; simpl.
  - discriminate.
  - destruct (key_eqb k k'); [intros [= ->]; now left|auto].
Qed.

Lemma In_setitem_values x k v d :
  In x (values (setitem k v d)) -> x = v \/ In x (values d).
Proof.
  unfold values. induction d as [|[k' v'] d IH]; simpl.
  - intros [<-|[]]; now left.
  - destruct (key_eqb k k'); simpl.
    + intros [<-|Hin]; auto.
    + intros [<-|Hin]; auto. destruct (IH Hin); auto.
Qed.

(** Assigning to a present key replaces its item where it stands. *)
Lemma setitem_present_split k v d :
  contains k d = true ->
  exists before old after,
    d = before ++ (k, old) :: after
    /\ get k before = None
    /\ setitem k v d = before ++ (k, v) :: after.
Proof.
  unfold contains. induction d as [|[k' v'] d IH]; simpl.
  - discriminate.
  - destruct (key_eqb_spec k k') as [<-|Hne].
    + intros _. exists [], v', d. simpl. auto.
    + intros Hin. destruct (IH Hin) as (b & old & a & -> & Hb & ->).
      exists ((k', v') :: b), old, a. simpl.
      rewrite key_eqb_neq by assumption. auto.
Qed.

Lemma setitem_setitem k v1 v2 d :
  setitem k v2 (setitem k v1 d) = setitem k v2 d.
Proof.
  induction d as [|[k' v'] d IH]; simpl.
  - now rewrite key_eqb_refl.
  - destruct (key_eqb k k') eqn:E; simpl; rewrite E; [reflexivity|].
    now rewrite IH.
Qed.

Lemma contains_true_get k d :
  contains k d = true -> exists v, get k d = Some v.
Proof. unfold contains. destruct (get k d); [eauto|discriminate]. Qed.

Lemma get_contains k d v : get k d = Some v -> contains k d = true.
Proof. unfold contains. now intros ->. Qed.

End Facts.
End PyDictFacts.

Import Main Spec.

(** ** Running computations *)

Lemma bind_Return {S A B} (c : M S A) (k : A -> M S B) s a s' :
  c s = (Return a, s') -> bind c k s = k a s'.
Proof. intros Hc. unfold bind. now rewrite Hc. Qed.

Lemma bind_Raise {S A B} (c : M S A) (k : A -> M S B) s e s' :
  c s = (Raise e, s') -> bind c k s = (Raise e, s').
Proof. intros Hc. unfold bind. now rewrite Hc. Qed.

Lemma bind_inv {S A B} (c : M S A) (k : A -> M S B) s b s2 :
  bind c k s = (Return b, s2) ->
  exists a s1, c s = (Return a, s1) /\ k a s1 = (Return b, s2).
Proof.
  unfold bind. destruct (c s) as [[a|e] s1]; [eauto|discriminate].
Qed.

Lemma ap_Return {S A B} (cf : M S (A -> B)) (ca : M S A) s f s1 a s2 :
  cf s = (Return f, s1) -> ca s1 = (Return a, s2) ->
  ap cf ca s = (Return (f a), s2).
Proof. intros Hf Ha. unfold ap. now rewrite Hf, Ha. Qed.

Lemma ap_Raise_r {S A B} (cf : M S (A -> B)) (ca : M S A) s f s1 x s2 :
  cf s = (Return f, s1) -> ca s1 = (Raise x, s2) ->
  ap cf ca s = (Raise x, s2).
Proof. intros Hf Ha. unfold ap. now rewrite Hf, Ha. Qed.

Lemma ap_Raise_l {S A B} (cf : M S (A -> B)) (ca : M S A) s x s1 :
  cf s = (Raise x, s1) -> ap cf ca s = (Raise x, snd (ca s1)).
Proof.
  intros Hf. unfold ap. rewrite Hf. now destruct (ca s1) as [[a|y] s2].
Qed.

Lemma ap_inv {S A B} (cf : M S (A -> B)) (ca : M S A) s b s2 :
  ap cf ca s = (Return b, s2) ->
  exists f s1 a,
    cf s = (Return f, s1) /\ ca s1 = (Return a, s2) /\ b = f a.
Proof.
  unfold ap. destruct (cf s) as [[f|x] s1];
    destruct (ca s1) as [[a|y] s2'] eqn:Ha; try discriminate.
  intros [= <- <-]. now exists f, s1, a.
Qed.

(** Where [ap] raises, one of the two did. *)
Lemma ap_Raise_inv {S A B} (cf : M S (A -> B)) (ca : M S A) s x s2 :
  ap cf ca s = (Raise x, s2) ->
  (exists s1, cf s = (Raise x, s1))
  \/ (exists r s1, cf s = (r, s1) /\ ca s1 = (Raise x, s2)).
Proof.
  unfold ap. destruct (cf s) as [[f|y] s1] eqn:Hf.
  - destruct (ca s1) as [[a|z] s2'] eqn:Ha; [discriminate|].
    intros [= <- <-]. right. eauto.
  - destruct (ca s1) as [ra s2'] eqn:Ha. intros [= <- <-]. left. eauto.
Qed.

(** The state after [ap] is the state after the two in turn. *)
Lemma ap_state {S A B} (cf : M S (A -> B)) (ca : M S A) s :
  snd (ap cf ca s) = snd (ca (snd (cf s))).
Proof.
  unfold ap. destruct (cf s) as [rf s1]. cbn [snd].
  now destruct (ca s1) as [ra s2].
Qed.

Lemma in_env_Return {A} (c : M Env A) w a e :
  c (env w) = (Return a, e) -> in_env c w = (Return a, with_env e w).
Proof. intros Hc. unfold in_env. now rewrite Hc. Qed.

Lemma in_env_Raise {A} (c : M Env A) w x e :
  c (env w) = (Raise x, e) -> in_env c w = (Raise x, with_env e w).
Proof. intros Hc. unfold in_env. now rewrite Hc. Qed.

Lemma with_env_same w : with_env (env w) w = w.
Proof. now destruct w. Qed.

(** Unfolds a handler up to its first test on the store. *)
Ltac enter_handler :=
  unfold bind, contains, getitem, setitem, values; cbn [content replace_content
    addresses_db persons_db organizations_db houses_db fst snd].

(** ** Errors leave the process as it was *)

(** *** Duplicate identifiers *)

Lemma create_address_duplicate w (address : AddressCreate.t) :
  PyDict.contains (AddressBase.id address) (addresses w) = true ->
  create_address address w =
    (Raise (HTTPException 400 "Address with this ID already exists"), w).
Proof. intros Hin. unfold create_address. enter_handler. now rewrite Hin. Qed.

Lemma create_organization_duplicate w (organization : OrganizationCreate.t) :
  PyDict.contains (OrganizationBase.id organization) (organizations w) = true ->
  create_organization organization w =
    (Raise (HTTPException 400 "Organization with this ID already exists"), w).
Proof.
  intros Hin. unfold create_organization. enter_handler. now rewrite Hin.
Qed.

Lemma create_house_duplicate w (house : HouseCreate.t) :
  PyDict.contains (HouseBase.id house) (houses w) = true ->
  create_house house w =
    (Raise (HTTPException 400 "House with this ID already exists"), w).
Proof. intros Hin. unfold create_house. enter_handler. now rewrite Hin. Qed.

(** *** Unknown identifiers *)

Section NotFound.
Variable w : World.
Variable id : UUID.

Lemma get_address_not_found :
  PyDict.contains id (addresses w) = false ->
  get_address id w = (Raise (HTTPException 404 "Address not found"), w).
Proof. intros Hin. unfold get_address. enter_handler. now rewrite Hin. Qed.

Lemma update_address_not_found update :
  PyDict.contains id (addresses w) = false ->
  update_address id update w =
    (Raise (HTTPException 404 "Address not found"), w).
Proof. intros Hin. unfold update_address. enter_handler. now rewrite Hin. Qed.

Lemma get_person_not_found :
  PyDict.contains id (persons w) = false ->
  get_person id w = (Raise (HTTPException 404 "Person not found"), w).
Proof. intros Hin. unfold get_person. enter_handler. now rewrite Hin. Qed.

Lemma update_person_not_found update :
  PyDict.contains id (persons w) = false ->
  update_person id update w =
    (Raise (HTTPException 404 "Person not found"), w).
Proof. intros Hin. unfold update_person. enter_handler. now rewrite Hin. Qed.

Lemma get_organization_not_found :
  PyDict.contains id (organizations w) = false ->
  get_organization id w =
    (Raise (HTTPException 404 "Organization not found"), w).
Proof. intros Hin. unfold get_organization. enter_handler. now rewrite Hin. Qed.

Lemma update_organization_not_found update :
  PyDict.contains id (organizations w) = false ->
  update_organization id update w =
    (Raise (HTTPException 404 "Organization not found"), w).
Proof.
  intros Hin. unfold update_organization. enter_handler. now rewrite Hin.
Qed.

Lemma get_house_not_found :
  PyDict.contains id (houses w) = false ->
  get_house id w = (Raise (HTTPException 404 "House not found"), w).
Proof. intros Hin. unfold get_house. enter_handler. now rewrite Hin. Qed.

Lemma update_house_not_found update :
  PyDict.contains id (houses w) = false ->
  update_house id update w = (Raise (HTTPException 404 "House not found"), w).
Proof. intros Hin. unfold update_house. enter_handler. now rewrite Hin. Qed.

End NotFound.

(** ** Listing *)

Lemma filter_if_passes {A F} (flt : option F) (test : F -> A -> bool) l :
  filter_if flt test l = filter (passes flt test) l.
Proof.
  destruct flt; simpl; [reflexivity|].
  induction l as [|x l IH]; simpl; congruence.
Qed.

Lemma filter_filter {A} (p q : A -> bool) l :
  filter q (filter p l) = filter (fun x => p x && q x) l.
Proof.
  induction l as [|x l IH]; simpl; [reflexivity|].
  destruct (p x); simpl; [destruct (q x)|]; congruence.
Qed.

Lemma optional_str_eq_true x s : optional_str_eq x s = true <-> x = Some s.
Proof.
  destruct x as [x|]; simpl.
  - rewrite String.eqb_eq. split; congruence.
  - split; discriminate.
Qed.

Lemma passes_true {A F} (flt : option F) (test : F -> A -> bool) x :
  passes flt test x = true <-> forall f, flt = Some f -> test f x = true.
Proof.
  destruct flt as [f|]; simpl.
  - split; [intros Ht f' [= <-]; exact Ht|auto].
  - split; [discriminate|reflexivity].
Qed.

Lemma existsb_city city l :
  existsb (fun addr => optional_str_eq (AddressBase.city addr) city) l = true
  <-> exists addr, In addr l /\ AddressBase.city addr = Some city.
Proof.
  rewrite existsb_exists.
  split; intros (a & Hin & Ha); exists a; split; auto;
    now apply optional_str_eq_true.
Qed.

Lemma existsb_country country l :
  existsb (fun addr => optional_str_eq (AddressBase.country addr) country) l = true
  <-> exists addr, In addr l /\ AddressBase.country addr = Some country.
Proof.
  rewrite existsb_exists.
  split; intros (a & Hin & Ha); exists a; split; auto;
    now apply optional_str_eq_true.
Qed.

(** C8. With every filter absent, each list endpoint returns every record
    of its store, in the store's order, and changes nothing. *)
Theorem list_without_filters_returns_all (w : World) :
  list_addresses None None None None None w
    = (Return (PyDict.values (addresses w)), w)
  /\ list_persons None None None None None None None None w
    = (Return (PyDict.values (persons w)), w)
  /\ list_organizations None None None None None w
    = (Return (PyDict.values (organizations w)), w)
  /\ list_houses None None None None w
    = (Return (PyDict.values (houses w)), w).
Proof. repeat split. Qed.

(** C5. [list_persons] returns, in the store's order, exactly the persons
    that pass every filter supplied.  The city filter asks for some
    embedded address in that city and the country filter for some embedded
    address in that country, each on its own: no single address has to
    satisfy both. *)
Theorem list_persons_filters_conjunction (w : World)
    (uni first_name last_name email phone birth_date city country : option string) :
  exists results,
    list_persons uni first_name last_name email phone birth_date city country w
      = (Return results, w)
    /\ (exists keep, results = filter keep (PyDict.values (persons w)))
    /\ forall p, In p results <->
         In p (PyDict.values (persons w))
         /\ (forall x, uni = Some x -> PersonBase.uni (ReadModel.base p) = x)
         /\ (forall x, first_name = Some x ->
               PersonBase.first_name (ReadModel.base p) = x)
         /\ (forall x, last_name = Some x ->
               PersonBase.last_name (ReadModel.base p) = x)
         /\ (forall x, email = Some x -> PersonBase.email (ReadModel.base p) = x)
         /\ (forall x, phone = Some x ->
               PersonBase.phone (ReadModel.base p) = Some x)
         /\ (forall x, birth_date = Some x ->
               str_optional_date (PersonBase.birth_date (ReadModel.base p)) = x)
         /\ (forall X, city = Some X -> lives_in_city X p)
         /\ (forall Y, country = Some Y -> lives_in_country Y p).
Proof.
  eexists. split; [reflexivity|]. split.
  - rewrite !filter_if_passes, !filter_filter. eexists. reflexivity.
  - intros p. rewrite !filter_if_passes, !filter_In, !passes_true.
    unfold lives_in_city, lives_in_country.
    setoid_rewrite String.eqb_eq.
    setoid_rewrite optional_str_eq_true.
    setoid_rewrite existsb_city.
    setoid_rewrite existsb_country.
    tauto.
Qed.

(** ** Model constructors *)

Lemma field_given {A} kwargs name (v : validator A) d x :
  PyDict.get name kwargs = Some x -> field kwargs name v d = v x.
Proof. intros Hg. unfold field. now rewrite Hg. Qed.

Lemma field_default {A} kwargs name (v : validator A) d :
  PyDict.get name kwargs = None -> field kwargs name v d = d.
Proof. intros Hg. unfold field. now rewrite Hg. Qed.

Lemma as_optional_str_dump (o : option string) e :
  as_optional as_str (dump_optional PStr o) e = (Return o, e).
Proof. now destruct o. Qed.

Lemma as_optional_date_dump (o : option date) e :
  as_optional as_date (dump_optional PDate o) e = (Return o, e).
Proof. now destruct o. Qed.

Lemma traverse_as_UNIType_dump (l : list UNIType) e :
  traverse as_UNIType (map PStr l) e = (Return l, e).
Proof.
  induction l as [|x l IH]; simpl; [reflexivity|].
  exact (ap_Return _ _ _ _ _ _ _ eq_refl IH).
Qed.

(** Splits a constructor that returns into its fields, first to last. *)
Ltac run_fields := repeat (eapply ap_Return); [reflexivity|..].

Lemma AddressBase_init_from kwargs e i st ci sa pc co :
  PyDict.get "id" kwargs = Some (PUuid i) ->
  PyDict.get "street" kwargs = Some (dump_optional PStr st) ->
  PyDict.get "city" kwargs = Some (dump_optional PStr ci) ->
  PyDict.get "state" kwargs = Some (dump_optional PStr sa) ->
  PyDict.get "postal_code" kwargs = Some (dump_optional PStr pc) ->
  PyDict.get "country" kwargs = Some (dump_optional PStr co) ->
  AddressBase.init kwargs e =
    (Return {| AddressBase.id := i; AddressBase.street := st;
               AddressBase.city := ci; AddressBase.state := sa;
               AddressBase.postal_code := pc; AddressBase.country := co |}, e).
Proof.
  intros H1 H2 H3 H4 H5 H6. unfold AddressBase.init.
  rewrite (field_given _ _ _ _ _ H1), (field_given _ _ _ _ _ H2),
    (field_given _ _ _ _ _ H3), (field_given _ _ _ _ _ H4),
    (field_given _ _ _ _ _ H5), (field_given _ _ _ _ _ H6).
  run_fields; [reflexivity|apply as_optional_str_dump..].
Qed.

(** Rebuilding an address from its own dump gives it back and draws
    nothing. *)
Lemma AddressBase_init_dump a e :
  AddressBase.init (AddressBase.model_dump a) e = (Return a, e).
Proof. destruct a. now apply AddressBase_init_from. Qed.

Lemma AddressBase_validate_dump a e :
  AddressBase.validate (PDict (AddressBase.model_dump a)) e = (Return a, e).
Proof. apply AddressBase_init_dump. Qed.

Lemma traverse_AddressBase_validate_dump (l : list AddressBase.t) e :
  traverse AddressBase.validate
    (map (fun a => PDict (AddressBase.model_dump a)) l) e = (Return l, e).
Proof.
  induction l as [|a l IH]; simpl; [reflexivity|].
  exact (ap_Return _ _ _ _ _ _ _
           (ap_Return _ _ _ _ _ _ _ eq_refl (AddressBase_validate_dump a e))
           IH).
Qed.

Lemma ret_run {S A} (a : A) (s : S) : ret a s = (Return a, s).
Proof. reflexivity. Qed.

Lemma get_exclude_unset (k : string) fs (d : pydict) :
  PyDict.get k (PyDict.restrict fs d)
  = if is_set k fs then PyDict.get k d else None.
Proof. exact (@PyDictFacts.get_restrict string pyval string_Key k fs d). Qed.

(** What the merged dictionary of an update handler holds under [k]: the
    payload's value when the payload was given [k], else the stored one. *)
Lemma get_update_exclude_unset (k : string) fs (d payload : pydict) :
  PyDict.get k (PyDict.update d (PyDict.restrict fs payload))
  = if is_set k fs
    then match PyDict.get k (rev payload) with
         | Some v => Some v
         | None => PyDict.get k d
         end
    else PyDict.get k d.
Proof.
  rewrite PyDictFacts.get_update. unfold PyDict.restrict.
  rewrite <- filter_rev.
  change (filter _ (rev payload)) with (PyDict.restrict fs (rev payload)).
  rewrite get_exclude_unset. now destruct (is_set k fs).
Qed.

Arguments is_set : simpl never.

Lemma field_exclude_unset_optional_str k fs (d : pydict) o e :
  PyDict.get k d = Some (dump_optional PStr o) ->
  field (PyDict.restrict fs d) k (as_optional as_str) (ret None) e
  = (Return (if is_set k fs then o else None), e).
Proof.
  intros Hk. unfold field. rewrite get_exclude_unset.
  destruct (is_set k fs); [|reflexivity].
  rewrite Hk. apply as_optional_str_dump.
Qed.

(** An address rebuilt from the fields that were given: those keep their
    value, the others take their default, and an identifier is drawn when
    none was given. *)
Lemma AddressBase_init_exclude_unset s e :
  AddressBase.init (AddressBase.model_dump_exclude_unset s) e =
    (Return (AddressBase.completed (uuid4_at e (uuid_draws e)) s),
     if is_set "id" (AddressBase.model_fields_set s) then e else snd (uuid4 e)).
Proof.
  destruct s as [a fs]. unfold AddressBase.model_dump_exclude_unset,
    AddressBase.init, AddressBase.completed.
  cbn [AddressBase.value AddressBase.model_fields_set].
  run_fields;
    try (apply field_exclude_unset_optional_str; reflexivity).
  unfold field. rewrite get_exclude_unset.
  now destruct (is_set "id" fs).
Qed.

Lemma PersonBase_init_from kwargs e e' i u fn ln m ph bd vl l :
  PyDict.get "id" kwargs = Some (PUuid i) ->
  PyDict.get "uni" kwargs = Some (PStr u) ->
  PyDict.get "first_name" kwargs = Some (PStr fn) ->
  PyDict.get "last_name" kwargs = Some (PStr ln) ->
  PyDict.get "email" kwargs = Some (PStr m) ->
  PyDict.get "phone" kwargs = Some (dump_optional PStr ph) ->
  PyDict.get "birth_date" kwargs = Some (dump_optional PDate bd) ->
  PyDict.get "addresses" kwargs = Some vl ->
  as_list AddressBase.validate vl e = (Return l, e') ->
  PersonBase.init kwargs e =
    (Return {| PersonBase.id := i; PersonBase.uni := u;
               PersonBase.first_name := fn; PersonBase.last_name := ln;
               PersonBase.email := m; PersonBase.phone := ph;
               PersonBase.birth_date := bd; PersonBase.addresses := l |}, e').
Proof.
  intros H1 H2 H3 H4 H5 H6 H7 H8 Hl. unfold PersonBase.init.
  rewrite (field_given _ _ _ _ _ H1), (field_given _ _ _ _ _ H2),
    (field_given _ _ _ _ _ H3), (field_given _ _ _ _ _ H4),
    (field_given _ _ _ _ _ H5), (field_given _ _ _ _ _ H6),
    (field_given _ _ _ _ _ H7), (field_given _ _ _ _ _ H8).
  run_fields;
    first [ reflexivity | apply as_optional_str_dump
          | apply as_optional_date_dump | exact Hl ].
Qed.

Lemma PersonBase_init_dump p e :
  PersonBase.init (PersonBase.model_dump p) e = (Return p, e).
Proof.
  destruct p. eapply PersonBase_init_from; try reflexivity.
  apply traverse_AddressBase_validate_dump.
Qed.

Lemma OrganizationBase_init_from kwargs e e' i n m ph va a :
  PyDict.get "id" kwargs = Some (PUuid i) ->
  PyDict.get "org_name" kwargs = Some (PStr n) ->
  PyDict.get "email" kwargs = Some (PStr m) ->
  PyDict.get "phone" kwargs = Some (dump_optional PStr ph) ->
  PyDict.get "address" kwargs = Some va ->
  AddressBase.validate va e = (Return a, e') ->
  OrganizationBase.init kwargs e =
    (Return {| OrganizationBase.id := i; OrganizationBase.org_name := n;
               OrganizationBase.email := m; OrganizationBase.phone := ph;
               OrganizationBase.address := a |}, e').
Proof.
  intros H1 H2 H3 H4 H5 Ha. unfold OrganizationBase.init.
  rewrite (field_given _ _ _ _ _ H1), (field_given _ _ _ _ _ H2),
    (field_given _ _ _ _ _ H3), (field_given _ _ _ _ _ H4),
    (field_given _ _ _ _ _ H5).
  run_fields; first [reflexivity|apply as_optional_str_dump|exact Ha].
Qed.

Lemma OrganizationBase_init_dump o e :
  OrganizationBase.init (OrganizationBase.model_dump o) e = (Return o, e).
Proof.
  destruct o. eapply OrganizationBase_init_from; try reflexivity.
  apply AddressBase_validate_dump.
Qed.

Lemma HouseBase_init_from kwargs e e' i ph va a vp ps :
  PyDict.get "id" kwargs = Some (PUuid i) ->
  PyDict.get "phone" kwargs = Some (dump_optional PStr ph) ->
  PyDict.get "address" kwargs = Some va ->
  AddressBase.validate va e = (Return a, e') ->
  PyDict.get "people" kwargs = Some vp ->
  as_list as_UNIType vp e' = (Return ps, e') ->
  HouseBase.init kwargs e =
    (Return {| HouseBase.id := i; HouseBase.phone := ph;
               HouseBase.address := Some a; HouseBase.people := ps |}, e').
Proof.
  intros H1 H2 H3 Ha H4 Hp. unfold HouseBase.init.
  rewrite (field_given _ _ _ _ _ H1), (field_given _ _ _ _ _ H2),
    (field_given _ _ _ _ _ H3), (field_given _ _ _ _ _ H4).
  assert (Hsome : bind (AddressBase.validate va) (fun a => ret (Some a)) e
                  = (Return (Some a), e'))
    by (now rewrite (bind_Return _ _ _ _ _ Ha)).
  run_fields;
    first [reflexivity|apply as_optional_str_dump|exact Hsome|exact Hp].
Qed.

(** A House rebuilt from its own dump: itself when it has an address; a
    House without one cannot be rebuilt. *)
Lemma HouseBase_init_dump h e a :
  HouseBase.address h = Some a ->
  HouseBase.init (HouseBase.model_dump h) e = (Return h, e).
Proof.
  destruct h as [i ph ad ps]. simpl. intros ->.
  eapply HouseBase_init_from; try reflexivity.
  - apply AddressBase_validate_dump.
  - apply traverse_as_UNIType_dump.
Qed.

Lemma HouseBase_init_dump_without_address h e :
  HouseBase.address h = None ->
  HouseBase.init (HouseBase.model_dump h) e = (Raise ValidationError, e).
Proof.
  destruct h as [i [ph|] ad ps]; simpl; intros ->; unfold HouseBase.init.
  all: match goal with
       | |- ap ?cf _ _ = _ =>
           rewrite (ap_Raise_l cf _ e ValidationError e eq_refl)
       end.
  all: unfold field.
  all: match goal with
       | |- context [PyDict.get "people" ?d] =>
           change (PyDict.get "people" d) with (Some (PList (map PStr ps)))
       end.
  all: cbn [as_list]; now rewrite traverse_as_UNIType_dump.
Qed.

(** *** Read models *)

Section ReadInit.
Context {B : Type} (base_init : pydict -> M Env B).
Variables (kwargs : pydict) (e e' : Env).

Lemma ReadModel_init_given b c u :
  base_init kwargs e = (Return b, e') ->
  PyDict.get "created_at" kwargs = Some (PDatetime c) ->
  PyDict.get "updated_at" kwargs = Some (PDatetime u) ->
  ReadModel.init base_init kwargs e =
    (Return {| ReadModel.base := b; ReadModel.created_at := c;
               ReadModel.updated_at := u |}, e').
Proof.
  intros Hb Hc Hu. unfold ReadModel.init.
  rewrite (field_given _ _ _ _ _ Hc), (field_given _ _ _ _ _ Hu).
  run_fields; [exact Hb|reflexivity..].
Qed.

(** Without timestamps among the arguments, the clock is read twice. *)
Lemma ReadModel_init_fresh b :
  base_init kwargs e = (Return b, e') ->
  PyDict.get "created_at" kwargs = None ->
  PyDict.get "updated_at" kwargs = None ->
  ReadModel.init base_init kwargs e =
    (Return {| ReadModel.base := b;
               ReadModel.created_at := utcnow_at e' (clock_reads e');
               ReadModel.updated_at := utcnow_at e' (S (clock_reads e')) |},
     snd (utcnow (snd (utcnow e')))).
Proof.
  intros Hb Hc Hu. unfold ReadModel.init.
  rewrite (field_default _ _ _ _ Hc), (field_default _ _ _ _ Hu).
  run_fields; [exact Hb|reflexivity..].
Qed.

(** Where the Base fields do not validate, the timestamps are still seen
    to: given, they are validated and the clock is left alone. *)
Lemma ReadModel_init_Raise_given x c u :
  base_init kwargs e = (Raise x, e') ->
  PyDict.get "created_at" kwargs = Some (PDatetime c) ->
  PyDict.get "updated_at" kwargs = Some (PDatetime u) ->
  ReadModel.init base_init kwargs e = (Raise x, e').
Proof.
  intros Hb Hc Hu. unfold ReadModel.init.
  rewrite (field_given _ _ _ _ _ Hc), (field_given _ _ _ _ _ Hu).
  assert (H1 : (ret (ReadModel.Build_t B) <*> base_init kwargs) e
               = (Raise x, e'))
    by (exact (ap_Raise_r (ret (ReadModel.Build_t B)) _ e _ e x e'
                 eq_refl Hb)).
  now rewrite (ap_Raise_l _ _ _ _ _ (ap_Raise_l _ _ _ _ _ H1)).
Qed.

(** Not given, each is still read from the clock by its default factory
    before the constructor raises. *)
Lemma ReadModel_init_Raise_fresh x :
  base_init kwargs e = (Raise x, e') ->
  PyDict.get "created_at" kwargs = None ->
  PyDict.get "updated_at" kwargs = None ->
  ReadModel.init base_init kwargs e
  = (Raise x, snd (utcnow (snd (utcnow e')))).
Proof.
  intros Hb Hc Hu. unfold ReadModel.init.
  rewrite (field_default _ _ _ _ Hc), (field_default _ _ _ _ Hu).
  assert (H1 : (ret (ReadModel.Build_t B) <*> base_init kwargs) e
               = (Raise x, e'))
    by (exact (ap_Raise_r (ret (ReadModel.Build_t B)) _ e _ e x e'
                 eq_refl Hb)).
  now rewrite (ap_Raise_l _ _ _ _ _ (ap_Raise_l _ _ _ _ _ H1)).
Qed.

End ReadInit.

(** ** Creation *)

Ltac run_in_env H :=
  rewrite (bind_Return _ _ _ _ _ (in_env_Return _ _ _ _ H)).

Lemma AddressRead_init_create (address : AddressCreate.t) e :
  AddressRead.init (AddressCreate.model_dump address) e
  = (Return (stamped e address), after_reads 2 e).
Proof.
  exact (ReadModel_init_fresh _ _ _ _ _
           (AddressBase_init_dump address e) eq_refl eq_refl).
Qed.

Lemma PersonRead_init_create (person : PersonCreate.t) e :
  PersonRead.init (PersonCreate.model_dump person) e
  = (Return (stamped e person), after_reads 2 e).
Proof.
  exact (ReadModel_init_fresh _ _ _ _ _
           (PersonBase_init_dump person e) eq_refl eq_refl).
Qed.

Lemma OrganizationRead_init_create (organization : OrganizationCreate.t) e :
  OrganizationRead.init (OrganizationCreate.model_dump organization) e
  = (Return (stamped e organization), after_reads 2 e).
Proof.
  exact (ReadModel_init_fresh _ _ _ _ _
           (OrganizationBase_init_dump organization e) eq_refl eq_refl).
Qed.

Lemma HouseRead_init_create (house : HouseCreate.t) e a :
  HouseBase.address house = Some a ->
  HouseRead.init (HouseCreate.model_dump house) e
  = (Return (stamped e house), after_reads 2 e).
Proof.
  intros Ha.
  exact (ReadModel_init_fresh _ _ _ _ _
           (HouseBase_init_dump house e a Ha) eq_refl eq_refl).
Qed.

Lemma create_address_run w (address : AddressCreate.t) :
  PyDict.contains (AddressBase.id address) (addresses w) = false ->
  create_address address w =
    (Return (stamped (env w) address),
     {| env := after_reads 2 (env w); persons := persons w;
        addresses := PyDict.setitem (AddressBase.id address)
                       (stamped (env w) address) (addresses w);
        organizations := organizations w; houses := houses w |}).
Proof.
  intros Hnew. unfold create_address.
  unfold bind at 1, contains at 1. cbn [content addresses_db]. rewrite Hnew.
  run_in_env (AddressRead_init_create address (env w)).
  unfold bind, setitem, getitem.
  cbn [content replace_content addresses_db with_env addresses].
  now rewrite PyDictFacts.get_setitem_same.
Qed.

Lemma create_person_run w (person : PersonCreate.t) :
  create_person person w =
    (Return (stamped (env w) person),
     {| env := after_reads 2 (env w);
        persons := PyDict.setitem (PersonBase.id person)
                     (stamped (env w) person) (persons w);
        addresses := addresses w;
        organizations := organizations w; houses := houses w |}).
Proof.
  unfold create_person.
  run_in_env (PersonRead_init_create person (env w)).
  reflexivity.
Qed.

Lemma create_organization_run w (organization : OrganizationCreate.t) :
  PyDict.contains (OrganizationBase.id organization) (organizations w) = false ->
  create_organization organization w =
    (Return (stamped (env w) organization),
     {| env := after_reads 2 (env w); persons := persons w;
        addresses := addresses w;
        organizations := PyDict.setitem (OrganizationBase.id organization)
                           (stamped (env w) organization) (organizations w);
        houses := houses w |}).
Proof.
  intros Hnew. unfold create_organization.
  unfold bind at 1, contains at 1. cbn [content organizations_db]. rewrite Hnew.
  run_in_env (OrganizationRead_init_create organization (env w)).
  reflexivity.
Qed.

Lemma create_house_run w (house : HouseCreate.t) a :
  PyDict.contains (HouseBase.id house) (houses w) = false ->
  HouseBase.address house = Some a ->
  create_house house w =
    (Return (stamped (env w) house),
     {| env := after_reads 2 (env w); persons := persons w;
        addresses := addresses w; organizations := organizations w;
        houses := PyDict.setitem (HouseBase.id house)
                    (stamped (env w) house) (houses w) |}).
Proof.
  intros Hnew Ha. unfold create_house.
  unfold bind at 1, contains at 1. cbn [content houses_db]. rewrite Hnew.
  run_in_env (HouseRead_init_create house (env w) a Ha).
  reflexivity.
Qed.

(** A House created without an address: the handler leaves with the
    constructor's [ValidationError] and stores nothing; the two default
    factories of [HouseRead] have read the clock by then. *)
Lemma create_house_without_address w (house : HouseCreate.t) :
  PyDict.contains (HouseBase.id house) (houses w) = false ->
  HouseBase.address house = None ->
  create_house house w
  = (Raise ValidationError, with_env (after_reads 2 (env w)) w).
Proof.
  intros Hnew Ha. unfold create_house.
  unfold bind at 1, contains at 1. cbn [content houses_db]. rewrite Hnew.
  exact (bind_Raise _ _ _ _ _ (in_env_Raise _ _ _ _
    (ReadModel_init_Raise_fresh _ _ _ _ _
       (HouseBase_init_dump_without_address house (env w) Ha)
       eq_refl eq_refl))).
Qed.

(** C2. Creating an Address, an Organization or a House whose identifier
    is already a key of its store raises [HTTPException] 400 and leaves
    the whole process, the store included, as it was. *)
Theorem create_with_existing_identifier_fails (w : World) :
  (forall address : AddressCreate.t,
     PyDict.contains (AddressBase.id address) (addresses w) = true ->
     create_address address w =
       (Raise (HTTPException 400 "Address with this ID already exists"), w))
  /\ (forall organization : OrganizationCreate.t,
        PyDict.contains (OrganizationBase.id organization) (organizations w) = true ->
        create_organization organization w =
          (Raise (HTTPException 400 "Organization with this ID already exists"),
           w))
  /\ (forall house : HouseCreate.t,
        PyDict.contains (HouseBase.id house) (houses w) = true ->
        create_house house w =
          (Raise (HTTPException 400 "House with this ID already exists"), w)).
Proof.
  split; [|split]; intros payload Hin.
  - now apply create_address_duplicate.
  - now apply create_organization_duplicate.
  - now apply create_house_duplicate.
Qed.

Lemma create_with_existing_identifier_fails_witness :
  (PyDict.contains (AddressBase.id Example.main_st)
     (addresses Example.populated) = true
   /\ create_address Example.main_st Example.populated =
        (Raise (HTTPException 400 "Address with this ID already exists"),
         Example.populated))
  /\ (PyDict.contains (OrganizationBase.id Example.organization)
        (organizations Example.populated) = true
      /\ create_organization Example.organization Example.populated =
           (Raise (HTTPException 400 "Organization with this ID already exists"),
            Example.populated))
  /\ (PyDict.contains (HouseBase.id Example.house)
        (houses Example.populated) = true
      /\ create_house Example.house Example.populated =
           (Raise (HTTPException 400 "House with this ID already exists"),
            Example.populated)).
Proof.
  destruct (create_with_existing_identifier_fails Example.populated)
    as (Ha & Ho & Hh).
  split; [|split]; (split; [reflexivity|]).
  - apply Ha. reflexivity.
  - apply Ho. reflexivity.
  - apply Hh. reflexivity.
Defined.

(** C7. For an identifier that is not a key of the store, Get and Update
    of every entity kind raise [HTTPException] 404 and leave the whole
    process, the store included, as it was. *)
Theorem unknown_identifier_is_not_found (w : World) (id : UUID) :
  (PyDict.contains id (addresses w) = false ->
     get_address id w = (Raise (HTTPException 404 "Address not found"), w)
     /\ forall update,
          update_address id update w =
            (Raise (HTTPException 404 "Address not found"), w))
  /\ (PyDict.contains id (persons w) = false ->
        get_person id w = (Raise (HTTPException 404 "Person not found"), w)
        /\ forall update,
             update_person id update w =
               (Raise (HTTPException 404 "Person not found"), w))
  /\ (PyDict.contains id (organizations w) = false ->
        get_organization id w =
          (Raise (HTTPException 404 "Organization not found"), w)
        /\ forall update,
             update_organization id update w =
               (Raise (HTTPException 404 "Organization not found"), w))
  /\ (PyDict.contains id (houses w) = false ->
        get_house id w = (Raise (HTTPException 404 "House not found"), w)
        /\ forall update,
             update_house id update w =
               (Raise (HTTPException 404 "House not found"), w)).
Proof.
  repeat split; intros;
    auto using get_address_not_found, update_address_not_found,
      get_person_not_found, update_person_not_found,
      get_organization_not_found, update_organization_not_found,
      get_house_not_found, update_house_not_found.
Qed.

Lemma unknown_identifier_is_not_found_witness :
  PyDict.contains 77%N (houses Example.populated) = false
  /\ get_house 77%N Example.populated =
       (Raise (HTTPException 404 "House not found"), Example.populated)
  /\ PyDict.contains 77%N (organizations Example.populated) = false
  /\ update_organization 77%N
       {| OrganizationUpdate.org_name := Some "Math";
          OrganizationUpdate.email := None;
          OrganizationUpdate.phone := None;
          OrganizationUpdate.address := None;
          OrganizationUpdate.model_fields_set := ["org_name"] |}
       Example.populated =
       (Raise (HTTPException 404 "Organization not found"), Example.populated).
Proof.
  destruct (unknown_identifier_is_not_found Example.populated 77%N)
    as (_ & _ & Ho & Hh).
  split; [reflexivity|]. split; [apply Hh; reflexivity|].
  split; [reflexivity|]. apply Ho. reflexivity.
Defined.

(** C3. [create_person] performs no check on the identifier: for every
    state of the process and every payload, also one whose identifier is
    already a key of [persons], it returns the Person record built from
    the payload and stores it under that identifier. *)
Theorem create_person_always_succeeds (w : World) (person : PersonCreate.t) :
  exists person_read w',
    create_person person w = (Return person_read, w')
    /\ ReadModel.base person_read = person
    /\ PyDict.get (PersonBase.id person) (persons w') = Some person_read
    /\ forall status_code detail,
         fst (create_person person w) <> Raise (HTTPException status_code detail).
Proof.
  rewrite create_person_run. do 2 eexists. split; [reflexivity|].
  split; [reflexivity|]. split.
  - cbn [persons]. apply PyDictFacts.get_setitem_same.
  - intros; discriminate.
Qed.

(** C10. Creating a Person under an identifier that [persons] already
    holds replaces the stored record where it stands: the identifier then
    maps to the new record, the item of the old record is gone, every
    other item is as before, and the store has as many items as before. *)
Theorem create_person_replaces_existing (w : World) (person : PersonCreate.t) :
  PyDict.contains (PersonBase.id person) (persons w) = true ->
  exists new w',
    create_person person w = (Return new, w')
    /\ ReadModel.base new = person
    /\ PyDict.get (PersonBase.id person) (persons w') = Some new
    /\ PyDict.len (persons w') = PyDict.len (persons w)
    /\ (exists before old after,
          persons w = before ++ (PersonBase.id person, old) :: after
          /\ PyDict.get (PersonBase.id person) before = None
          /\ persons w' = before ++ (PersonBase.id person, new) :: after)
    /\ (forall k, k <> PersonBase.id person ->
          PyDict.get k (persons w') = PyDict.get k (persons w)).
Proof.
  intros Hin. rewrite create_person_run. do 2 eexists.
  split; [reflexivity|]. split; [reflexivity|]. cbn [persons].
  split; [apply PyDictFacts.get_setitem_same|].
  split; [now apply PyDictFacts.len_setitem_present|].
  split.
  - destruct (PyDictFacts.setitem_present_split (PersonBase.id person)
                (stamped (env w) person) (persons w) Hin)
      as (before & old & after & Hd & Hb & Hs).
    exists before, old, after. auto.
  - intros k Hk. now apply PyDictFacts.get_setitem_other.
Qed.

Lemma create_person_replaces_existing_witness :
  PyDict.contains (PersonBase.id Example.namesake)
    (persons Example.populated) = true
  /\ exists new w',
       create_person Example.namesake Example.populated = (Return new, w')
       /\ ReadModel.base new = Example.namesake
       /\ PyDict.get 3%N (persons w') = Some new
       /\ PyDict.len (persons w') = 1.
Proof.
  split; [reflexivity|].
  destruct (create_person_replaces_existing Example.populated Example.namesake
              eq_refl) as (new & w' & Hrun & Hbase & Hget & Hlen & _).
  exists new, w'. repeat split; assumption.
Defined.

(** ** Reading back *)

Section Found.
Variable w : World.
Variable id : UUID.

Lemma get_address_found r :
  PyDict.get id (addresses w) = Some r -> get_address id w = (Return r, w).
Proof.
  intros Hg. unfold get_address. enter_handler.
  unfold PyDict.contains. rewrite Hg. cbn. now rewrite Hg.
Qed.

Lemma get_person_found r :
  PyDict.get id (persons w) = Some r -> get_person id w = (Return r, w).
Proof.
  intros Hg. unfold get_person. enter_handler.
  unfold PyDict.contains. rewrite Hg. cbn. now rewrite Hg.
Qed.

Lemma get_organization_found r :
  PyDict.get id (organizations w) = Some r ->
  get_organization id w = (Return r, w).
Proof.
  intros Hg. unfold get_organization. enter_handler.
  unfold PyDict.contains. rewrite Hg. cbn. now rewrite Hg.
Qed.

Lemma get_house_found r :
  PyDict.get id (houses w) = Some r -> get_house id w = (Return r, w).
Proof.
  intros Hg. unfold get_house. enter_handler.
  unfold PyDict.contains. rewrite Hg. cbn. now rewrite Hg.
Qed.

End Found.

(** C6, as the code has it.  Whenever Create succeeds (the identifier is
    new for an Address, an Organization or a House, and a House is given
    an address; always for a Person), Get with the returned identifier
    succeeds and yields the record that Create returned.  Its Base part is
    the payload, unchanged; [created_at] is the reading of the clock taken
    first while the record is built, and [updated_at] the reading taken
    next. *)
Theorem create_then_get_round_trip (w : World) :
  (forall address : AddressCreate.t,
     PyDict.contains (AddressBase.id address) (addresses w) = false ->
     exists r w',
       create_address address w = (Return r, w')
       /\ get_address (AddressBase.id (ReadModel.base r)) w' = (Return r, w')
       /\ ReadModel.base r = address
       /\ ReadModel.created_at r = utcnow_at (env w) (clock_reads (env w))
       /\ ReadModel.updated_at r = utcnow_at (env w) (S (clock_reads (env w))))
  /\ (forall person : PersonCreate.t,
        exists r w',
          create_person person w = (Return r, w')
          /\ get_person (PersonBase.id (ReadModel.base r)) w' = (Return r, w')
          /\ ReadModel.base r = person
          /\ ReadModel.created_at r = utcnow_at (env w) (clock_reads (env w))
          /\ ReadModel.updated_at r
             = utcnow_at (env w) (S (clock_reads (env w))))
  /\ (forall organization : OrganizationCreate.t,
        PyDict.contains (OrganizationBase.id organization) (organizations w)
          = false ->
        exists r w',
          create_organization organization w = (Return r, w')
          /\ get_organization (OrganizationBase.id (ReadModel.base r)) w'
             = (Return r, w')
          /\ ReadModel.base r = organization
          /\ ReadModel.created_at r = utcnow_at (env w) (clock_reads (env w))
          /\ ReadModel.updated_at r
             = utcnow_at (env w) (S (clock_reads (env w))))
  /\ (forall (house : HouseCreate.t) a,
        PyDict.contains (HouseBase.id house) (houses w) = false ->
        HouseBase.address house = Some a ->
        exists r w',
          create_house house w = (Return r, w')
          /\ get_house (HouseBase.id (ReadModel.base r)) w' = (Return r, w')
          /\ ReadModel.base r = house
          /\ ReadModel.created_at r = utcnow_at (env w) (clock_reads (env w))
          /\ ReadModel.updated_at r
             = utcnow_at (env w) (S (clock_reads (env w)))).
Proof.
  split; [|split; [|split]].
  - intros address Hnew. rewrite (create_address_run _ _ Hnew).
    do 2 eexists. split; [reflexivity|]. split; [|repeat split].
    apply get_address_found. apply PyDictFacts.get_setitem_same.
  - intros person. rewrite create_person_run.
    do 2 eexists. split; [reflexivity|]. split; [|repeat split].
    apply get_person_found. apply PyDictFacts.get_setitem_same.
  - intros organization Hnew. rewrite (create_organization_run _ _ Hnew).
    do 2 eexists. split; [reflexivity|]. split; [|repeat split].
    apply get_organization_found. apply PyDictFacts.get_setitem_same.
  - intros house a Hnew Ha. rewrite (create_house_run _ _ _ Hnew Ha).
    do 2 eexists. split; [reflexivity|]. split; [|repeat split].
    apply get_house_found. apply PyDictFacts.get_setitem_same.
Qed.

Lemma create_then_get_round_trip_witness :
  PyDict.contains (HouseBase.id Example.house) (houses Example.empty_world)
    = false
  /\ HouseBase.address Example.house = Some Example.main_st
  /\ exists r w',
       create_house Example.house Example.empty_world = (Return r, w')
       /\ get_house 5%N w' = (Return r, w')
       /\ ReadModel.base r = Example.house
       /\ ReadModel.created_at r = 1736936430000000%Z
       /\ ReadModel.updated_at r = 1736936430000001%Z.
Proof.
  split; [reflexivity|]. split; [reflexivity|].
  destruct (create_then_get_round_trip Example.empty_world) as (_ & _ & _ & Hh).
  destruct (Hh Example.house Example.main_st eq_refl eq_refl)
    as (r & w' & Hrun & Hget & Hbase & Hc & Hu).
  exists r, w'. rewrite Hbase in Hget. repeat split; assumption.
Defined.

(** C6, as the spec has it, fails: the two timestamps of a created record
    come from two readings of the clock, and the clock may move between
    them. *)
Lemma create_then_get_timestamps_differ :
  exists r w',
    create_house Example.house Example.empty_world = (Return r, w')
    /\ get_house (HouseBase.id (ReadModel.base r)) w' = (Return r, w')
    /\ ReadModel.created_at r <> ReadModel.updated_at r.
Proof.
  do 2 eexists. split; [reflexivity|]. split; [reflexivity|].
  cbn. lia.
Qed.

(** ** The clock and the constructors *)

Lemma keeps_clock_ret {A} (a : A) : keeps_clock (ret a).
Proof. intros e res e' [= <- <-]. auto. Qed.

Lemma keeps_clock_raise {A} x : keeps_clock (@raise Env A x).
Proof. intros e res e' [= <- <-]. auto. Qed.

Lemma keeps_clock_uuid4 : keeps_clock uuid4.
Proof. intros e res e' [= <- <-]. auto. Qed.

Lemma keeps_clock_bind {A B} (c : M Env A) (k : A -> M Env B) :
  keeps_clock c -> (forall a, keeps_clock (k a)) -> keeps_clock (bind c k).
Proof.
  intros Hc Hk e res e'. unfold bind.
  destruct (c e) as [[a|x] e1] eqn:Ec; intros Hrun.
  - destruct (Hc _ _ _ Ec) as [H1 H2], (Hk a _ _ _ Hrun) as [H3 H4].
    split; congruence.
  - injection Hrun as <- <-. exact (Hc _ _ _ Ec).
Qed.

Lemma keeps_clock_ap {A B} (cf : M Env (A -> B)) (ca : M Env A) :
  keeps_clock cf -> keeps_clock ca -> keeps_clock (ap cf ca).
Proof.
  intros Hf Ha e res e'. unfold ap.
  destruct (cf e) as [rf e1] eqn:Ef. destruct (ca e1) as [ra e2] eqn:Ea.
  intros [= _ <-].
  destruct (Hf _ _ _ Ef) as [H1 H2], (Ha _ _ _ Ea) as [H3 H4].
  split; congruence.
Qed.

Lemma keeps_clock_field {A} kwargs name (v : validator A) d :
  (forall x, keeps_clock (v x)) -> keeps_clock d ->
  keeps_clock (field kwargs name v d).
Proof. intros Hv Hd. unfold field. destruct (PyDict.get name kwargs); auto. Qed.

Lemma keeps_clock_as_str v : keeps_clock (as_str v).
Proof. destruct v; intros e res e' [= <- <-]; auto. Qed.

Lemma keeps_clock_as_uuid v : keeps_clock (as_uuid v).
Proof.
  destruct v; try (intros e res e' [= <- <-]; now auto).
  simpl. destruct (uuid_of_string s); intros e res e' [= <- <-]; auto.
Qed.

Lemma keeps_clock_as_date v : keeps_clock (as_date v).
Proof. destruct v; intros e res e' [= <- <-]; auto. Qed.

Lemma keeps_clock_as_optional {A} (f : validator A) v :
  (forall x, keeps_clock (f x)) -> keeps_clock (as_optional f v).
Proof.
  intros Hf.
  destruct v; simpl;
    try (apply keeps_clock_bind; [apply Hf|intros; apply keeps_clock_ret]).
  apply keeps_clock_ret.
Qed.

Lemma keeps_clock_traverse {A B} (f : A -> M Env B) l :
  (forall x, keeps_clock (f x)) -> keeps_clock (traverse f l).
Proof.
  intros Hf. induction l as [|a l IH]; simpl.
  - apply keeps_clock_ret.
  - apply keeps_clock_ap; [|exact IH].
    apply keeps_clock_ap; [apply keeps_clock_ret|apply Hf].
Qed.

Lemma keeps_clock_as_list {A} (f : validator A) v :
  (forall x, keeps_clock (f x)) -> keeps_clock (as_list f v).
Proof.
  intros Hf. destruct v; simpl; try apply keeps_clock_raise.
  now apply keeps_clock_traverse.
Qed.

Create HintDb clock discriminated.
#[local] Hint Resolve keeps_clock_ret keeps_clock_raise keeps_clock_uuid4
  keeps_clock_as_str keeps_clock_as_uuid keeps_clock_as_date : clock.
#[local] Hint Extern 2 (keeps_clock (bind _ _)) =>
  apply keeps_clock_bind; [|intro] : clock.
#[local] Hint Extern 2 (keeps_clock (ap _ _)) =>
  apply keeps_clock_ap : clock.
#[local] Hint Extern 2 (keeps_clock (field _ _ _ _)) =>
  apply keeps_clock_field; [intro|] : clock.
#[local] Hint Extern 2 (keeps_clock (as_optional _ _)) =>
  apply keeps_clock_as_optional; intro : clock.
#[local] Hint Extern 2 (keeps_clock (as_list _ _)) =>
  apply keeps_clock_as_list; intro : clock.
#[local] Hint Extern 1 (keeps_clock required) => apply keeps_clock_raise : clock.
#[local] Hint Extern 1 (keeps_clock (as_UNIType _)) =>
  apply keeps_clock_as_str : clock.
#[local] Hint Extern 1 (keeps_clock (as_EmailStr _)) =>
  apply keeps_clock_as_str : clock.

Lemma keeps_clock_AddressBase_init kwargs : keeps_clock (AddressBase.init kwargs).
Proof. unfold AddressBase.init. auto 20 with clock. Qed.

Lemma keeps_clock_AddressBase_validate v : keeps_clock (AddressBase.validate v).
Proof.
  destruct v; simpl; auto with clock. apply keeps_clock_AddressBase_init.
Qed.

#[local] Hint Resolve keeps_clock_AddressBase_init
  keeps_clock_AddressBase_validate : clock.

Lemma keeps_clock_PersonBase_init kwargs : keeps_clock (PersonBase.init kwargs).
Proof. unfold PersonBase.init. auto 30 with clock. Qed.

Lemma keeps_clock_OrganizationBase_init kwargs :
  keeps_clock (OrganizationBase.init kwargs).
Proof. unfold OrganizationBase.init. auto 20 with clock. Qed.

Lemma keeps_clock_HouseBase_init kwargs : keeps_clock (HouseBase.init kwargs).
Proof. unfold HouseBase.init. auto 20 with clock. Qed.

(** A Read model rebuilt from arguments that give both timestamps keeps
    them and leaves the clock alone. *)
Lemma ReadModel_init_keeps {B} (base_init : pydict -> M Env B) kwargs c u :
  keeps_clock (base_init kwargs) ->
  PyDict.get "created_at" kwargs = Some (PDatetime c) ->
  PyDict.get "updated_at" kwargs = Some (PDatetime u) ->
  forall e res e',
    ReadModel.init base_init kwargs e = (res, e') ->
    utcnow_at e' = utcnow_at e /\ clock_reads e' = clock_reads e
    /\ forall r, res = Return r ->
         ReadModel.created_at r = c /\ ReadModel.updated_at r = u.
Proof.
  intros Hb Hc Hu e res e'. unfold ReadModel.init, ap.
  rewrite (field_given _ _ _ _ _ Hc), (field_given _ _ _ _ _ Hu).
  cbn [ret]. destruct (base_init kwargs e) as [[b|x] e1] eqn:Eb; cbn.
  - intros [= <- <-]. destruct (Hb _ _ _ Eb) as [H1 H2].
    split; [assumption|]. split; [assumption|].
    intros r' [= <-]. split; reflexivity.
  - intros [= <- <-]. destruct (Hb _ _ _ Eb) as [H1 H2].
    split; [assumption|]. split; [assumption|]. discriminate.
Qed.

(** ** Updates *)

Lemma getitem_found {V} (db : store V) k v w :
  PyDict.get k (content db w) = Some v -> getitem db k w = (Return v, w).
Proof. intros Hg. unfold getitem. now rewrite Hg. Qed.

(** Runs an update handler on a stored record, up to the outcome of the
    constructor. *)
Ltac update_found db Hg E :=
  unfold bind at 1, contains at 1;
  cbn [content addresses_db persons_db organizations_db houses_db];
  rewrite (PyDictFacts.get_contains _ _ _ Hg); cbn [negb];
  rewrite (bind_Return _ _ _ _ _ (getitem_found db _ _ _ Hg));
  match goal with
  | |- context [in_env ?c] =>
      match type of E with
      | ?c' _ = (Return _, _) =>
          rewrite (bind_Return _ _ _ _ _ (in_env_Return _ _ _ _ E));
          unfold bind, setitem, getitem, in_env;
          cbn [content replace_content addresses_db persons_db
               organizations_db houses_db with_env env persons addresses
               organizations houses utcnow fst snd];
          rewrite ?PyDictFacts.get_setitem_same;
          cbn [content replace_content addresses_db persons_db
               organizations_db houses_db with_env env persons addresses
               organizations houses utcnow fst snd];
          rewrite ?PyDictFacts.get_setitem_same;
          rewrite ?PyDictFacts.setitem_setitem; reflexivity
      | _ =>
          rewrite (bind_Raise _ _ _ _ _ (in_env_Raise _ _ _ _ E)); reflexivity
      end
  end.

Lemma update_address_found w id u old :
  PyDict.get id (addresses w) = Some old ->
  update_address id u w =
    match AddressRead.init
            (PyDict.update (AddressRead.model_dump old)
               (AddressUpdate.model_dump_exclude_unset u)) (env w) with
    | (Return r, e') =>
        let new := ReadModel.set_updated_at (utcnow_at e' (clock_reads e')) r in
        (Return new,
         {| env := snd (utcnow e');
            persons := persons w;
            addresses := PyDict.setitem id new (addresses w);
            organizations := organizations w;
            houses := houses w |})
    | (Raise x, e') => (Raise x, with_env e' w)
    end.
Proof.
  intros Hg. unfold update_address.
  destruct (AddressRead.init _ (env w)) as [[r|x] e'] eqn:E;
    update_found addresses_db Hg E.
Qed.

Lemma update_person_found w id u old :
  PyDict.get id (persons w) = Some old ->
  update_person id u w =
    match PersonRead.init
            (PyDict.update (PersonRead.model_dump old)
               (PersonUpdate.model_dump_exclude_unset u)) (env w) with
    | (Return r, e') =>
        let new := ReadModel.set_updated_at (utcnow_at e' (clock_reads e')) r in
        (Return new,
         {| env := snd (utcnow e');
            persons := PyDict.setitem id new (persons w);
            addresses := addresses w;
            organizations := organizations w;
            houses := houses w |})
    | (Raise x, e') => (Raise x, with_env e' w)
    end.
Proof.
  intros Hg. unfold update_person.
  destruct (PersonRead.init _ (env w)) as [[r|x] e'] eqn:E;
    update_found persons_db Hg E.
Qed.

Lemma update_organization_found w id u old :
  PyDict.get id (organizations w) = Some old ->
  update_organization id u w =
    match OrganizationRead.init
            (PyDict.update (OrganizationRead.model_dump old)
               (OrganizationUpdate.model_dump_exclude_unset u)) (env w) with
    | (Return r, e') =>
        let new := ReadModel.set_updated_at (utcnow_at e' (clock_reads e')) r in
        (Return new,
         {| env := snd (utcnow e');
            persons := persons w;
            addresses := addresses w;
            organizations := PyDict.setitem id new (organizations w);
            houses := houses w |})
    | (Raise x, e') => (Raise x, with_env e' w)
    end.
Proof.
  intros Hg. unfold update_organization.
  destruct (OrganizationRead.init _ (env w)) as [[r|x] e'] eqn:E;
    update_found organizations_db Hg E.
Qed.

Lemma update_house_found w id u old :
  PyDict.get id (houses w) = Some old ->
  update_house id u w =
    match HouseRead.init
            (PyDict.update (HouseRead.model_dump old)
               (HouseUpdate.model_dump_exclude_unset u)) (env w) with
    | (Return r, e') =>
        let new := ReadModel.set_updated_at (utcnow_at e' (clock_reads e')) r in
        (Return new,
         {| env := snd (utcnow e');
            persons := persons w;
            addresses := addresses w;
            organizations := organizations w;
            houses := PyDict.setitem id new (houses w) |})
    | (Raise x, e') => (Raise x, with_env e' w)
    end.
Proof.
  intros Hg. unfold update_house.
  destruct (HouseRead.init _ (env w)) as [[r|x] e'] eqn:E;
    update_found houses_db Hg E.
Qed.

(** The merged dictionary of an update handler still holds the stored
    timestamps: no Update payload has a field of that name. *)
Ltac stored_timestamp :=
  intros; unfold ReadModel.model_dump;
  rewrite get_update_exclude_unset; cbn;
  match goal with
  | |- context [is_set ?k ?fs] => destruct (is_set k fs); reflexivity
  end.

Lemma Address_stored_created_at (old : AddressRead.t) u :
  PyDict.get "created_at"
    (PyDict.update (AddressRead.model_dump old)
       (AddressUpdate.model_dump_exclude_unset u))
  = Some (PDatetime (ReadModel.created_at old)).
Proof.
  unfold AddressRead.model_dump, AddressUpdate.model_dump_exclude_unset.
  stored_timestamp.
Qed.

Lemma Address_stored_updated_at (old : AddressRead.t) u :
  PyDict.get "updated_at"
    (PyDict.update (AddressRead.model_dump old)
       (AddressUpdate.model_dump_exclude_unset u))
  = Some (PDatetime (ReadModel.updated_at old)).
Proof.
  unfold AddressRead.model_dump, AddressUpdate.model_dump_exclude_unset.
  stored_timestamp.
Qed.

Lemma Person_stored_created_at (old : PersonRead.t) u :
  PyDict.get "created_at"
    (PyDict.update (PersonRead.model_dump old)
       (PersonUpdate.model_dump_exclude_unset u))
  = Some (PDatetime (ReadModel.created_at old)).
Proof.
  unfold PersonRead.model_dump, PersonUpdate.model_dump_exclude_unset.
  stored_timestamp.
Qed.

Lemma Person_stored_updated_at (old : PersonRead.t) u :
  PyDict.get "updated_at"
    (PyDict.update (PersonRead.model_dump old)
       (PersonUpdate.model_dump_exclude_unset u))
  = Some (PDatetime (ReadModel.updated_at old)).
Proof.
  unfold PersonRead.model_dump, PersonUpdate.model_dump_exclude_unset.
  stored_timestamp.
Qed.

Lemma Organization_stored_created_at (old : OrganizationRead.t) u :
  PyDict.get "created_at"
    (PyDict.update (OrganizationRead.model_dump old)
       (OrganizationUpdate.model_dump_exclude_unset u))
  = Some (PDatetime (ReadModel.created_at old)).
Proof.
  unfold OrganizationRead.model_dump, OrganizationUpdate.model_dump_exclude_unset.
  stored_timestamp.
Qed.

Lemma Organization_stored_updated_at (old : OrganizationRead.t) u :
  PyDict.get "updated_at"
    (PyDict.update (OrganizationRead.model_dump old)
       (OrganizationUpdate.model_dump_exclude_unset u))
  = Some (PDatetime (ReadModel.updated_at old)).
Proof.
  unfold OrganizationRead.model_dump, OrganizationUpdate.model_dump_exclude_unset.
  stored_timestamp.
Qed.

Lemma House_stored_created_at (old : HouseRead.t) u :
  PyDict.get "created_at"
    (PyDict.update (HouseRead.model_dump old)
       (HouseUpdate.model_dump_exclude_unset u))
  = Some (PDatetime (ReadModel.created_at old)).
Proof.
  unfold HouseRead.model_dump, HouseUpdate.model_dump_exclude_unset.
  stored_timestamp.
Qed.

Lemma House_stored_updated_at (old : HouseRead.t) u :
  PyDict.get "updated_at"
    (PyDict.update (HouseRead.model_dump old)
       (HouseUpdate.model_dump_exclude_unset u))
  = Some (PDatetime (ReadModel.updated_at old)).
Proof.
  unfold HouseRead.model_dump, HouseUpdate.model_dump_exclude_unset.
  stored_timestamp.
Qed.

(** ** Timestamps stay in order *)

Lemma stamped_later {B} e e' (d : PyDict.t UUID (ReadModel.t B)) :
  clock_never_steps_back e ->
  utcnow_at e' = utcnow_at e ->
  clock_reads e <= clock_reads e' ->
  stamped_in_the_past e d -> stamped_in_the_past e' d.
Proof.
  intros Hmono Hclock Hreads Hd r Hin. destruct (Hd r Hin) as [Ho Hu].
  split; [assumption|]. rewrite Hclock.
  specialize (Hmono _ _ Hreads). lia.
Qed.

Lemma stamped_setitem {B} e k (r : ReadModel.t B) d :
  stamped_in_the_past e d ->
  timestamps_ordered r ->
  (ReadModel.updated_at r <= utcnow_at e (clock_reads e))%Z ->
  stamped_in_the_past e (PyDict.setitem k r d).
Proof.
  intros Hd Ho Hu x Hin.
  destruct (PyDictFacts.In_setitem_values _ _ _ _ Hin) as [->|Hx]; auto.
Qed.

Lemma stamped_step {B} e e' (d d' : PyDict.t UUID (ReadModel.t B)) :
  clock_never_steps_back e ->
  utcnow_at e' = utcnow_at e ->
  clock_reads e <= clock_reads e' ->
  stamped_in_the_past e d -> store_step e' d d' -> stamped_in_the_past e' d'.
Proof.
  intros Hmono Hclock Hreads Hd [->|(k & r & -> & Ho & Hu)].
  - eapply stamped_later; eassumption.
  - apply stamped_setitem; [eapply stamped_later; eassumption|assumption..].
Qed.

Lemma well_stamped_step w w' :
  well_stamped w ->
  utcnow_at (env w') = utcnow_at (env w) ->
  clock_reads (env w) <= clock_reads (env w') ->
  store_step (env w') (persons w) (persons w') ->
  store_step (env w') (addresses w) (addresses w') ->
  store_step (env w') (organizations w) (organizations w') ->
  store_step (env w') (houses w) (houses w') ->
  well_stamped w'.
Proof.
  intros (Hmono & Hp & Ha & Ho & Hh) Hclock Hreads Sp Sa So Sh.
  split; [intros i j Hij; rewrite Hclock; auto|].
  repeat split; eapply stamped_step; eassumption.
Qed.

Lemma well_stamped_later w e' :
  well_stamped w ->
  utcnow_at e' = utcnow_at (env w) ->
  clock_reads e' = clock_reads (env w) ->
  well_stamped (with_env e' w).
Proof.
  intros Hw Hclock Hreads.
  apply (well_stamped_step w); cbn [with_env env persons addresses
    organizations houses]; try assumption; try (now left). lia.
Qed.

(** A record just created is stamped in order, by the two readings. *)
Lemma stamped_new {B} e (b : B) :
  clock_never_steps_back e ->
  timestamps_ordered (stamped e b)
  /\ (ReadModel.updated_at (stamped e b)
      <= utcnow_at (after_reads 2 e) (clock_reads (after_reads 2 e)))%Z.
Proof.
  intros Hmono. unfold timestamps_ordered. cbn. split; apply Hmono; lia.
Qed.

(** A stored record rebuilt with its [created_at] and stamped with the
    next reading of the clock is in order. *)
Lemma restamped {B} e e' (d : PyDict.t UUID (ReadModel.t B)) id
    (old r : ReadModel.t B) :
  clock_never_steps_back e ->
  stamped_in_the_past e d ->
  PyDict.get id d = Some old ->
  ReadModel.created_at r = ReadModel.created_at old ->
  utcnow_at e' = utcnow_at e ->
  clock_reads e' = clock_reads e ->
  timestamps_ordered
    (ReadModel.set_updated_at (utcnow_at e' (clock_reads e')) r)
  /\ (ReadModel.updated_at
        (ReadModel.set_updated_at (utcnow_at e' (clock_reads e')) r)
      <= utcnow_at (snd (utcnow e')) (clock_reads (snd (utcnow e'))))%Z.
Proof.
  intros Hmono Hd Hg Hc Hclock Hreads.
  destruct (Hd old (PyDictFacts.get_In_values _ _ _ Hg)) as [Ho Hu].
  unfold timestamps_ordered in *. cbn. rewrite Hc, Hclock, Hreads.
  split; [lia|]. apply Hmono. lia.
Qed.

Lemma filterM_state {S A} (test : A -> M S bool) l s :
  (forall x s0, snd (test x s0) = s0) -> snd (filterM test l s) = s.
Proof.
  intros Htest. revert s. induction l as [|x l IH]; intros s; simpl.
  - reflexivity.
  - unfold bind. specialize (Htest x s).
    destruct (test x s) as [[keep|ex] s1]; simpl in Htest; subst s1;
      [|reflexivity].
    specialize (IH s). destruct (filterM test l s) as [[rest|ex] s2];
      simpl in IH; subst s2; reflexivity.
Qed.

Lemma bind_state {S A B} (c : M S A) (k : A -> M S B) s :
  snd (c s) = s -> (forall a, snd (k a s) = s) -> snd (bind c k s) = s.
Proof.
  unfold bind. destruct (c s) as [[a|x] s1]; simpl; intros ->; auto.
Qed.

Lemma filterM_if_state {S A F} (flt : option F) (test : F -> A -> M S bool) l s :
  (forall f x s0, snd (test f x s0) = s0) -> snd (filterM_if flt test l s) = s.
Proof.
  intros Htest. destruct flt as [f|]; simpl; [|reflexivity].
  apply filterM_state. apply Htest.
Qed.

Lemma list_houses_state phone person_uni city country w :
  snd (list_houses phone person_uni city country w) = w.
Proof.
  assert (Haddr : forall (f : AddressBase.t -> bool) (p : HouseRead.t) s0,
            snd (bind (address_of p) (fun a => ret (f a)) s0) = s0).
  { intros f p s0. unfold bind, address_of.
    now destruct (HouseBase.address (ReadModel.base p)). }
  unfold list_houses.
  apply bind_state; [reflexivity|intros r0].
  apply bind_state; [apply filterM_if_state; intros; apply Haddr|intros r1].
  apply bind_state; [apply filterM_if_state; intros; apply Haddr|intros r2].
  reflexivity.
Qed.

Lemma get_address_state id w : snd (get_address id w) = w.
Proof.
  destruct (PyDict.get id (addresses w)) as [r|] eqn:Hg.
  - now rewrite (get_address_found _ _ _ Hg).
  - rewrite get_address_not_found; [reflexivity|].
    unfold PyDict.contains. now rewrite Hg.
Qed.

Lemma update_address_well_stamped id u w :
  well_stamped w -> well_stamped (snd (update_address id u w)).
Proof.
  intros Hw. destruct (PyDict.get id (addresses w)) as [old|] eqn:Hg.
  - rewrite (update_address_found _ _ _ _ Hg).
    destruct (AddressRead.init _ (env w)) as [res e'] eqn:E.
    destruct (ReadModel_init_keeps _ _ _ _ (keeps_clock_AddressBase_init _)
                (Address_stored_created_at old u) (Address_stored_updated_at old u)
                _ _ _ E) as (Hclock & Hreads & Hr).
    destruct res as [r|x]; cbn [snd].
    + destruct (Hr r eq_refl) as [Hc _].
      pose proof Hw as (Hmono & Hp & Ha & Ho & Hh).
      destruct (restamped _ _ _ _ _ _ Hmono Ha Hg Hc
                  Hclock Hreads) as [Hord Hpast].
      apply (well_stamped_step w);
        cbn [env persons addresses organizations houses utcnow snd];
        try assumption; try (now left); try (now repeat split);
        try (cbn; lia).
      right. eauto.
    + now apply well_stamped_later.
  - rewrite update_address_not_found; [assumption|].
    unfold PyDict.contains. now rewrite Hg.
Qed.

Lemma get_person_state id w : snd (get_person id w) = w.
Proof.
  destruct (PyDict.get id (persons w)) as [r|] eqn:Hg.
  - now rewrite (get_person_found _ _ _ Hg).
  - rewrite get_person_not_found; [reflexivity|].
    unfold PyDict.contains. now rewrite Hg.
Qed.

Lemma update_person_well_stamped id u w :
  well_stamped w -> well_stamped (snd (update_person id u w)).
Proof.
  intros Hw. destruct (PyDict.get id (persons w)) as [old|] eqn:Hg.
  - rewrite (update_person_found _ _ _ _ Hg).
    destruct (PersonRead.init _ (env w)) as [res e'] eqn:E.
    destruct (ReadModel_init_keeps _ _ _ _ (keeps_clock_PersonBase_init _)
                (Person_stored_created_at old u) (Person_stored_updated_at old u)
                _ _ _ E) as (Hclock & Hreads & Hr).
    destruct res as [r|x]; cbn [snd].
    + destruct (Hr r eq_refl) as [Hc _].
      pose proof Hw as (Hmono & Hp & Ha & Ho & Hh).
      destruct (restamped _ _ _ _ _ _ Hmono Hp Hg Hc
                  Hclock Hreads) as [Hord Hpast].
      apply (well_stamped_step w);
        cbn [env persons addresses organizations houses utcnow snd];
        try assumption; try (now left); try (now repeat split);
        try (cbn; lia).
      right. eauto.
    + now apply well_stamped_later.
  - rewrite update_person_not_found; [assumption|].
    unfold PyDict.contains. now rewrite Hg.
Qed.

Lemma get_organization_state id w : snd (get_organization id w) = w.
Proof.
  destruct (PyDict.get id (organizations w)) as [r|] eqn:Hg.
  - now rewrite (get_organization_found _ _ _ Hg).
  - rewrite get_organization_not_found; [reflexivity|].
    unfold PyDict.contains. now rewrite Hg.
Qed.

Lemma update_organization_well_stamped id u w :
  well_stamped w -> well_stamped (snd (update_organization id u w)).
Proof.
  intros Hw. destruct (PyDict.get id (organizations w)) as [old|] eqn:Hg.
  - rewrite (update_organization_found _ _ _ _ Hg).
    destruct (OrganizationRead.init _ (env w)) as [res e'] eqn:E.
    destruct (ReadModel_init_keeps _ _ _ _ (keeps_clock_OrganizationBase_init _)
                (Organization_stored_created_at old u) (Organization_stored_updated_at old u)
                _ _ _ E) as (Hclock & Hreads & Hr).
    destruct res as [r|x]; cbn [snd].
    + destruct (Hr r eq_refl) as [Hc _].
      pose proof Hw as (Hmono & Hp & Ha & Ho & Hh).
      destruct (restamped _ _ _ _ _ _ Hmono Ho Hg Hc
                  Hclock Hreads) as [Hord Hpast].
      apply (well_stamped_step w);
        cbn [env persons addresses organizations houses utcnow snd];
        try assumption; try (now left); try (now repeat split);
        try (cbn; lia).
      right. eauto.
    + now apply well_stamped_later.
  - rewrite update_organization_not_found; [assumption|].
    unfold PyDict.contains. now rewrite Hg.
Qed.

Lemma get_house_state id w : snd (get_house id w) = w.
Proof.
  destruct (PyDict.get id (houses w)) as [r|] eqn:Hg.
  - now rewrite (get_house_found _ _ _ Hg).
  - rewrite get_house_not_found; [reflexivity|].
    unfold PyDict.contains. now rewrite Hg.
Qed.

Lemma update_house_well_stamped id u w :
  well_stamped w -> well_stamped (snd (update_house id u w)).
Proof.
  intros Hw. destruct (PyDict.get id (houses w)) as [old|] eqn:Hg.
  - rewrite (update_house_found _ _ _ _ Hg).
    destruct (HouseRead.init _ (env w)) as [res e'] eqn:E.
    destruct (ReadModel_init_keeps _ _ _ _ (keeps_clock_HouseBase_init _)
                (House_stored_created_at old u) (House_stored_updated_at old u)
                _ _ _ E) as (Hclock & Hreads & Hr).
    destruct res as [r|x]; cbn [snd].
    + destruct (Hr r eq_refl) as [Hc _].
      pose proof Hw as (Hmono & Hp & Ha & Ho & Hh).
      destruct (restamped _ _ _ _ _ _ Hmono Hh Hg Hc
                  Hclock Hreads) as [Hord Hpast].
      apply (well_stamped_step w);
        cbn [env persons addresses organizations houses utcnow snd];
        try assumption; try (now left); try (now repeat split);
        try (cbn; lia).
      right. eauto.
    + now apply well_stamped_later.
  - rewrite update_house_not_found; [assumption|].
    unfold PyDict.contains. now rewrite Hg.
Qed.

Lemma create_address_well_stamped address w :
  well_stamped w -> well_stamped (snd (create_address address w)).
Proof.
  intros Hw.
  destruct (PyDict.contains (AddressBase.id address) (addresses w)) eqn:Hin.
  - now rewrite (create_address_duplicate _ _ Hin).
  - rewrite (create_address_run _ _ Hin). cbn [snd].
    destruct (stamped_new (env w) address (proj1 Hw)) as [Hord Hpast].
    apply (well_stamped_step w);
      cbn [env persons addresses organizations houses];
      try assumption; try reflexivity; try (now left); try (cbn; lia).
    right. eauto.
Qed.

Lemma create_person_well_stamped person w :
  well_stamped w -> well_stamped (snd (create_person person w)).
Proof.
  intros Hw. rewrite create_person_run. cbn [snd].
  destruct (stamped_new (env w) person (proj1 Hw)) as [Hord Hpast].
  apply (well_stamped_step w); cbn [env persons addresses organizations houses];
    try assumption; try reflexivity; try (now left); try (cbn; lia).
  right. eauto.
Qed.

Lemma create_organization_well_stamped organization w :
  well_stamped w -> well_stamped (snd (create_organization organization w)).
Proof.
  intros Hw.
  destruct (PyDict.contains (OrganizationBase.id organization) (organizations w)) eqn:Hin.
  - now rewrite (create_organization_duplicate _ _ Hin).
  - rewrite (create_organization_run _ _ Hin). cbn [snd].
    destruct (stamped_new (env w) organization (proj1 Hw)) as [Hord Hpast].
    apply (well_stamped_step w);
      cbn [env persons addresses organizations houses];
      try assumption; try reflexivity; try (now left); try (cbn; lia).
    right. eauto.
Qed.

Lemma create_house_well_stamped house w :
  well_stamped w -> well_stamped (snd (create_house house w)).
Proof.
  intros Hw.
  destruct (PyDict.contains (HouseBase.id house) (houses w)) eqn:Hin.
  - now rewrite (create_house_duplicate _ _ Hin).
  - destruct (HouseBase.address house) as [a|] eqn:Ha.
    + rewrite (create_house_run _ _ _ Hin Ha). cbn [snd].
      destruct (stamped_new (env w) house (proj1 Hw)) as [Hord Hpast].
      apply (well_stamped_step w);
        cbn [env persons addresses organizations houses];
        try assumption; try reflexivity; try (now left); try (cbn; lia).
      right. eauto.
    + rewrite (create_house_without_address _ _ Hin Ha). cbn [snd].
      apply (well_stamped_step w);
        cbn [with_env env persons addresses organizations houses];
        try assumption; try reflexivity; try (now left); try (cbn; lia).
Qed.

(** Every request keeps the invariant. *)
Lemma serve_well_stamped rq w : well_stamped w -> well_stamped (serve rq w).
Proof.
  intros Hw. destruct rq; cbn [serve];
    rewrite ?get_address_state, ?get_person_state, ?get_organization_state,
      ?get_house_state, ?list_houses_state;
    auto using create_address_well_stamped, update_address_well_stamped,
      create_person_well_stamped, update_person_well_stamped,
      create_organization_well_stamped, update_organization_well_stamped,
      create_house_well_stamped, update_house_well_stamped.
Qed.

Lemma serve_all_well_stamped rqs w :
  well_stamped w -> well_stamped (serve_all rqs w).
Proof.
  unfold serve_all. revert w.
  induction rqs as [|rq rqs IH]; intros w Hw; simpl;
    [assumption|apply IH, serve_well_stamped, Hw].
Qed.

Lemma well_stamped_ordered w : well_stamped w -> all_timestamps_ordered w.
Proof.
  intros (_ & Hp & Ha & Ho & Hh).
  repeat split; intros r Hin;
    [apply (Hp r Hin)|apply (Ha r Hin)|apply (Ho r Hin)|apply (Hh r Hin)].
Qed.

Lemma just_started_well_stamped w :
  clock_never_steps_back (env w) -> just_started w -> well_stamped w.
Proof.
  intros Hmono (Hp & Ha & Ho & Hh). unfold well_stamped.
  rewrite Hp, Ha, Ho, Hh.
  repeat apply conj; try assumption; intros r0 Hin; destruct Hin.
Qed.

(** ** What an update handler gives to the constructor

    For each entity kind and each field name, the value that the merged
    dictionary holds under that name. *)

Ltac stored_field :=
  intros; unfold ReadModel.model_dump;
  rewrite get_update_exclude_unset; cbn;
  match goal with
  | |- context [is_set ?k ?fs] => destruct (is_set k fs); reflexivity
  end.

Lemma Address_stored_id (old : AddressRead.t) u :
  PyDict.get "id"
    (PyDict.update (AddressRead.model_dump old)
       (AddressUpdate.model_dump_exclude_unset u))
  = Some (PUuid (AddressBase.id (ReadModel.base old))).
Proof.
  unfold AddressRead.model_dump, AddressUpdate.model_dump_exclude_unset.
  stored_field.
Qed.

Lemma Address_stored_street (old : AddressRead.t) u :
  PyDict.get "street"
    (PyDict.update (AddressRead.model_dump old)
       (AddressUpdate.model_dump_exclude_unset u))
  = Some (if is_set "street" (AddressUpdate.model_fields_set u)
          then dump_optional PStr (AddressUpdate.street u)
          else dump_optional PStr (AddressBase.street (ReadModel.base old))).
Proof.
  unfold AddressRead.model_dump, AddressUpdate.model_dump_exclude_unset.
  stored_field.
Qed.

Lemma Address_stored_city (old : AddressRead.t) u :
  PyDict.get "city"
    (PyDict.update (AddressRead.model_dump old)
       (AddressUpdate.model_dump_exclude_unset u))
  = Some (if is_set "city" (AddressUpdate.model_fields_set u)
          then dump_optional PStr (AddressUpdate.city u)
          else dump_optional PStr (AddressBase.city (ReadModel.base old))).
Proof.
  unfold AddressRead.model_dump, AddressUpdate.model_dump_exclude_unset.
  stored_field.
Qed.

Lemma Address_stored_state (old : AddressRead.t) u :
  PyDict.get "state"
    (PyDict.update (AddressRead.model_dump old)
       (AddressUpdate.model_dump_exclude_unset u))
  = Some (if is_set "state" (AddressUpdate.model_fields_set u)
          then dump_optional PStr (AddressUpdate.state u)
          else dump_optional PStr (AddressBase.state (ReadModel.base old))).
Proof.
  unfold AddressRead.model_dump, AddressUpdate.model_dump_exclude_unset.
  stored_field.
Qed.

Lemma Address_stored_postal_code (old : AddressRead.t) u :
  PyDict.get "postal_code"
    (PyDict.update (AddressRead.model_dump old)
       (AddressUpdate.model_dump_exclude_unset u))
  = Some (if is_set "postal_code" (AddressUpdate.model_fields_set u)
          then dump_optional PStr (AddressUpdate.postal_code u)
          else dump_optional PStr (AddressBase.postal_code (ReadModel.base old))).
Proof.
  unfold AddressRead.model_dump, AddressUpdate.model_dump_exclude_unset.
  stored_field.
Qed.

Lemma Address_stored_country (old : AddressRead.t) u :
  PyDict.get "country"
    (PyDict.update (AddressRead.model_dump old)
       (AddressUpdate.model_dump_exclude_unset u))
  = Some (if is_set "country" (AddressUpdate.model_fields_set u)
          then dump_optional PStr (AddressUpdate.country u)
          else dump_optional PStr (AddressBase.country (ReadModel.base old))).
Proof.
  unfold AddressRead.model_dump, AddressUpdate.model_dump_exclude_unset.
  stored_field.
Qed.

Lemma Person_stored_id (old : PersonRead.t) u :
  PyDict.get "id"
    (PyDict.update (PersonRead.model_dump old)
       (PersonUpdate.model_dump_exclude_unset u))
  = Some (PUuid (PersonBase.id (ReadModel.base old))).
Proof.
  unfold PersonRead.model_dump, PersonUpdate.model_dump_exclude_unset.
  stored_field.
Qed.

Lemma Person_stored_uni (old : PersonRead.t) u :
  PyDict.get "uni"
    (PyDict.update (PersonRead.model_dump old)
       (PersonUpdate.model_dump_exclude_unset u))
  = Some (if is_set "uni" (PersonUpdate.model_fields_set u)
          then dump_optional PStr (PersonUpdate.uni u)
          else PStr (PersonBase.uni (ReadModel.base old))).
Proof.
  unfold PersonRead.model_dump, PersonUpdate.model_dump_exclude_unset.
  stored_field.
Qed.

Lemma Person_stored_first_name (old : PersonRead.t) u :
  PyDict.get "first_name"
    (PyDict.update (PersonRead.model_dump old)
       (PersonUpdate.model_dump_exclude_unset u))
  = Some (if is_set "first_name" (PersonUpdate.model_fields_set u)
          then dump_optional PStr (PersonUpdate.first_name u)
          else PStr (PersonBase.first_name (ReadModel.base old))).
Proof.
  unfold PersonRead.model_dump, PersonUpdate.model_dump_exclude_unset.
  stored_field.
Qed.

Lemma Person_stored_last_name (old : PersonRead.t) u :
  PyDict.get "last_name"
    (PyDict.update (PersonRead.model_dump old)
       (PersonUpdate.model_dump_exclude_unset u))
  = Some (if is_set "last_name" (PersonUpdate.model_fields_set u)
          then dump_optional PStr (PersonUpdate.last_name u)
          else PStr (PersonBase.last_name (ReadModel.base old))).
Proof.
  unfold PersonRead.model_dump, PersonUpdate.model_dump_exclude_unset.
  stored_field.
Qed.

Lemma Person_stored_email (old : PersonRead.t) u :
  PyDict.get "email"
    (PyDict.update (PersonRead.model_dump old)
       (PersonUpdate.model_dump_exclude_unset u))
  = Some (if is_set "email" (PersonUpdate.model_fields_set u)
          then dump_optional PStr (PersonUpdate.email u)
          else PStr (PersonBase.email (ReadModel.base old))).
Proof.
  unfold PersonRead.model_dump, PersonUpdate.model_dump_exclude_unset.
  stored_field.
Qed.

Lemma Person_stored_phone (old : PersonRead.t) u :
  PyDict.get "phone"
    (PyDict.update (PersonRead.model_dump old)
       (PersonUpdate.model_dump_exclude_unset u))
  = Some (if is_set "phone" (PersonUpdate.model_fields_set u)
          then dump_optional PStr (PersonUpdate.phone u)
          else dump_optional PStr (PersonBase.phone (ReadModel.base old))).
Proof.
  unfold PersonRead.model_dump, PersonUpdate.model_dump_exclude_unset.
  stored_field.
Qed.

Lemma Person_stored_birth_date (old : PersonRead.t) u :
  PyDict.get "birth_date"
    (PyDict.update (PersonRead.model_dump old)
       (PersonUpdate.model_dump_exclude_unset u))
  = Some (if is_set "birth_date" (PersonUpdate.model_fields_set u)
          then dump_optional PDate (PersonUpdate.birth_date u)
          else dump_optional PDate (PersonBase.birth_date (ReadModel.base old))).
Proof.
  unfold PersonRead.model_dump, PersonUpdate.model_dump_exclude_unset.
  stored_field.
Qed.

Lemma Person_stored_addresses (old : PersonRead.t) u :
  PyDict.get "addresses"
    (PyDict.update (PersonRead.model_dump old)
       (PersonUpdate.model_dump_exclude_unset u))
  = Some (if is_set "addresses" (PersonUpdate.model_fields_set u)
          then dump_optional
                 (fun l => PList (map (fun s =>
                    PDict (AddressBase.model_dump_exclude_unset s)) l))
                 (PersonUpdate.addresses u)
          else PList (map (fun a => PDict (AddressBase.model_dump a))
                      (PersonBase.addresses (ReadModel.base old)))).
Proof.
  unfold PersonRead.model_dump, PersonUpdate.model_dump_exclude_unset.
  stored_field.
Qed.

Lemma Organization_stored_id (old : OrganizationRead.t) u :
  PyDict.get "id"
    (PyDict.update (OrganizationRead.model_dump old)
       (OrganizationUpdate.model_dump_exclude_unset u))
  = Some (PUuid (OrganizationBase.id (ReadModel.base old))).
Proof.
  unfold OrganizationRead.model_dump, OrganizationUpdate.model_dump_exclude_unset.
  stored_field.
Qed.

Lemma Organization_stored_org_name (old : OrganizationRead.t) u :
  PyDict.get "org_name"
    (PyDict.update (OrganizationRead.model_dump old)
       (OrganizationUpdate.model_dump_exclude_unset u))
  = Some (if is_set "org_name" (OrganizationUpdate.model_fields_set u)
          then dump_optional PStr (OrganizationUpdate.org_name u)
          else PStr (OrganizationBase.org_name (ReadModel.base old))).
Proof.
  unfold OrganizationRead.model_dump, OrganizationUpdate.model_dump_exclude_unset.
  stored_field.
Qed.

Lemma Organization_stored_email (old : OrganizationRead.t) u :
  PyDict.get "email"
    (PyDict.update (OrganizationRead.model_dump old)
       (OrganizationUpdate.model_dump_exclude_unset u))
  = Some (if is_set "email" (OrganizationUpdate.model_fields_set u)
          then dump_optional PStr (OrganizationUpdate.email u)
          else PStr (OrganizationBase.email (ReadModel.base old))).
Proof.
  unfold OrganizationRead.model_dump, OrganizationUpdate.model_dump_exclude_unset.
  stored_field.
Qed.

Lemma Organization_stored_phone (old : OrganizationRead.t) u :
  PyDict.get "phone"
    (PyDict.update (OrganizationRead.model_dump old)
       (OrganizationUpdate.model_dump_exclude_unset u))
  = Some (if is_set "phone" (OrganizationUpdate.model_fields_set u)
          then dump_optional PStr (OrganizationUpdate.phone u)
          else dump_optional PStr (OrganizationBase.phone (ReadModel.base old))).
Proof.
  unfold OrganizationRead.model_dump, OrganizationUpdate.model_dump_exclude_unset.
  stored_field.
Qed.

Lemma Organization_stored_address (old : OrganizationRead.t) u :
  PyDict.get "address"
    (PyDict.update (OrganizationRead.model_dump old)
       (OrganizationUpdate.model_dump_exclude_unset u))
  = Some (if is_set "address" (OrganizationUpdate.model_fields_set u)
          then dump_optional
                 (fun s => PDict (AddressBase.model_dump_exclude_unset s))
                 (OrganizationUpdate.address u)
          else PDict (AddressBase.model_dump (OrganizationBase.address (ReadModel.base old)))).
Proof.
  unfold OrganizationRead.model_dump, OrganizationUpdate.model_dump_exclude_unset.
  stored_field.
Qed.

Lemma House_stored_id (old : HouseRead.t) u :
  PyDict.get "id"
    (PyDict.update (HouseRead.model_dump old)
       (HouseUpdate.model_dump_exclude_unset u))
  = Some (PUuid (HouseBase.id (ReadModel.base old))).
Proof.
  unfold HouseRead.model_dump, HouseUpdate.model_dump_exclude_unset.
  stored_field.
Qed.

Lemma House_stored_phone (old : HouseRead.t) u :
  PyDict.get "phone"
    (PyDict.update (HouseRead.model_dump old)
       (HouseUpdate.model_dump_exclude_unset u))
  = Some (if is_set "phone" (HouseUpdate.model_fields_set u)
          then dump_optional PStr (HouseUpdate.phone u)
          else dump_optional PStr (HouseBase.phone (ReadModel.base old))).
Proof.
  unfold HouseRead.model_dump, HouseUpdate.model_dump_exclude_unset.
  stored_field.
Qed.

Lemma House_stored_address (old : HouseRead.t) u :
  PyDict.get "address"
    (PyDict.update (HouseRead.model_dump old)
       (HouseUpdate.model_dump_exclude_unset u))
  = Some (if is_set "address" (HouseUpdate.model_fields_set u)
          then dump_optional
                 (fun s => PDict (AddressBase.model_dump_exclude_unset s))
                 (HouseUpdate.address u)
          else match (HouseBase.address (ReadModel.base old)) with
               | Some a => PDict (AddressBase.model_dump a)
               | None => PObject
               end).
Proof.
  unfold HouseRead.model_dump, HouseUpdate.model_dump_exclude_unset.
  stored_field.
Qed.

Lemma House_stored_people (old : HouseRead.t) u :
  PyDict.get "people"
    (PyDict.update (HouseRead.model_dump old)
       (HouseUpdate.model_dump_exclude_unset u))
  = Some (if is_set "people" (HouseUpdate.model_fields_set u)
          then dump_optional (fun l => PList (map PUuid l)) (HouseUpdate.people u)
          else PList (map PStr (HouseBase.people (ReadModel.base old)))).
Proof.
  unfold HouseRead.model_dump, HouseUpdate.model_dump_exclude_unset.
  stored_field.
Qed.

(** ** The constructor on the merged dictionary *)

Lemma overwrite_dump {A} (f : A -> pyval) name fs given stored x :
  overwrite name fs given stored = Some x ->
  (if is_set name fs then dump_optional f given else f stored) = f x.
Proof.
  unfold overwrite. destruct (is_set name fs).
  - now intros ->.
  - now intros [= ->].
Qed.

Lemma overwrite_nullable_dump {A} (f : A -> pyval) name fs given stored :
  (if is_set name fs then dump_optional f given else dump_optional f stored)
  = dump_optional f (overwrite_nullable name fs given stored).
Proof. unfold overwrite_nullable. now destruct (is_set name fs). Qed.

Lemma AddressBase_validate_exclude_unset s e :
  AddressBase.validate (PDict (AddressBase.model_dump_exclude_unset s)) e =
    (Return (AddressBase.completed (uuid4_at e (uuid_draws e)) s),
     if is_set "id" (AddressBase.model_fields_set s) then e else snd (uuid4 e)).
Proof. apply AddressBase_init_exclude_unset. Qed.

Lemma traverse_AddressBase_validate_exclude_unset l e :
  exists e',
    traverse AddressBase.validate
      (map (fun s => PDict (AddressBase.model_dump_exclude_unset s)) l) e
    = (Return (completed_all (uuid4_at e) (uuid_draws e) l), e').
Proof.
  revert e. induction l as [|s l IH]; intros e; simpl.
  - now exists e.
  - pose proof (ap_Return _ _ _ _ _ _ _ (ret_run cons e)
                  (AddressBase_validate_exclude_unset s e)) as Hs.
    destruct (is_set "id" (AddressBase.model_fields_set s));
      [destruct (IH e) as (e' & Hl)|destruct (IH (snd (uuid4 e))) as (e' & Hl)];
      exists e'; exact (ap_Return _ _ _ _ _ _ _ Hs Hl).
Qed.

(** The [address] of an Organization: the one given, completed, or the
    stored one. *)
Lemma validate_address_overwritten name fs given stored e a :
  overwrite name fs
    (option_map (AddressBase.completed (uuid4_at e (uuid_draws e))) given)
    stored = Some a ->
  exists e',
    AddressBase.validate
      (if is_set name fs
       then dump_optional
              (fun s => PDict (AddressBase.model_dump_exclude_unset s)) given
       else PDict (AddressBase.model_dump stored)) e
    = (Return a, e').
Proof.
  unfold overwrite. destruct (is_set name fs).
  - destruct given as [s|]; [intros [= <-]|discriminate].
    eexists. apply AddressBase_validate_exclude_unset.
  - intros [= <-]. eexists. apply AddressBase_validate_dump.
Qed.

(** The [address] of a House, whose stored value may be the class
    default. *)
Lemma validate_house_address_overwritten name fs given stored e a :
  overwrite_nullable name fs
    (option_map (AddressBase.completed (uuid4_at e (uuid_draws e))) given)
    stored = Some a ->
  exists e',
    AddressBase.validate
      (if is_set name fs
       then dump_optional
              (fun s => PDict (AddressBase.model_dump_exclude_unset s)) given
       else match stored with
            | Some a => PDict (AddressBase.model_dump a)
            | None => PObject
            end) e
    = (Return a, e').
Proof.
  unfold overwrite_nullable. destruct (is_set name fs).
  - destruct given as [s|]; [intros [= <-]|discriminate].
    eexists. apply AddressBase_validate_exclude_unset.
  - intros ->. eexists. apply AddressBase_validate_dump.
Qed.

(** The [addresses] of a Person. *)
Lemma validate_addresses_overwritten name fs given stored e l :
  overwrite name fs
    (option_map (completed_all (uuid4_at e) (uuid_draws e)) given) stored
    = Some l ->
  exists e',
    as_list AddressBase.validate
      (if is_set name fs
       then dump_optional
              (fun l => PList (map (fun s =>
                 PDict (AddressBase.model_dump_exclude_unset s)) l)) given
       else PList (map (fun a => PDict (AddressBase.model_dump a)) stored)) e
    = (Return l, e').
Proof.
  unfold overwrite. destruct (is_set name fs).
  - destruct given as [g|]; [intros [= <-]|discriminate].
    apply traverse_AddressBase_validate_exclude_unset.
  - intros [= <-]. eexists. apply traverse_AddressBase_validate_dump.
Qed.

(** The [people] of a House: the stored tokens, or the empty list. *)
Lemma validate_people_overwritten name fs (given : option (list UUID))
    (stored ps : list UNIType) e :
  (if is_set name fs
   then match given with Some [] => Some [] | _ => None end
   else Some stored) = Some ps ->
  as_list as_UNIType
    (if is_set name fs
     then dump_optional (fun l => PList (map PUuid l)) given
     else PList (map PStr stored)) e
  = (Return ps, e).
Proof.
  destruct (is_set name fs).
  - destruct given as [[|x g]|]; try discriminate. now intros [= <-].
  - intros [= <-]. apply traverse_as_UNIType_dump.
Qed.

Lemma AddressBase_init_merged (old : AddressRead.t) u e :
  AddressBase.init
    (PyDict.update (AddressRead.model_dump old)
       (AddressUpdate.model_dump_exclude_unset u)) e
  = (Return (merge_address u (ReadModel.base old)), e).
Proof.
  apply AddressBase_init_from;
    [ apply Address_stored_id
    | rewrite Address_stored_street
    | rewrite Address_stored_city
    | rewrite Address_stored_state
    | rewrite Address_stored_postal_code
    | rewrite Address_stored_country ];
    f_equal; apply overwrite_nullable_dump.
Qed.

Lemma PersonBase_init_merged (old : PersonRead.t) u e b :
  merge_person e u (ReadModel.base old) = Some b ->
  exists e',
    PersonBase.init
      (PyDict.update (PersonRead.model_dump old)
         (PersonUpdate.model_dump_exclude_unset u)) e
    = (Return b, e').
Proof.
  unfold merge_person. cbv zeta.
  destruct (overwrite "uni" _ _ _) as [uni|] eqn:E1; [|discriminate].
  destruct (overwrite "first_name" _ _ _) as [fn|] eqn:E2; [|discriminate].
  destruct (overwrite "last_name" _ _ _) as [ln|] eqn:E3; [|discriminate].
  destruct (overwrite "email" _ _ _) as [m|] eqn:E4; [|discriminate].
  destruct (overwrite "addresses" _ _ _) as [l|] eqn:E5; [|discriminate].
  intros [= <-].
  destruct (validate_addresses_overwritten _ _ _ _ _ _ E5) as (e' & Hl).
  exists e'.
  eapply PersonBase_init_from;
    [ apply Person_stored_id
    | rewrite Person_stored_uni; f_equal; exact (overwrite_dump PStr _ _ _ _ _ E1)
    | rewrite Person_stored_first_name; f_equal;
      exact (overwrite_dump PStr _ _ _ _ _ E2)
    | rewrite Person_stored_last_name; f_equal;
      exact (overwrite_dump PStr _ _ _ _ _ E3)
    | rewrite Person_stored_email; f_equal;
      exact (overwrite_dump PStr _ _ _ _ _ E4)
    | rewrite Person_stored_phone; f_equal; apply overwrite_nullable_dump
    | rewrite Person_stored_birth_date; f_equal; apply overwrite_nullable_dump
    | apply Person_stored_addresses
    | exact Hl ].
Qed.

Lemma OrganizationBase_init_merged (old : OrganizationRead.t) u e b :
  merge_organization e u (ReadModel.base old) = Some b ->
  exists e',
    OrganizationBase.init
      (PyDict.update (OrganizationRead.model_dump old)
         (OrganizationUpdate.model_dump_exclude_unset u)) e
    = (Return b, e').
Proof.
  unfold merge_organization. cbv zeta.
  destruct (overwrite "org_name" _ _ _) as [n|] eqn:E1; [|discriminate].
  destruct (overwrite "email" _ _ _) as [m|] eqn:E2; [|discriminate].
  destruct (overwrite "address" _ _ _) as [a|] eqn:E3; [|discriminate].
  intros [= <-].
  destruct (validate_address_overwritten _ _ _ _ _ _ E3) as (e' & Ha).
  exists e'.
  eapply OrganizationBase_init_from;
    [ apply Organization_stored_id
    | rewrite Organization_stored_org_name; f_equal;
      exact (overwrite_dump PStr _ _ _ _ _ E1)
    | rewrite Organization_stored_email; f_equal;
      exact (overwrite_dump PStr _ _ _ _ _ E2)
    | rewrite Organization_stored_phone; f_equal; apply overwrite_nullable_dump
    | apply Organization_stored_address
    | exact Ha ].
Qed.

Lemma HouseBase_init_merged (old : HouseRead.t) u e b :
  merge_house e u (ReadModel.base old) = Some b ->
  exists e',
    HouseBase.init
      (PyDict.update (HouseRead.model_dump old)
         (HouseUpdate.model_dump_exclude_unset u)) e
    = (Return b, e').
Proof.
  unfold merge_house. cbv zeta.
  destruct (overwrite_nullable "address" _ _ _) as [a|] eqn:E1; [|discriminate].
  destruct (if is_set "people" _ then _ else _) as [ps|] eqn:E2; [|discriminate].
  intros [= <-].
  destruct (validate_house_address_overwritten _ _ _ _ _ _ E1) as (e' & Ha).
  exists e'.
  eapply HouseBase_init_from;
    [ apply House_stored_id
    | rewrite House_stored_phone; f_equal; apply overwrite_nullable_dump
    | apply House_stored_address
    | exact Ha
    | apply House_stored_people
    | exact (validate_people_overwritten _ _ _ _ _ _ E2) ].
Qed.

(** ** Partial update *)

Lemma update_address_merged w id old u b e' :
  PyDict.get id (addresses w) = Some old ->
  AddressBase.init
    (PyDict.update (AddressRead.model_dump old)
       (AddressUpdate.model_dump_exclude_unset u)) (env w) = (Return b, e') ->
  update_address id u w =
    (Return (restamp b old (utcnow_at (env w) (clock_reads (env w)))),
     {| env := snd (utcnow e');
          persons := persons w;
          addresses := PyDict.setitem id
                         (restamp b old (utcnow_at (env w) (clock_reads (env w))))
                         (addresses w);
          organizations := organizations w;
          houses := houses w |}).
Proof.
  intros Hg Hb. rewrite (update_address_found _ _ _ _ Hg).
  unfold AddressRead.init.
  rewrite (ReadModel_init_given _ _ _ _ _ _ _ Hb
             (Address_stored_created_at old u) (Address_stored_updated_at old u)).
  destruct (keeps_clock_AddressBase_init _ _ _ _ Hb) as [Hclock Hreads].
  cbv zeta. rewrite Hclock, Hreads. reflexivity.
Qed.

Lemma update_person_merged w id old u b e' :
  PyDict.get id (persons w) = Some old ->
  PersonBase.init
    (PyDict.update (PersonRead.model_dump old)
       (PersonUpdate.model_dump_exclude_unset u)) (env w) = (Return b, e') ->
  update_person id u w =
    (Return (restamp b old (utcnow_at (env w) (clock_reads (env w)))),
     {| env := snd (utcnow e');
          persons := PyDict.setitem id
                         (restamp b old (utcnow_at (env w) (clock_reads (env w))))
                         (persons w);
          addresses := addresses w;
          organizations := organizations w;
          houses := houses w |}).
Proof.
  intros Hg Hb. rewrite (update_person_found _ _ _ _ Hg).
  unfold PersonRead.init.
  rewrite (ReadModel_init_given _ _ _ _ _ _ _ Hb
             (Person_stored_created_at old u) (Person_stored_updated_at old u)).
  destruct (keeps_clock_PersonBase_init _ _ _ _ Hb) as [Hclock Hreads].
  cbv zeta. rewrite Hclock, Hreads. reflexivity.
Qed.

Lemma update_organization_merged w id old u b e' :
  PyDict.get id (organizations w) = Some old ->
  OrganizationBase.init
    (PyDict.update (OrganizationRead.model_dump old)
       (OrganizationUpdate.model_dump_exclude_unset u)) (env w) = (Return b, e') ->
  update_organization id u w =
    (Return (restamp b old (utcnow_at (env w) (clock_reads (env w)))),
     {| env := snd (utcnow e');
          persons := persons w;
          addresses := addresses w;
          organizations := PyDict.setitem id
                         (restamp b old (utcnow_at (env w) (clock_reads (env w))))
                         (organizations w);
          houses := houses w |}).
Proof.
  intros Hg Hb. rewrite (update_organization_found _ _ _ _ Hg).
  unfold OrganizationRead.init.
  rewrite (ReadModel_init_given _ _ _ _ _ _ _ Hb
             (Organization_stored_created_at old u) (Organization_stored_updated_at old u)).
  destruct (keeps_clock_OrganizationBase_init _ _ _ _ Hb) as [Hclock Hreads].
  cbv zeta. rewrite Hclock, Hreads. reflexivity.
Qed.

Lemma update_house_merged w id old u b e' :
  PyDict.get id (houses w) = Some old ->
  HouseBase.init
    (PyDict.update (HouseRead.model_dump old)
       (HouseUpdate.model_dump_exclude_unset u)) (env w) = (Return b, e') ->
  update_house id u w =
    (Return (restamp b old (utcnow_at (env w) (clock_reads (env w)))),
     {| env := snd (utcnow e');
          persons := persons w;
          addresses := addresses w;
          organizations := organizations w;
          houses := PyDict.setitem id
                         (restamp b old (utcnow_at (env w) (clock_reads (env w))))
                         (houses w) |}).
Proof.
  intros Hg Hb. rewrite (update_house_found _ _ _ _ Hg).
  unfold HouseRead.init.
  rewrite (ReadModel_init_given _ _ _ _ _ _ _ Hb
             (House_stored_created_at old u) (House_stored_updated_at old u)).
  destruct (keeps_clock_HouseBase_init _ _ _ _ Hb) as [Hclock Hreads].
  cbv zeta. rewrite Hclock, Hreads. reflexivity.
Qed.

(** In a well-stamped process no stored record is stamped after the next
    reading of the clock. *)
Lemma stored_not_in_future {B} e (d : PyDict.t UUID (ReadModel.t B)) id old :
  stamped_in_the_past e d -> PyDict.get id d = Some old ->
  (ReadModel.updated_at old <= utcnow_at e (clock_reads e))%Z.
Proof.
  intros Hd Hg. apply (Hd old (PyDictFacts.get_In_values _ _ _ Hg)).
Qed.

(** C1, as the code has it.  Update on a stored record, with a payload
    whose merge with that record is again a record of the kind (no
    explicit null for a field that is not nullable), succeeds and stores
    the merge: the fields given are overwritten (an address given replaces
    the stored one whole), every other field, the identifier and
    [created_at] are as stored, and [updated_at] is the reading of the
    clock taken by the update; in a process whose clock never steps back
    that reading is not earlier than the prior [updated_at]. *)
Theorem partial_update_overwrites_supplied_fields (w : World) (id : UUID) :
  let now := utcnow_at (env w) (clock_reads (env w)) in
  (forall old u,
     PyDict.get id (addresses w) = Some old ->
     exists new w',
       update_address id u w = (Return new, w')
       /\ PyDict.get id (addresses w') = Some new
       /\ ReadModel.base new = merge_address u (ReadModel.base old)
       /\ ReadModel.created_at new = ReadModel.created_at old
       /\ ReadModel.updated_at new = now
       /\ (well_stamped w ->
            (ReadModel.updated_at old <= ReadModel.updated_at new)%Z))
  /\ (forall old u b,
        PyDict.get id (persons w) = Some old ->
        merge_person (env w) u (ReadModel.base old) = Some b ->
        exists new w',
          update_person id u w = (Return new, w')
          /\ PyDict.get id (persons w') = Some new
          /\ ReadModel.base new = b
          /\ ReadModel.created_at new = ReadModel.created_at old
          /\ ReadModel.updated_at new = now
          /\ (well_stamped w ->
               (ReadModel.updated_at old <= ReadModel.updated_at new)%Z))
  /\ (forall old u b,
        PyDict.get id (organizations w) = Some old ->
        merge_organization (env w) u (ReadModel.base old) = Some b ->
        exists new w',
          update_organization id u w = (Return new, w')
          /\ PyDict.get id (organizations w') = Some new
          /\ ReadModel.base new = b
          /\ ReadModel.created_at new = ReadModel.created_at old
          /\ ReadModel.updated_at new = now
          /\ (well_stamped w ->
               (ReadModel.updated_at old <= ReadModel.updated_at new)%Z))
  /\ (forall old u b,
        PyDict.get id (houses w) = Some old ->
        merge_house (env w) u (ReadModel.base old) = Some b ->
        exists new w',
          update_house id u w = (Return new, w')
          /\ PyDict.get id (houses w') = Some new
          /\ ReadModel.base new = b
          /\ ReadModel.created_at new = ReadModel.created_at old
          /\ ReadModel.updated_at new = now
          /\ (well_stamped w ->
               (ReadModel.updated_at old <= ReadModel.updated_at new)%Z)).
Proof.
  cbv zeta. split; [|split; [|split]].
  - intros old u Hg.
    rewrite (update_address_merged _ _ _ _ _ _ Hg
               (AddressBase_init_merged old u (env w))).
    do 2 eexists. split; [reflexivity|]. cbn [addresses].
    split; [apply PyDictFacts.get_setitem_same|].
    repeat split. intros (_ & _ & Ha & _).
    exact (stored_not_in_future _ _ _ _ Ha Hg).
  - intros old u b Hg Hm.
    destruct (PersonBase_init_merged old u (env w) b Hm) as (e' & Hb).
    rewrite (update_person_merged _ _ _ _ _ _ Hg Hb).
    do 2 eexists. split; [reflexivity|]. cbn [persons].
    split; [apply PyDictFacts.get_setitem_same|].
    repeat split. intros (_ & Hp & _).
    exact (stored_not_in_future _ _ _ _ Hp Hg).
  - intros old u b Hg Hm.
    destruct (OrganizationBase_init_merged old u (env w) b Hm) as (e' & Hb).
    rewrite (update_organization_merged _ _ _ _ _ _ Hg Hb).
    do 2 eexists. split; [reflexivity|]. cbn [organizations].
    split; [apply PyDictFacts.get_setitem_same|].
    repeat split. intros (_ & _ & _ & Ho & _).
    exact (stored_not_in_future _ _ _ _ Ho Hg).
  - intros old u b Hg Hm.
    destruct (HouseBase_init_merged old u (env w) b Hm) as (e' & Hb).
    rewrite (update_house_merged _ _ _ _ _ _ Hg Hb).
    do 2 eexists. split; [reflexivity|]. cbn [houses].
    split; [apply PyDictFacts.get_setitem_same|].
    repeat split. intros (_ & _ & _ & _ & Hh).
    exact (stored_not_in_future _ _ _ _ Hh Hg).
Qed.

Lemma partial_update_overwrites_supplied_fields_witness :
  (exists old new w',
     PyDict.get 1%N (addresses Example.populated) = Some old
     /\ update_address 1%N Example.move_to_boston Example.populated
        = (Return new, w')
     /\ AddressBase.street (ReadModel.base new) = Some "1 Main St"
     /\ AddressBase.city (ReadModel.base new) = Some "Boston"
     /\ ReadModel.created_at new = ReadModel.created_at old
     /\ (ReadModel.updated_at old < ReadModel.updated_at new)%Z)
  /\ (exists new w',
        update_person 3%N Example.renamed Example.populated = (Return new, w')
        /\ PersonBase.first_name (ReadModel.base new) = "Augusta"
        /\ PersonBase.last_name (ReadModel.base new) = "Lovelace"
        /\ PersonBase.phone (ReadModel.base new) = None)
  /\ (exists new w',
        update_organization 4%N Example.new_phone Example.populated
          = (Return new, w')
        /\ OrganizationBase.org_name (ReadModel.base new) = "Computer Science"
        /\ OrganizationBase.phone (ReadModel.base new)
           = Some "+1-415-555-0199")
  /\ (exists new w',
        update_house 5%N Example.house_moves Example.populated
          = (Return new, w')
        /\ HouseBase.people (ReadModel.base new) = ["abc1234"]
        /\ option_map AddressBase.city (HouseBase.address (ReadModel.base new))
           = Some (Some "Boston")
        /\ option_map AddressBase.street
             (HouseBase.address (ReadModel.base new)) = Some None).
Proof.
  split; [|split; [|split]].
  - destruct (partial_update_overwrites_supplied_fields Example.populated 1%N)
      as (Ha & _).
    destruct (Ha (stamped Example.env0 Example.main_st) Example.move_to_boston
                eq_refl) as (new & w' & Hrun & _ & Hbase & Hc & Hu & _).
    exists (stamped Example.env0 Example.main_st), new, w'.
    split; [reflexivity|]. split; [exact Hrun|].
    rewrite Hbase, Hc, Hu. repeat split.
  - destruct (partial_update_overwrites_supplied_fields Example.populated 3%N)
      as (_ & Hp & _).
    destruct (Hp _ Example.renamed _ eq_refl eq_refl)
      as (new & w' & Hrun & _ & Hbase & _).
    exists new, w'. split; [exact Hrun|]. rewrite Hbase. repeat split.
  - destruct (partial_update_overwrites_supplied_fields Example.populated 4%N)
      as (_ & _ & Ho & _).
    destruct (Ho _ Example.new_phone _ eq_refl eq_refl)
      as (new & w' & Hrun & _ & Hbase & _).
    exists new, w'. split; [exact Hrun|]. rewrite Hbase. repeat split.
  - destruct (partial_update_overwrites_supplied_fields Example.populated 5%N)
      as (_ & _ & _ & Hh).
    destruct (Hh _ Example.house_moves _ eq_refl eq_refl)
      as (new & w' & Hrun & _ & Hbase & _).
    exists new, w'. split; [exact Hrun|]. rewrite Hbase. repeat split.
Defined.

(** C1, as the spec has it, fails.  A payload may give an explicit null
    for a field that is not nullable: the handler then leaves with the
    constructor's [ValidationError] and overwrites nothing.  And the
    reading of the clock that becomes [updated_at] need not be greater
    than the prior one. *)
Lemma partial_update_null_or_stalled_clock :
  update_organization 4%N Example.null_name Example.populated
    = (Raise ValidationError, Example.populated)
  /\ match PyDict.get 4%N (organizations Example.stalled),
           fst (update_organization 4%N Example.new_phone Example.stalled)
     with
     | Some old, Return new =>
         ~ (ReadModel.updated_at old < ReadModel.updated_at new)%Z
     | _, _ => False
     end.
Proof.
  split; [vm_compute; reflexivity|]. vm_compute. discriminate.
Qed.

Lemma list_persons_filters_conjunction_witness :
  exists results,
    list_persons None None None None None None (Some "NYC") (Some "UK")
      Example.populated = (Return results, Example.populated)
    /\ In (stamped (after_reads 2 Example.env0) Example.person) results.
Proof.
  destruct (list_persons_filters_conjunction Example.populated
              None None None None None None (Some "NYC") (Some "UK"))
    as (results & Hrun & _ & Hin).
  exists results. split; [exact Hrun|]. apply Hin.
  split; [left; reflexivity|].
  repeat split; try discriminate.
  - intros X [= <-]. exists Example.main_st. split; [left|]; reflexivity.
  - intros Y [= <-]. exists Example.downing_st.
    split; [right; left|]; reflexivity.
Defined.

(** ** The resident list of a House *)

Lemma only_ValidationError_ret {A} (a : A) : only_ValidationError (ret a).
Proof. intros e x e'; discriminate. Qed.

Lemma only_ValidationError_raise {A} :
  only_ValidationError (@raise Env A ValidationError).
Proof. now intros e x e' [= <- _]. Qed.

Lemma only_ValidationError_uuid4 : only_ValidationError uuid4.
Proof. intros e x e'; discriminate. Qed.

Lemma only_ValidationError_bind {A B} (c : M Env A) (k : A -> M Env B) :
  only_ValidationError c -> (forall a, only_ValidationError (k a)) ->
  only_ValidationError (bind c k).
Proof.
  intros Hc Hk e x e'. unfold bind.
  destruct (c e) as [[a|y] e1] eqn:Ec.
  - apply Hk.
  - intros [= <- _]. exact (Hc _ _ _ Ec).
Qed.

Lemma only_ValidationError_ap {A B} (cf : M Env (A -> B)) (ca : M Env A) :
  only_ValidationError cf -> only_ValidationError ca ->
  only_ValidationError (ap cf ca).
Proof.
  intros Hf Ha e x e' H.
  destruct (ap_Raise_inv _ _ _ _ _ H) as [(e1 & Ef)|(r & e1 & _ & Ea)].
  - exact (Hf _ _ _ Ef).
  - exact (Ha _ _ _ Ea).
Qed.

Lemma only_ValidationError_field {A} kwargs name (v : validator A) d :
  (forall x, only_ValidationError (v x)) -> only_ValidationError d ->
  only_ValidationError (field kwargs name v d).
Proof. intros Hv Hd. unfold field. destruct (PyDict.get name kwargs); auto. Qed.

Lemma only_ValidationError_as_str v : only_ValidationError (as_str v).
Proof. destruct v; intros e x e'; simpl; now intros [= <- _]. Qed.

Lemma only_ValidationError_as_uuid v : only_ValidationError (as_uuid v).
Proof.
  destruct v; intros e x e'; simpl; try (now intros [= <- _]).
  destruct (uuid_of_string s); now intros [= <- _].
Qed.

Lemma only_ValidationError_as_optional {A} (f : validator A) v :
  (forall x, only_ValidationError (f x)) ->
  only_ValidationError (as_optional f v).
Proof.
  intros Hf.
  destruct v; simpl;
    try (apply only_ValidationError_bind;
         [apply Hf|intros; apply only_ValidationError_ret]).
  apply only_ValidationError_ret.
Qed.

Lemma only_ValidationError_as_datetime v : only_ValidationError (as_datetime v).
Proof. destruct v; intros e x e'; simpl; now intros [= <- _]. Qed.

Lemma only_ValidationError_as_date v : only_ValidationError (as_date v).
Proof. destruct v; intros e x e'; simpl; now intros [= <- _]. Qed.

Lemma only_ValidationError_utcnow : only_ValidationError utcnow.
Proof. intros e x e'; discriminate. Qed.

Lemma only_ValidationError_traverse {A B} (f : A -> M Env B) l :
  (forall x, only_ValidationError (f x)) -> only_ValidationError (traverse f l).
Proof.
  intros Hf. induction l as [|a l IH]; simpl.
  - apply only_ValidationError_ret.
  - apply only_ValidationError_ap; [|exact IH].
    apply only_ValidationError_ap; [apply only_ValidationError_ret|apply Hf].
Qed.

Lemma only_ValidationError_as_list {A} (f : validator A) v :
  (forall x, only_ValidationError (f x)) -> only_ValidationError (as_list f v).
Proof.
  intros Hf. destruct v; simpl; try apply only_ValidationError_raise.
  now apply only_ValidationError_traverse.
Qed.

Create HintDb errors discriminated.
#[local] Hint Resolve only_ValidationError_ret only_ValidationError_raise
  only_ValidationError_uuid4 only_ValidationError_utcnow
  only_ValidationError_as_str only_ValidationError_as_uuid
  only_ValidationError_as_date only_ValidationError_as_datetime : errors.
#[local] Hint Extern 2 (only_ValidationError (bind _ _)) =>
  apply only_ValidationError_bind; [|intro] : errors.
#[local] Hint Extern 2 (only_ValidationError (ap _ _)) =>
  apply only_ValidationError_ap : errors.
#[local] Hint Extern 2 (only_ValidationError (field _ _ _ _)) =>
  apply only_ValidationError_field; [intro|] : errors.
#[local] Hint Extern 2 (only_ValidationError (as_optional _ _)) =>
  apply only_ValidationError_as_optional; intro : errors.
#[local] Hint Extern 2 (only_ValidationError (as_list _ _)) =>
  apply only_ValidationError_as_list; intro : errors.
#[local] Hint Extern 1 (only_ValidationError required) =>
  apply only_ValidationError_raise : errors.
#[local] Hint Extern 1 (only_ValidationError (as_UNIType _)) =>
  apply only_ValidationError_as_str : errors.
#[local] Hint Extern 1 (only_ValidationError (as_EmailStr _)) =>
  apply only_ValidationError_as_str : errors.

Lemma only_ValidationError_AddressBase_validate v :
  only_ValidationError (AddressBase.validate v).
Proof.
  destruct v; simpl; try apply only_ValidationError_raise.
  unfold AddressBase.init. auto 30 with errors.
Qed.

#[local] Hint Resolve only_ValidationError_AddressBase_validate : errors.

Lemma only_ValidationError_HouseBase_init kwargs :
  only_ValidationError (HouseBase.init kwargs).
Proof. unfold HouseBase.init. auto 30 with errors. Qed.

(** No [UUID] is a UNI. *)
Lemma as_list_as_UNIType_PUuid (x : UUID) l ps e e' :
  as_list as_UNIType (PList (map PUuid (x :: l))) e <> (Return ps, e').
Proof.
  cbn [as_list map traverse]. intros H.
  apply ap_inv in H as (g & e2 & t & Hx & _ & _).
  apply ap_inv in Hx as (c & e3 & t0 & _ & Hx & _).
  discriminate Hx.
Qed.

(** The constructor on a merged dictionary whose resident list is a
    non-empty list of [UUID]s. *)
Lemma HouseBase_init_people_rejected (old : HouseRead.t) u e x l :
  is_set "people" (HouseUpdate.model_fields_set u) = true ->
  HouseUpdate.people u = Some (x :: l) ->
  exists e',
    HouseBase.init
      (PyDict.update (HouseRead.model_dump old)
         (HouseUpdate.model_dump_exclude_unset u)) e
    = (Raise ValidationError, e').
Proof.
  intros Hset Hpeople.
  destruct (HouseBase.init _ e) as [[b|y] e'] eqn:E.
  - exfalso. unfold HouseBase.init in E.
    rewrite (field_given _ _ _ _ _ (House_stored_people old u)) in E.
    apply ap_inv in E as (f & e1 & ps & _ & Hp & _).
    rewrite Hset, Hpeople in Hp. cbn [dump_optional] in Hp.
    exact (as_list_as_UNIType_PUuid _ _ _ _ _ Hp).
  - exists e'. f_equal. f_equal.
    exact (only_ValidationError_HouseBase_init _ _ _ _ E).
Qed.

(** Whatever house is stored, an update that gives a non-empty resident
    list leaves with [ValidationError], and the store is as it was. *)
Lemma update_house_people_rejected w id old u x l :
  PyDict.get id (houses w) = Some old ->
  is_set "people" (HouseUpdate.model_fields_set u) = true ->
  HouseUpdate.people u = Some (x :: l) ->
  fst (update_house id u w) = Raise ValidationError
  /\ houses (snd (update_house id u w)) = houses w.
Proof.
  intros Hg Hset Hpeople.
  destruct (HouseBase_init_people_rejected old u (env w) x l Hset Hpeople)
    as (e' & Hb).
  rewrite (update_house_found _ _ _ _ Hg). unfold HouseRead.init.
  rewrite (ReadModel_init_Raise_given _ _ _ _ _ _ _ Hb
             (House_stored_created_at old u) (House_stored_updated_at old u)).
  split; reflexivity.
Qed.

(** C4. A House is created with [people = ["abc1234"]] and then patched
    with the body [{"people": ["xyz9999"]}].  [HouseUpdate.people] is a
    list of [UUID]s and ["xyz9999"] is not the text of one, so the body
    does not decode and the request is answered 422; a later Get still
    shows [["abc1234"]].  A resident list that does decode is refused by
    [HouseRead]: the handler leaves with [ValidationError], and Get still
    shows [["abc1234"]]. *)
Theorem update_house_people_scenario :
  let patched := patch_houses 5%N Example.replace_people Example.with_house in
  let patched_by_uuid :=
    patch_houses 5%N Example.replace_people_by_uuid Example.with_house in
  people_shown 5%N Example.with_house = Some ["abc1234"]
  /\ fst patched = Raise RequestValidationError
  /\ people_shown 5%N (snd patched) = Some ["abc1234"]
  /\ fst patched_by_uuid = Raise ValidationError
  /\ people_shown 5%N (snd patched_by_uuid) = Some ["abc1234"].
Proof. cbv zeta. repeat split; vm_compute; reflexivity. Qed.

(* ===================================================================== *)
(** * Further properties of the handlers *)
(* ===================================================================== *)

(** ** Reading changes nothing *)

Lemma list_addresses_state street city state postal_code country w :
  snd (list_addresses street city state postal_code country w) = w.
Proof. reflexivity. Qed.

Lemma list_persons_state uni first_name last_name email phone birth_date city
    country w :
  snd (list_persons uni first_name last_name email phone birth_date city
         country w) = w.
Proof. reflexivity. Qed.

Lemma list_organizations_state org_name email phone city country w :
  snd (list_organizations org_name email phone city country w) = w.
Proof. reflexivity. Qed.

(** X1. Get and List of every entity kind leave the whole process as it
    was, whatever they return or raise. *)
Theorem reading_changes_nothing (w : World) :
  (forall id, snd (get_address id w) = w)
  /\ (forall id, snd (get_person id w) = w)
  /\ (forall id, snd (get_organization id w) = w)
  /\ (forall id, snd (get_house id w) = w)
  /\ (forall street city state postal_code country,
        snd (list_addresses street city state postal_code country w) = w)
  /\ (forall uni first_name last_name email phone birth_date city country,
        snd (list_persons uni first_name last_name email phone birth_date
               city country w) = w)
  /\ (forall org_name email phone city country,
        snd (list_organizations org_name email phone city country w) = w)
  /\ (forall phone person_uni city country,
        snd (list_houses phone person_uni city country w) = w).
Proof.
  repeat split; intros;
    auto using get_address_state, get_person_state, get_organization_state,
      get_house_state, list_houses_state.
Qed.

(** ** A request that fails changes no store *)

Lemma same_stores_refl w : same_stores w w.
Proof. repeat split. Qed.

Lemma same_stores_with_env e w : same_stores w (with_env e w).
Proof. repeat split. Qed.

(** X2. Whatever the request and whatever the exception it ends with
    (400, 404, a [ValidationError] of the constructor, ...), a request
    that fails leaves the four stores exactly as they were. *)
Theorem failed_request_changes_no_store (rq : request) (w : World) :
  failed rq w = true -> same_stores w (serve rq w).
Proof.
  destruct rq; cbn [failed serve];
    rewrite ?get_address_state, ?get_person_state, ?get_organization_state,
      ?get_house_state, ?list_houses_state;
    try (intros _; apply same_stores_refl).
  - destruct (PyDict.contains (AddressBase.id address) (addresses w)) eqn:Hin.
    + rewrite (create_address_duplicate _ _ Hin). intros _.
      apply same_stores_refl.
    + rewrite (create_address_run _ _ Hin). discriminate.
  - destruct (PyDict.get address_id (addresses w)) as [old|] eqn:Hg.
    + rewrite (update_address_found _ _ _ _ Hg).
      destruct (AddressRead.init _ (env w)) as [[r|x] e']; cbn;
        [discriminate|intros _; apply same_stores_with_env].
    + rewrite update_address_not_found
        by (unfold PyDict.contains; now rewrite Hg).
      intros _. apply same_stores_refl.
  - rewrite create_person_run. discriminate.
  - destruct (PyDict.get person_id (persons w)) as [old|] eqn:Hg.
    + rewrite (update_person_found _ _ _ _ Hg).
      destruct (PersonRead.init _ (env w)) as [[r|x] e']; cbn;
        [discriminate|intros _; apply same_stores_with_env].
    + rewrite update_person_not_found
        by (unfold PyDict.contains; now rewrite Hg).
      intros _. apply same_stores_refl.
  - destruct (PyDict.contains (OrganizationBase.id organization)
                (organizations w)) eqn:Hin.
    + rewrite (create_organization_duplicate _ _ Hin). intros _.
      apply same_stores_refl.
    + rewrite (create_organization_run _ _ Hin). discriminate.
  - destruct (PyDict.get organization_id (organizations w)) as [old|] eqn:Hg.
    + rewrite (update_organization_found _ _ _ _ Hg).
      destruct (OrganizationRead.init _ (env w)) as [[r|x] e']; cbn;
        [discriminate|intros _; apply same_stores_with_env].
    + rewrite update_organization_not_found
        by (unfold PyDict.contains; now rewrite Hg).
      intros _. apply same_stores_refl.
  - destruct (PyDict.contains (HouseBase.id house) (houses w)) eqn:Hin.
    + rewrite (create_house_duplicate _ _ Hin). intros _.
      apply same_stores_refl.
    + destruct (HouseBase.address house) as [a|] eqn:Ha.
      * rewrite (create_house_run _ _ _ Hin Ha). discriminate.
      * rewrite (create_house_without_address _ _ Hin Ha). intros _.
        apply same_stores_with_env.
  - destruct (PyDict.get house_id (houses w)) as [old|] eqn:Hg.
    + rewrite (update_house_found _ _ _ _ Hg).
      destruct (HouseRead.init _ (env w)) as [[r|x] e']; cbn;
        [discriminate|intros _; apply same_stores_with_env].
    + rewrite update_house_not_found
        by (unfold PyDict.contains; now rewrite Hg).
      intros _. apply same_stores_refl.
Qed.

Lemma failed_request_changes_no_store_witness :
  failed (UpdateOrganization 4%N Example.null_name) Example.populated = true
  /\ same_stores Example.populated
       (serve (UpdateOrganization 4%N Example.null_name) Example.populated).
Proof.
  assert (H : failed (UpdateOrganization 4%N Example.null_name)
                Example.populated = true)
    by (vm_compute; reflexivity).
  split; [exact H|].
  exact (failed_request_changes_no_store _ _ H).
Defined.

(** ** What a constructor that returned was given *)

Lemma ReadModel_init_base {B} (base_init : pydict -> M Env B) kwargs e r e' :
  ReadModel.init base_init kwargs e = (Return r, e') ->
  exists e1, base_init kwargs e = (Return (ReadModel.base r), e1).
Proof.
  unfold ReadModel.init. intros H.
  apply ap_inv in H as (f2 & e3 & u & H & _ & ->).
  apply ap_inv in H as (f1 & e2 & c & H & _ & ->).
  apply ap_inv in H as (f0 & e1 & b & H & Hb & ->).
  injection H as <- <-. now exists e2.
Qed.

(** Splits a constructor that returned into its fields, last to first. *)
Ltac invert_fields H :=
  repeat (let f := fresh "f" in let s := fresh "s" in let a := fresh "a" in
          let Hs := fresh "Hfield" in
          apply ap_inv in H as (f & s & a & H & Hs & ->));
  injection H as <- <-.

Lemma AddressBase_init_id kwargs e b e' i :
  AddressBase.init kwargs e = (Return b, e') ->
  PyDict.get "id" kwargs = Some (PUuid i) ->
  AddressBase.id b = i.
Proof.
  unfold AddressBase.init. intros H Hid.
  rewrite (field_given _ _ _ _ _ Hid) in H. invert_fields H.
  match goal with
  | Hi : as_uuid (PUuid i) _ = _ |- _ => now injection Hi as <- _
  end.
Qed.

Lemma PersonBase_init_id kwargs e b e' i :
  PersonBase.init kwargs e = (Return b, e') ->
  PyDict.get "id" kwargs = Some (PUuid i) ->
  PersonBase.id b = i.
Proof.
  unfold PersonBase.init. intros H Hid.
  rewrite (field_given _ _ _ _ _ Hid) in H. invert_fields H.
  match goal with
  | Hi : as_uuid (PUuid i) _ = _ |- _ => now injection Hi as <- _
  end.
Qed.

Lemma OrganizationBase_init_id kwargs e b e' i :
  OrganizationBase.init kwargs e = (Return b, e') ->
  PyDict.get "id" kwargs = Some (PUuid i) ->
  OrganizationBase.id b = i.
Proof.
  unfold OrganizationBase.init. intros H Hid.
  rewrite (field_given _ _ _ _ _ Hid) in H. invert_fields H.
  match goal with
  | Hi : as_uuid (PUuid i) _ = _ |- _ => now injection Hi as <- _
  end.
Qed.

Lemma HouseBase_init_id kwargs e b e' i :
  HouseBase.init kwargs e = (Return b, e') ->
  PyDict.get "id" kwargs = Some (PUuid i) ->
  HouseBase.id b = i.
Proof.
  unfold HouseBase.init. intros H Hid.
  rewrite (field_given _ _ _ _ _ Hid) in H. invert_fields H.
  match goal with
  | Hi : as_uuid (PUuid i) _ = _ |- _ => now injection Hi as <- _
  end.
Qed.

(** A House built from arguments that give an address has one. *)
Lemma HouseBase_init_address kwargs e b e' v :
  HouseBase.init kwargs e = (Return b, e') ->
  PyDict.get "address" kwargs = Some v ->
  HouseBase.address b <> None.
Proof.
  unfold HouseBase.init. intros H Ha.
  rewrite (field_given _ _ _ _ _ Ha) in H. invert_fields H. cbn.
  match goal with
  | Hv : bind (AddressBase.validate v) _ _ = _ |- _ =>
      apply bind_inv in Hv as (a3 & s3 & _ & Hret)
  end.
  injection Hret as <- _. discriminate.
Qed.

(** ** Identifiers *)

Section DictItems.
Context {K V : Type} `{Key K}.
Implicit Types (d : PyDict.t K V) (k : K) (v : V).

Lemma In_setitem k v k' v' d :
  In (k', v') (PyDict.setitem k v d) -> (k' = k /\ v' = v) \/ In (k', v') d.
Proof.
  induction d as [|[k0 v0] d IH]; simpl.
  - intros [[= <- <-]|[]]. now left.
  - destruct (key_eqb_spec k k0) as [->|Hne]; simpl.
    + intros [[= <- <-]|Hin]; auto.
    + intros [Heq|Hin]; auto. destruct (IH Hin); auto.
Qed.

Lemma get_In_item k v d : PyDict.get k d = Some v -> In (k, v) d.
Proof.
  induction d as [|[k0 v0] d IH]; simpl; [discriminate|].
  destruct (key_eqb_spec k k0) as [->|Hne]; [intros [= ->]; now left|auto].
Qed.

Lemma not_contains_not_key k d :
  PyDict.contains k d = false -> ~ In k (PyDict.keys d).
Proof.
  unfold PyDict.contains, PyDict.keys.
  induction d as [|[k0 v0] d IH]; simpl; [tauto|].
  destruct (key_eqb_spec k k0) as [->|Hne]; [discriminate|].
  intros Hd [Heq|Hin]; [congruence|now apply IH].
Qed.

Lemma keys_setitem_absent k v d :
  PyDict.contains k d = false ->
  PyDict.keys (PyDict.setitem k v d) = PyDict.keys d ++ [k].
Proof.
  intros Hnew. rewrite (PyDictFacts.setitem_absent _ _ _ Hnew).
  unfold PyDict.keys. now rewrite map_app.
Qed.

Lemma NoDup_keys_setitem k v d :
  NoDup (PyDict.keys d) -> NoDup (PyDict.keys (PyDict.setitem k v d)).
Proof.
  intros Hd. destruct (PyDict.contains k d) eqn:Hin.
  - now rewrite (PyDictFacts.keys_setitem_present _ _ _ Hin).
  - rewrite (keys_setitem_absent _ _ _ Hin).
    apply NoDup_app; [assumption|repeat constructor; intros []|].
    intros x Hx [<-|[]]. now apply (not_contains_not_key _ _ Hin).
Qed.

(** With distinct keys, an item of the dictionary is what [get] finds. *)
Lemma In_item_get k v d :
  NoDup (PyDict.keys d) -> In (k, v) d -> PyDict.get k d = Some v.
Proof.
  unfold PyDict.keys. induction d as [|[k0 v0] d IH]; simpl; [tauto|].
  intros Hd Hin. inversion Hd as [|? ? Hk0 Hd']; subst.
  destruct Hin as [[= -> ->]|Hin].
  - now rewrite PyDictFacts.key_eqb_refl.
  - destruct (key_eqb_spec k k0) as [->|Hne]; [|auto].
    exfalso. apply Hk0. now apply (in_map fst _ (k0, v)).
Qed.

End DictItems.

Lemma filed_refiled {B} (id_of : B -> UUID) extra
    (d d' : PyDict.t UUID (ReadModel.t B)) :
  filed_by_id id_of d -> refiled id_of extra d d' -> filed_by_id id_of d'.
Proof.
  intros [Hkeys Hid] [->|(k & r & -> & _ & Hr)]; [now split|].
  split; [now apply NoDup_keys_setitem|].
  intros k' r' Hin. destruct (In_setitem _ _ _ _ _ Hin) as [[-> ->]|Hold].
  - destruct Hr as [Hk|(old & Hg & Hsame)]; [assumption|].
    rewrite Hsame. apply Hid. now apply get_In_item.
  - now apply Hid.
Qed.

Lemma extra_refiled {B} (id_of : B -> UUID) (extra : ReadModel.t B -> Prop)
    (d d' : PyDict.t UUID (ReadModel.t B)) :
  (forall r, In r (PyDict.values d) -> extra r) ->
  refiled id_of extra d d' ->
  forall r, In r (PyDict.values d') -> extra r.
Proof.
  intros Hd [->|(k & r0 & -> & Hr & _)] r Hin; [auto|].
  destruct (PyDictFacts.In_setitem_values _ _ _ _ Hin) as [->|Hold]; auto.
Qed.

Lemma refiled_same {B} (id_of : B -> UUID) extra
    (d : PyDict.t UUID (ReadModel.t B)) : refiled id_of extra d d.
Proof. now left. Qed.

Lemma refiled_created {B} (id_of : B -> UUID) (extra : ReadModel.t B -> Prop)
    (d : PyDict.t UUID (ReadModel.t B)) e b :
  extra (stamped e b) ->
  refiled id_of extra d (PyDict.setitem (id_of b) (stamped e b) d).
Proof. intros He. right. exists (id_of b), (stamped e b). auto. Qed.

Lemma refiled_updated {B} (id_of : B -> UUID) (extra : ReadModel.t B -> Prop)
    (d : PyDict.t UUID (ReadModel.t B)) k old r now :
  PyDict.get k d = Some old ->
  id_of (ReadModel.base r) = id_of (ReadModel.base old) ->
  extra (ReadModel.set_updated_at now r) ->
  refiled id_of extra d (PyDict.setitem k (ReadModel.set_updated_at now r) d).
Proof.
  intros Hg Hid He. right. exists k, (ReadModel.set_updated_at now r).
  split; [reflexivity|]. split; [assumption|]. right. eauto.
Qed.

(** What a request does to each store. *)
Lemma serve_refiles rq w :
  refiled PersonBase.id (fun _ => True) (persons w) (persons (serve rq w))
  /\ refiled AddressBase.id (fun _ => True) (addresses w)
       (addresses (serve rq w))
  /\ refiled OrganizationBase.id (fun _ => True) (organizations w)
       (organizations (serve rq w))
  /\ refiled HouseBase.id
       (fun r => HouseBase.address (ReadModel.base r) <> None)
       (houses w) (houses (serve rq w)).
Proof.
  destruct rq; cbn [serve];
    rewrite ?get_address_state, ?get_person_state, ?get_organization_state,
      ?get_house_state, ?list_houses_state;
    try (repeat split; apply refiled_same).
  - destruct (PyDict.contains (AddressBase.id address) (addresses w)) eqn:Hin.
    + rewrite (create_address_duplicate _ _ Hin).
      repeat split; apply refiled_same.
    + rewrite (create_address_run _ _ Hin). cbn.
      repeat split; try apply refiled_same.
      now apply (refiled_created AddressBase.id).
  - destruct (PyDict.get address_id (addresses w)) as [old|] eqn:Hg.
    + rewrite (update_address_found _ _ _ _ Hg).
      destruct (AddressRead.init _ (env w)) as [[r|x] e'] eqn:E; cbn;
        [|repeat split; apply refiled_same].
      repeat split; try apply refiled_same.
      apply (refiled_updated AddressBase.id _ _ _ old); [assumption| |exact I].
      destruct (ReadModel_init_base _ _ _ _ _ E) as (e1 & Hb).
      exact (AddressBase_init_id _ _ _ _ _ Hb (Address_stored_id old update)).
    + rewrite update_address_not_found
        by (unfold PyDict.contains; now rewrite Hg).
      repeat split; apply refiled_same.
  - rewrite create_person_run. cbn.
    repeat split; try apply refiled_same.
    now apply (refiled_created PersonBase.id).
  - destruct (PyDict.get person_id (persons w)) as [old|] eqn:Hg.
    + rewrite (update_person_found _ _ _ _ Hg).
      destruct (PersonRead.init _ (env w)) as [[r|x] e'] eqn:E; cbn;
        [|repeat split; apply refiled_same].
      repeat split; try apply refiled_same.
      apply (refiled_updated PersonBase.id _ _ _ old); [assumption| |exact I].
      destruct (ReadModel_init_base _ _ _ _ _ E) as (e1 & Hb).
      exact (PersonBase_init_id _ _ _ _ _ Hb (Person_stored_id old update)).
    + rewrite update_person_not_found
        by (unfold PyDict.contains; now rewrite Hg).
      repeat split; apply refiled_same.
  - destruct (PyDict.contains (OrganizationBase.id organization)
                (organizations w)) eqn:Hin.
    + rewrite (create_organization_duplicate _ _ Hin).
      repeat split; apply refiled_same.
    + rewrite (create_organization_run _ _ Hin). cbn.
      repeat split; try apply refiled_same.
      now apply (refiled_created OrganizationBase.id).
  - destruct (PyDict.get organization_id (organizations w)) as [old|] eqn:Hg.
    + rewrite (update_organization_found _ _ _ _ Hg).
      destruct (OrganizationRead.init _ (env w)) as [[r|x] e'] eqn:E; cbn;
        [|repeat split; apply refiled_same].
      repeat split; try apply refiled_same.
      apply (refiled_updated OrganizationBase.id _ _ _ old);
        [assumption| |exact I].
      destruct (ReadModel_init_base _ _ _ _ _ E) as (e1 & Hb).
      exact (OrganizationBase_init_id _ _ _ _ _ Hb
               (Organization_stored_id old update)).
    + rewrite update_organization_not_found
        by (unfold PyDict.contains; now rewrite Hg).
      repeat split; apply refiled_same.
  - destruct (PyDict.contains (HouseBase.id house) (houses w)) eqn:Hin.
    + rewrite (create_house_duplicate _ _ Hin).
      repeat split; apply refiled_same.
    + destruct (HouseBase.address house) as [a|] eqn:Ha.
      * rewrite (create_house_run _ _ _ Hin Ha). cbn.
        repeat split; try apply refiled_same.
        apply (refiled_created HouseBase.id). cbn. now rewrite Ha.
      * rewrite (create_house_without_address _ _ Hin Ha).
        repeat split; apply refiled_same.
  - destruct (PyDict.get house_id (houses w)) as [old|] eqn:Hg.
    + rewrite (update_house_found _ _ _ _ Hg).
      destruct (HouseRead.init _ (env w)) as [[r|x] e'] eqn:E; cbn;
        [|repeat split; apply refiled_same].
      repeat split; try apply refiled_same.
      destruct (ReadModel_init_base _ _ _ _ _ E) as (e1 & Hb).
      apply (refiled_updated HouseBase.id _ _ _ old); [assumption| |].
      * exact (HouseBase_init_id _ _ _ _ _ Hb (House_stored_id old update)).
      * exact (HouseBase_init_address _ _ _ _ _ Hb
                 (House_stored_address old update)).
    + rewrite update_house_not_found
        by (unfold PyDict.contains; now rewrite Hg).
      repeat split; apply refiled_same.
Qed.

Lemma serve_filed rq w : all_filed_by_id w -> all_filed_by_id (serve rq w).
Proof.
  intros (Hp & Ha & Ho & Hh).
  destruct (serve_refiles rq w) as (Sp & Sa & So & Sh).
  repeat split; eapply filed_refiled; eassumption.
Qed.

Lemma serve_houses_have_address rq w :
  houses_have_address w -> houses_have_address (serve rq w).
Proof.
  intros Hh. destruct (serve_refiles rq w) as (_ & _ & _ & Sh).
  exact (extra_refiled _ _ _ _ Hh Sh).
Qed.

(** X3. In a process that starts with empty stores, after any sequence of
    requests no store holds a key twice and every record sits under its
    own identifier: Create files a record under the identifier it
    carries, and Update rebuilds the record with the stored identifier,
    which no Update payload can change. *)
Theorem records_are_filed_by_identifier (w : World) (rqs : list request) :
  just_started w -> all_filed_by_id (serve_all rqs w).
Proof.
  intros (Hp & Ha & Ho & Hh).
  assert (Hstart : all_filed_by_id w).
  { unfold all_filed_by_id, filed_by_id. rewrite Hp, Ha, Ho, Hh.
    repeat apply conj; try constructor; intros k r []. }
  clear Hp Ha Ho Hh. revert w Hstart. unfold serve_all.
  induction rqs as [|rq rqs IH]; intros w Hw; simpl;
    [assumption|apply IH, serve_filed, Hw].
Qed.

Lemma records_are_filed_by_identifier_witness :
  just_started Example.empty_world
  /\ all_filed_by_id (serve_all Example.house_requests Example.empty_world).
Proof.
  assert (H : just_started Example.empty_world) by (repeat split).
  split; [exact H|].
  exact (records_are_filed_by_identifier _ Example.house_requests H).
Defined.

(** ** Listing houses *)

Lemma filterM_returns {S A} (test : A -> M S bool) (f : A -> bool) l s :
  (forall x, In x l -> test x s = (Return (f x), s)) ->
  filterM test l s = (Return (filter f l), s).
Proof.
  induction l as [|x l IH]; intros Htest; simpl; [reflexivity|].
  rewrite (bind_Return _ _ _ _ _ (Htest x (or_introl eq_refl))).
  rewrite (bind_Return _ _ _ _ _ (IH (fun y Hy => Htest y (or_intror Hy)))).
  reflexivity.
Qed.

Lemma filterM_if_returns {S A F} (flt : option F) (test : F -> A -> M S bool)
    (f : F -> A -> bool) l s :
  (forall v x, In x l -> test v x s = (Return (f v x), s)) ->
  filterM_if flt test l s = (Return (filter (passes flt f) l), s).
Proof.
  intros Htest. destruct flt as [v|]; simpl.
  - apply filterM_returns. intros x Hx. now apply Htest.
  - unfold ret. f_equal. f_equal.
    induction l as [|x l IH]; simpl; [reflexivity|].
    f_equal. apply IH. intros v y Hy. apply Htest. now right.
Qed.

(** Where every stored House has an address, [list_houses] returns the
    houses that pass the filters, in the store's order. *)
Lemma list_houses_returns phone person_uni city country w :
  houses_have_address w ->
  list_houses phone person_uni city country w
  = (Return (filter (house_passes phone person_uni city country)
               (PyDict.values (houses w))), w).
Proof.
  intros Hh. unfold list_houses.
  unfold bind at 1, values at 1. cbn [content houses_db].
  rewrite filter_if_passes.
  assert (Haddr : forall (f : AddressBase.t -> bool) (l : list HouseRead.t) p,
            (forall x, In x l -> In x (PyDict.values (houses w))) ->
            In p l ->
            bind (address_of p) (fun a => ret (f a)) w
            = (Return (match HouseBase.address (ReadModel.base p) with
                       | Some a => f a
                       | None => false
                       end), w)).
  { intros f l p Hl Hp. unfold bind, address_of.
    specialize (Hh p (Hl p Hp)).
    now destruct (HouseBase.address (ReadModel.base p)). }
  erewrite bind_Return; cycle 1.
  { apply (filterM_if_returns city _
             (fun city p =>
                match HouseBase.address (ReadModel.base p) with
                | Some a => optional_str_eq (AddressBase.city a) city
                | None => false
                end)).
    intros v x Hx.
    apply (Haddr (fun a => optional_str_eq (AddressBase.city a) v) _ x
             (fun y Hy => proj1 (proj1 (filter_In _ _ _) Hy)) Hx). }
  erewrite bind_Return; cycle 1.
  { apply (filterM_if_returns country _
             (fun country p =>
                match HouseBase.address (ReadModel.base p) with
                | Some a => optional_str_eq (AddressBase.country a) country
                | None => false
                end)).
    intros v x Hx.
    apply (Haddr (fun a => optional_str_eq (AddressBase.country a) v) _ x
             (fun y Hy =>
                proj1 (proj1 (filter_In _ _ _)
                         (proj1 (proj1 (filter_In _ _ _) Hy)))) Hx). }
  rewrite filter_if_passes, !filter_filter. unfold ret. f_equal. f_equal.
  apply filter_ext. intros x. unfold house_passes.
  now rewrite !andb_assoc.
Qed.

Lemma house_passes_true phone person_uni city country (p : HouseRead.t) :
  house_passes phone person_uni city country p = true <->
  (forall x, phone = Some x -> HouseBase.phone (ReadModel.base p) = Some x)
  /\ (forall x, city = Some x ->
        exists a, HouseBase.address (ReadModel.base p) = Some a
                  /\ AddressBase.city a = Some x)
  /\ (forall x, country = Some x ->
        exists a, HouseBase.address (ReadModel.base p) = Some a
                  /\ AddressBase.country a = Some x)
  /\ (forall x, person_uni = Some x ->
        In x (HouseBase.people (ReadModel.base p))).
Proof.
  unfold house_passes. rewrite !andb_true_iff, !passes_true.
  assert (Hcity : forall x,
            match HouseBase.address (ReadModel.base p) with
            | Some a => optional_str_eq (AddressBase.city a) x
            | None => false
            end = true <->
            exists a, HouseBase.address (ReadModel.base p) = Some a
                      /\ AddressBase.city a = Some x).
  { intros x. destruct (HouseBase.address (ReadModel.base p)) as [a|].
    - rewrite optional_str_eq_true. split; [eauto|].
      now intros (a' & [= <-] & Ha).
    - split; [discriminate|]. now intros (a' & Hn & _). }
  assert (Hcountry : forall x,
            match HouseBase.address (ReadModel.base p) with
            | Some a => optional_str_eq (AddressBase.country a) x
            | None => false
            end = true <->
            exists a, HouseBase.address (ReadModel.base p) = Some a
                      /\ AddressBase.country a = Some x).
  { intros x. destruct (HouseBase.address (ReadModel.base p)) as [a|].
    - rewrite optional_str_eq_true. split; [eauto|].
      now intros (a' & [= <-] & Ha).
    - split; [discriminate|]. now intros (a' & Hn & _). }
  assert (Huni : forall x,
            existsb (fun uni => String.eqb uni x)
              (HouseBase.people (ReadModel.base p)) = true <->
            In x (HouseBase.people (ReadModel.base p))).
  { intros x. rewrite existsb_exists. split.
    - intros (y & Hy & Heq). apply String.eqb_eq in Heq. now subst.
    - intros Hx. exists x. split; [assumption|apply String.eqb_refl]. }
  setoid_rewrite optional_str_eq_true.
  setoid_rewrite Hcity. setoid_rewrite Hcountry. setoid_rewrite Huni.
  tauto.
Qed.

Lemma serve_all_houses_have_address rqs w :
  houses_have_address w -> houses_have_address (serve_all rqs w).
Proof.
  unfold serve_all. revert w.
  induction rqs as [|rq rqs IH]; intros w Hw; simpl;
    [assumption|apply IH, serve_houses_have_address, Hw].
Qed.

(** X4. In a process that starts with empty stores, after any sequence of
    requests every stored House has an address (a House created without
    one is never stored), so [list_houses] never fails on
    [p.address.city]: it returns, in the store's order, exactly the houses
    that pass every filter supplied. *)
Theorem list_houses_after_any_requests (w0 : World) (rqs : list request)
    (phone : option string) (person_uni : option UNIType)
    (city country : option string) :
  just_started w0 ->
  let w := serve_all rqs w0 in
  houses_have_address w
  /\ exists results,
       list_houses phone person_uni city country w = (Return results, w)
       /\ (exists keep, results = filter keep (PyDict.values (houses w)))
       /\ forall p, In p results <->
            In p (PyDict.values (houses w))
            /\ (forall x, phone = Some x ->
                  HouseBase.phone (ReadModel.base p) = Some x)
            /\ (forall x, city = Some x ->
                  exists a, HouseBase.address (ReadModel.base p) = Some a
                            /\ AddressBase.city a = Some x)
            /\ (forall x, country = Some x ->
                  exists a, HouseBase.address (ReadModel.base p) = Some a
                            /\ AddressBase.country a = Some x)
            /\ (forall x, person_uni = Some x ->
                  In x (HouseBase.people (ReadModel.base p))).
Proof.
  intros (_ & _ & _ & Hh). cbv zeta.
  assert (Hw : houses_have_address (serve_all rqs w0)).
  { apply serve_all_houses_have_address. intros r. rewrite Hh. intros []. }
  split; [exact Hw|].
  eexists. split; [apply (list_houses_returns _ _ _ _ _ Hw)|].
  split; [eexists; reflexivity|].
  intros p. rewrite filter_In, house_passes_true. tauto.
Qed.

Lemma list_houses_after_any_requests_witness :
  just_started Example.empty_world
  /\ exists results,
       list_houses None (Some "abc1234") (Some "NYC") None
         (serve_all Example.house_requests Example.empty_world)
       = (Return results,
          serve_all Example.house_requests Example.empty_world).
Proof.
  assert (H : just_started Example.empty_world) by (repeat split).
  split; [exact H|].
  destruct (list_houses_after_any_requests Example.empty_world
              Example.house_requests None (Some "abc1234") (Some "NYC") None H)
    as (_ & results & Hrun & _).
  exists results. exact Hrun.
Defined.

(** ** Listing addresses and organizations *)

(** X5. [list_addresses] returns, in the store's order, exactly the
    addresses that pass every filter supplied; a filter is an exact
    comparison, so an address whose attribute is [None] passes no filter
    on that attribute. *)
Theorem list_addresses_filters_conjunction (w : World)
    (street city state postal_code country : option string) :
  exists results,
    list_addresses street city state postal_code country w
      = (Return results, w)
    /\ (exists keep, results = filter keep (PyDict.values (addresses w)))
    /\ forall a, In a results <->
         In a (PyDict.values (addresses w))
         /\ (forall x, street = Some x ->
               AddressBase.street (ReadModel.base a) = Some x)
         /\ (forall x, city = Some x ->
               AddressBase.city (ReadModel.base a) = Some x)
         /\ (forall x, state = Some x ->
               AddressBase.state (ReadModel.base a) = Some x)
         /\ (forall x, postal_code = Some x ->
               AddressBase.postal_code (ReadModel.base a) = Some x)
         /\ (forall x, country = Some x ->
               AddressBase.country (ReadModel.base a) = Some x).
Proof.
  eexists. split; [reflexivity|]. split.
  - rewrite !filter_if_passes, !filter_filter. eexists. reflexivity.
  - intros a. rewrite !filter_if_passes, !filter_In, !passes_true.
    setoid_rewrite optional_str_eq_true. tauto.
Qed.

Lemma list_addresses_filters_conjunction_witness :
  exists results,
    list_addresses None (Some "NYC") None None None Example.populated
    = (Return results, Example.populated)
    /\ forall a, In a results ->
         AddressBase.city (ReadModel.base a) = Some "NYC".
Proof.
  destruct (list_addresses_filters_conjunction Example.populated
              None (Some "NYC") None None None)
    as (results & Hrun & _ & Hin).
  exists results. split; [exact Hrun|].
  intros a Ha. apply Hin in Ha as (_ & _ & Hcity & _).
  exact (Hcity "NYC" eq_refl).
Defined.

(** X6. [list_organizations] returns, in the store's order, exactly the
    organizations that pass every filter supplied; the city and country
    filters look at the one embedded address. *)
Theorem list_organizations_filters_conjunction (w : World)
    (org_name email phone city country : option string) :
  exists results,
    list_organizations org_name email phone city country w
      = (Return results, w)
    /\ (exists keep, results = filter keep (PyDict.values (organizations w)))
    /\ forall p, In p results <->
         In p (PyDict.values (organizations w))
         /\ (forall x, org_name = Some x ->
               OrganizationBase.org_name (ReadModel.base p) = x)
         /\ (forall x, email = Some x ->
               OrganizationBase.email (ReadModel.base p) = x)
         /\ (forall x, phone = Some x ->
               OrganizationBase.phone (ReadModel.base p) = Some x)
         /\ (forall x, city = Some x ->
               AddressBase.city (OrganizationBase.address (ReadModel.base p))
               = Some x)
         /\ (forall x, country = Some x ->
               AddressBase.country
                 (OrganizationBase.address (ReadModel.base p)) = Some x).
Proof.
  eexists. split; [reflexivity|]. split.
  - rewrite !filter_if_passes, !filter_filter. eexists. reflexivity.
  - intros p. rewrite !filter_if_passes, !filter_In, !passes_true.
    setoid_rewrite String.eqb_eq.
    setoid_rewrite optional_str_eq_true. tauto.
Qed.

Lemma list_organizations_filters_conjunction_witness :
  exists results,
    list_organizations None None None (Some "NYC") None Example.populated
    = (Return results, Example.populated)
    /\ forall p, In p results ->
         AddressBase.city (OrganizationBase.address (ReadModel.base p))
         = Some "NYC".
Proof.
  destruct (list_organizations_filters_conjunction Example.populated
              None None None (Some "NYC") None)
    as (results & Hrun & _ & Hin).
  exists results. split; [exact Hrun|].
  intros p Hp. apply Hin in Hp as (_ & _ & _ & _ & Hcity & _).
  exact (Hcity "NYC" eq_refl).
Defined.

(** ** Create, then list *)

Lemma values_setitem_absent {V} (k : UUID) (v : V) (d : PyDict.t UUID V) :
  PyDict.contains k d = false ->
  PyDict.values (PyDict.setitem k v d) = PyDict.values d ++ [v].
Proof.
  intros Hnew. rewrite (PyDictFacts.setitem_absent _ _ _ Hnew).
  unfold PyDict.values. now rewrite map_app.
Qed.

(** X7. A record created under a new identifier goes to the end of its
    store: listing without filters after the Create returns the records
    that were there, in their order, followed by the new one. *)
Theorem create_then_list_appends (w : World) :
  (forall address : AddressCreate.t,
     PyDict.contains (AddressBase.id address) (addresses w) = false ->
     fst (list_addresses None None None None None
            (snd (create_address address w)))
     = Return (PyDict.values (addresses w) ++ [stamped (env w) address]))
  /\ (forall person : PersonCreate.t,
        PyDict.contains (PersonBase.id person) (persons w) = false ->
        fst (list_persons None None None None None None None None
               (snd (create_person person w)))
        = Return (PyDict.values (persons w) ++ [stamped (env w) person]))
  /\ (forall organization : OrganizationCreate.t,
        PyDict.contains (OrganizationBase.id organization) (organizations w)
          = false ->
        fst (list_organizations None None None None None
               (snd (create_organization organization w)))
        = Return (PyDict.values (organizations w)
                    ++ [stamped (env w) organization]))
  /\ (forall (house : HouseCreate.t) a,
        PyDict.contains (HouseBase.id house) (houses w) = false ->
        HouseBase.address house = Some a ->
        fst (list_houses None None None None (snd (create_house house w)))
        = Return (PyDict.values (houses w) ++ [stamped (env w) house])).
Proof.
  split; [|split; [|split]].
  - intros address Hnew. rewrite (create_address_run _ _ Hnew).
    cbn -[PyDict.values PyDict.setitem stamped].
    now rewrite (values_setitem_absent _ _ _ Hnew).
  - intros person Hnew. rewrite create_person_run.
    cbn -[PyDict.values PyDict.setitem stamped].
    now rewrite (values_setitem_absent _ _ _ Hnew).
  - intros organization Hnew. rewrite (create_organization_run _ _ Hnew).
    cbn -[PyDict.values PyDict.setitem stamped].
    now rewrite (values_setitem_absent _ _ _ Hnew).
  - intros house a Hnew Ha. rewrite (create_house_run _ _ _ Hnew Ha).
    cbn -[PyDict.values PyDict.setitem stamped].
    now rewrite (values_setitem_absent _ _ _ Hnew).
Qed.

Lemma create_then_list_appends_witness :
  PyDict.contains (AddressBase.id Example.downing_st)
    (addresses Example.populated) = false
  /\ fst (list_addresses None None None None None
            (snd (create_address Example.downing_st Example.populated)))
     = Return (PyDict.values (addresses Example.populated)
                 ++ [stamped (env Example.populated) Example.downing_st]).
Proof.
  assert (H : PyDict.contains (AddressBase.id Example.downing_st)
                (addresses Example.populated) = false)
    by (vm_compute; reflexivity).
  split; [exact H|].
  destruct (create_then_list_appends Example.populated) as (Ha & _).
  exact (Ha Example.downing_st H).
Defined.

(** ** What an update leaves *)

Lemma update_address_keeps_keys id u w :
  PyDict.keys (addresses (snd (update_address id u w))) = PyDict.keys (addresses w)
  /\ persons (snd (update_address id u w)) = persons w
  /\ organizations (snd (update_address id u w)) = organizations w
  /\ houses (snd (update_address id u w)) = houses w.
Proof.
  destruct (PyDict.get id (addresses w)) as [old|] eqn:Hg.
  - rewrite (update_address_found _ _ _ _ Hg).
    destruct (AddressRead.init _ (env w)) as [[r|x] e']; cbn;
      [|repeat split].
    repeat split.
    apply PyDictFacts.keys_setitem_present.
    exact (PyDictFacts.get_contains _ _ _ Hg).
  - rewrite update_address_not_found
      by (unfold PyDict.contains; now rewrite Hg).
    repeat split.
Qed.

Lemma update_address_returned id u w new w' :
  update_address id u w = (Return new, w') ->
  exists old,
    PyDict.get id (addresses w) = Some old
    /\ AddressBase.id (ReadModel.base new) = AddressBase.id (ReadModel.base old)
    /\ ReadModel.created_at new = ReadModel.created_at old
    /\ ReadModel.updated_at new = utcnow_at (env w) (clock_reads (env w))
    /\ get_address id w' = (Return new, w')
    /\ (forall k, k <> id ->
          PyDict.get k (addresses w') = PyDict.get k (addresses w)).
Proof.
  destruct (PyDict.get id (addresses w)) as [old|] eqn:Hg.
  - rewrite (update_address_found _ _ _ _ Hg).
    destruct (AddressRead.init _ (env w)) as [[r|x] e'] eqn:E; [|discriminate].
    cbv zeta. intros [= <- <-]. exists old. split; [reflexivity|].
    destruct (ReadModel_init_keeps _ _ _ _ (keeps_clock_AddressBase_init _)
                (Address_stored_created_at old u) (Address_stored_updated_at old u)
                _ _ _ E) as (Hclock & Hreads & Hr).
    destruct (Hr r eq_refl) as [Hc _].
    destruct (ReadModel_init_base _ _ _ _ _ E) as (e1 & Hb).
    split; [exact (AddressBase_init_id _ _ _ _ _ Hb (Address_stored_id old u))|].
    split; [exact Hc|]. split; [cbn; now rewrite Hclock, Hreads|].
    split.
    + apply get_address_found. cbn. apply PyDictFacts.get_setitem_same.
    + intros k Hk. cbn. now apply PyDictFacts.get_setitem_other.
  - rewrite update_address_not_found
      by (unfold PyDict.contains; now rewrite Hg).
    discriminate.
Qed.

Lemma update_person_keeps_keys id u w :
  PyDict.keys (persons (snd (update_person id u w))) = PyDict.keys (persons w)
  /\ addresses (snd (update_person id u w)) = addresses w
  /\ organizations (snd (update_person id u w)) = organizations w
  /\ houses (snd (update_person id u w)) = houses w.
Proof.
  destruct (PyDict.get id (persons w)) as [old|] eqn:Hg.
  - rewrite (update_person_found _ _ _ _ Hg).
    destruct (PersonRead.init _ (env w)) as [[r|x] e']; cbn;
      [|repeat split].
    repeat split.
    apply PyDictFacts.keys_setitem_present.
    exact (PyDictFacts.get_contains _ _ _ Hg).
  - rewrite update_person_not_found
      by (unfold PyDict.contains; now rewrite Hg).
    repeat split.
Qed.

Lemma update_person_returned id u w new w' :
  update_person id u w = (Return new, w') ->
  exists old,
    PyDict.get id (persons w) = Some old
    /\ PersonBase.id (ReadModel.base new) = PersonBase.id (ReadModel.base old)
    /\ ReadModel.created_at new = ReadModel.created_at old
    /\ ReadModel.updated_at new = utcnow_at (env w) (clock_reads (env w))
    /\ get_person id w' = (Return new, w')
    /\ (forall k, k <> id ->
          PyDict.get k (persons w') = PyDict.get k (persons w)).
Proof.
  destruct (PyDict.get id (persons w)) as [old|] eqn:Hg.
  - rewrite (update_person_found _ _ _ _ Hg).
    destruct (PersonRead.init _ (env w)) as [[r|x] e'] eqn:E; [|discriminate].
    cbv zeta. intros [= <- <-]. exists old. split; [reflexivity|].
    destruct (ReadModel_init_keeps _ _ _ _ (keeps_clock_PersonBase_init _)
                (Person_stored_created_at old u) (Person_stored_updated_at old u)
                _ _ _ E) as (Hclock & Hreads & Hr).
    destruct (Hr r eq_refl) as [Hc _].
    destruct (ReadModel_init_base _ _ _ _ _ E) as (e1 & Hb).
    split; [exact (PersonBase_init_id _ _ _ _ _ Hb (Person_stored_id old u))|].
    split; [exact Hc|]. split; [cbn; now rewrite Hclock, Hreads|].
    split.
    + apply get_person_found. cbn. apply PyDictFacts.get_setitem_same.
    + intros k Hk. cbn. now apply PyDictFacts.get_setitem_other.
  - rewrite update_person_not_found
      by (unfold PyDict.contains; now rewrite Hg).
    discriminate.
Qed.

Lemma update_organization_keeps_keys id u w :
  PyDict.keys (organizations (snd (update_organization id u w))) = PyDict.keys (organizations w)
  /\ persons (snd (update_organization id u w)) = persons w
  /\ addresses (snd (update_organization id u w)) = addresses w
  /\ houses (snd (update_organization id u w)) = houses w.
Proof.
  destruct (PyDict.get id (organizations w)) as [old|] eqn:Hg.
  - rewrite (update_organization_found _ _ _ _ Hg).
    destruct (OrganizationRead.init _ (env w)) as [[r|x] e']; cbn;
      [|repeat split].
    repeat split.
    apply PyDictFacts.keys_setitem_present.
    exact (PyDictFacts.get_contains _ _ _ Hg).
  - rewrite update_organization_not_found
      by (unfold PyDict.contains; now rewrite Hg).
    repeat split.
Qed.

Lemma update_organization_returned id u w new w' :
  update_organization id u w = (Return new, w') ->
  exists old,
    PyDict.get id (organizations w) = Some old
    /\ OrganizationBase.id (ReadModel.base new) = OrganizationBase.id (ReadModel.base old)
    /\ ReadModel.created_at new = ReadModel.created_at old
    /\ ReadModel.updated_at new = utcnow_at (env w) (clock_reads (env w))
    /\ get_organization id w' = (Return new, w')
    /\ (forall k, k <> id ->
          PyDict.get k (organizations w') = PyDict.get k (organizations w)).
Proof.
  destruct (PyDict.get id (organizations w)) as [old|] eqn:Hg.
  - rewrite (update_organization_found _ _ _ _ Hg).
    destruct (OrganizationRead.init _ (env w)) as [[r|x] e'] eqn:E; [|discriminate].
    cbv zeta. intros [= <- <-]. exists old. split; [reflexivity|].
    destruct (ReadModel_init_keeps _ _ _ _ (keeps_clock_OrganizationBase_init _)
                (Organization_stored_created_at old u) (Organization_stored_updated_at old u)
                _ _ _ E) as (Hclock & Hreads & Hr).
    destruct (Hr r eq_refl) as [Hc _].
    destruct (ReadModel_init_base _ _ _ _ _ E) as (e1 & Hb).
    split; [exact (OrganizationBase_init_id _ _ _ _ _ Hb (Organization_stored_id old u))|].
    split; [exact Hc|]. split; [cbn; now rewrite Hclock, Hreads|].
    split.
    + apply get_organization_found. cbn. apply PyDictFacts.get_setitem_same.
    + intros k Hk. cbn. now apply PyDictFacts.get_setitem_other.
  - rewrite update_organization_not_found
      by (unfold PyDict.contains; now rewrite Hg).
    discriminate.
Qed.

Lemma update_house_keeps_keys id u w :
  PyDict.keys (houses (snd (update_house id u w))) = PyDict.keys (houses w)
  /\ persons (snd (update_house id u w)) = persons w
  /\ addresses (snd (update_house id u w)) = addresses w
  /\ organizations (snd (update_house id u w)) = organizations w.
Proof.
  destruct (PyDict.get id (houses w)) as [old|] eqn:Hg.
  - rewrite (update_house_found _ _ _ _ Hg).
    destruct (HouseRead.init _ (env w)) as [[r|x] e']; cbn;
      [|repeat split].
    repeat split.
    apply PyDictFacts.keys_setitem_present.
    exact (PyDictFacts.get_contains _ _ _ Hg).
  - rewrite update_house_not_found
      by (unfold PyDict.contains; now rewrite Hg).
    repeat split.
Qed.

Lemma update_house_returned id u w new w' :
  update_house id u w = (Return new, w') ->
  exists old,
    PyDict.get id (houses w) = Some old
    /\ HouseBase.id (ReadModel.base new) = HouseBase.id (ReadModel.base old)
    /\ ReadModel.created_at new = ReadModel.created_at old
    /\ ReadModel.updated_at new = utcnow_at (env w) (clock_reads (env w))
    /\ get_house id w' = (Return new, w')
    /\ (forall k, k <> id ->
          PyDict.get k (houses w') = PyDict.get k (houses w)).
Proof.
  destruct (PyDict.get id (houses w)) as [old|] eqn:Hg.
  - rewrite (update_house_found _ _ _ _ Hg).
    destruct (HouseRead.init _ (env w)) as [[r|x] e'] eqn:E; [|discriminate].
    cbv zeta. intros [= <- <-]. exists old. split; [reflexivity|].
    destruct (ReadModel_init_keeps _ _ _ _ (keeps_clock_HouseBase_init _)
                (House_stored_created_at old u) (House_stored_updated_at old u)
                _ _ _ E) as (Hclock & Hreads & Hr).
    destruct (Hr r eq_refl) as [Hc _].
    destruct (ReadModel_init_base _ _ _ _ _ E) as (e1 & Hb).
    split; [exact (HouseBase_init_id _ _ _ _ _ Hb (House_stored_id old u))|].
    split; [exact Hc|]. split; [cbn; now rewrite Hclock, Hreads|].
    split.
    + apply get_house_found. cbn. apply PyDictFacts.get_setitem_same.
    + intros k Hk. cbn. now apply PyDictFacts.get_setitem_other.
  - rewrite update_house_not_found
      by (unfold PyDict.contains; now rewrite Hg).
    discriminate.
Qed.

(** X8. Update never adds, removes or moves a record: whatever the payload
    and the outcome, the keys of the store are the same, in the same
    order, and the other three stores are untouched. *)
Theorem update_keeps_every_key (w : World) (id : UUID) :
  (forall u, let w' := snd (update_address id u w) in
     PyDict.keys (addresses w') = PyDict.keys (addresses w)
     /\ persons w' = persons w /\ organizations w' = organizations w
     /\ houses w' = houses w)
  /\ (forall u, let w' := snd (update_person id u w) in
        PyDict.keys (persons w') = PyDict.keys (persons w)
        /\ addresses w' = addresses w /\ organizations w' = organizations w
        /\ houses w' = houses w)
  /\ (forall u, let w' := snd (update_organization id u w) in
        PyDict.keys (organizations w') = PyDict.keys (organizations w)
        /\ persons w' = persons w /\ addresses w' = addresses w
        /\ houses w' = houses w)
  /\ (forall u, let w' := snd (update_house id u w) in
        PyDict.keys (houses w') = PyDict.keys (houses w)
        /\ persons w' = persons w /\ addresses w' = addresses w
        /\ organizations w' = organizations w).
Proof.
  cbv zeta. repeat apply conj; intros u.
  - apply update_address_keeps_keys.
  - apply update_person_keeps_keys.
  - apply update_organization_keeps_keys.
  - apply update_house_keeps_keys.
Qed.

(** X9. Whenever an Update returns, for any payload: the record was
    stored, the record returned has the stored identifier and
    [created_at], its [updated_at] is the reading of the clock, a Get that
    follows returns the same record, and every other record of the store
    is as it was. *)
Theorem update_returns_the_stored_record (w : World) (id : UUID) :
  (forall u new w',
     update_address id u w = (Return new, w') ->
     exists old,
       PyDict.get id (addresses w) = Some old
       /\ AddressBase.id (ReadModel.base new)
          = AddressBase.id (ReadModel.base old)
       /\ ReadModel.created_at new = ReadModel.created_at old
       /\ ReadModel.updated_at new = utcnow_at (env w) (clock_reads (env w))
       /\ get_address id w' = (Return new, w')
       /\ (forall k, k <> id ->
             PyDict.get k (addresses w') = PyDict.get k (addresses w)))
  /\ (forall u new w',
        update_person id u w = (Return new, w') ->
        exists old,
          PyDict.get id (persons w) = Some old
          /\ PersonBase.id (ReadModel.base new)
             = PersonBase.id (ReadModel.base old)
          /\ ReadModel.created_at new = ReadModel.created_at old
          /\ ReadModel.updated_at new
             = utcnow_at (env w) (clock_reads (env w))
          /\ get_person id w' = (Return new, w')
          /\ (forall k, k <> id ->
                PyDict.get k (persons w') = PyDict.get k (persons w)))
  /\ (forall u new w',
        update_organization id u w = (Return new, w') ->
        exists old,
          PyDict.get id (organizations w) = Some old
          /\ OrganizationBase.id (ReadModel.base new)
             = OrganizationBase.id (ReadModel.base old)
          /\ ReadModel.created_at new = ReadModel.created_at old
          /\ ReadModel.updated_at new
             = utcnow_at (env w) (clock_reads (env w))
          /\ get_organization id w' = (Return new, w')
          /\ (forall k, k <> id ->
                PyDict.get k (organizations w')
                = PyDict.get k (organizations w)))
  /\ (forall u new w',
        update_house id u w = (Return new, w') ->
        exists old,
          PyDict.get id (houses w) = Some old
          /\ HouseBase.id (ReadModel.base new)
             = HouseBase.id (ReadModel.base old)
          /\ ReadModel.created_at new = ReadModel.created_at old
          /\ ReadModel.updated_at new
             = utcnow_at (env w) (clock_reads (env w))
          /\ get_house id w' = (Return new, w')
          /\ (forall k, k <> id ->
                PyDict.get k (houses w') = PyDict.get k (houses w))).
Proof.
  repeat apply conj; intros u new w' Hrun.
  - exact (update_address_returned _ _ _ _ _ Hrun).
  - exact (update_person_returned _ _ _ _ _ Hrun).
  - exact (update_organization_returned _ _ _ _ _ Hrun).
  - exact (update_house_returned _ _ _ _ _ Hrun).
Qed.

Lemma update_returns_the_stored_record_witness :
  update_address 1%N Example.move_to_boston Example.populated
  = (Return Example.moved,
     snd (update_address 1%N Example.move_to_boston Example.populated))
  /\ exists old,
       PyDict.get 1%N (addresses Example.populated) = Some old
       /\ ReadModel.created_at Example.moved = ReadModel.created_at old
       /\ ReadModel.updated_at Example.moved
          = utcnow_at (env Example.populated)
              (clock_reads (env Example.populated)).
Proof.
  assert (H : update_address 1%N Example.move_to_boston Example.populated
              = (Return Example.moved,
                 snd (update_address 1%N Example.move_to_boston
                        Example.populated)))
    by (vm_compute; reflexivity).
  split; [exact H|].
  destruct (update_returns_the_stored_record Example.populated 1%N)
    as (Ha & _).
  destruct (Ha _ _ _ H) as (old & Hg & _ & Hc & Hu & _).
  exists old. auto.
Defined.

(** ** The exceptions of the handlers *)

Lemma only_ValidationError_AddressRead_init kwargs :
  only_ValidationError (AddressRead.init kwargs).
Proof.
  unfold AddressRead.init, ReadModel.init, AddressBase.init.
  auto 30 with errors.
Qed.

Lemma only_ValidationError_PersonRead_init kwargs :
  only_ValidationError (PersonRead.init kwargs).
Proof.
  unfold PersonRead.init, ReadModel.init, PersonBase.init.
  auto 40 with errors.
Qed.

Lemma only_ValidationError_OrganizationRead_init kwargs :
  only_ValidationError (OrganizationRead.init kwargs).
Proof.
  unfold OrganizationRead.init, ReadModel.init, OrganizationBase.init.
  auto 30 with errors.
Qed.

Lemma only_ValidationError_HouseRead_init kwargs :
  only_ValidationError (HouseRead.init kwargs).
Proof.
  unfold HouseRead.init, ReadModel.init, HouseBase.init.
  auto 30 with errors.
Qed.

(** X10. The exceptions a request can end with.  Create: 400 for an
    identifier already stored and, for a House, the constructor's
    [ValidationError]; never for a Person.  Get: 404.  Update: 404, or
    the constructor's [ValidationError].  List: none, where every stored
    House has an address.  In particular no subscript [db[k]] of a
    handler ever raises [KeyError]. *)
Theorem errors_of_a_request (rq : request) (w : World) (x : exn) :
  houses_have_address w ->
  error_of rq w = Some x ->
  match rq with
  | CreateAddress _ | CreateOrganization _ =>
      exists detail, x = HTTPException 400 detail
  | CreateHouse _ =>
      (exists detail, x = HTTPException 400 detail) \/ x = ValidationError
  | CreatePerson _ => False
  | GetAddress _ | GetPerson _ | GetOrganization _ | GetHouse _ =>
      exists detail, x = HTTPException 404 detail
  | UpdateAddress _ _ | UpdatePerson _ _ | UpdateOrganization _ _
  | UpdateHouse _ _ =>
      (exists detail, x = HTTPException 404 detail) \/ x = ValidationError
  | ListAddresses _ _ _ _ _ | ListPersons _ _ _ _ _ _ _ _
  | ListOrganizations _ _ _ _ _ | ListHouses _ _ _ _ => False
  end.
Proof.
  intros Hh. destruct rq; cbn [error_of]; try discriminate.
  - destruct (PyDict.contains (AddressBase.id address) (addresses w)) eqn:Hin.
    + rewrite (create_address_duplicate _ _ Hin). intros [= <-]. eauto.
    + rewrite (create_address_run _ _ Hin). discriminate.
  - destruct (PyDict.get address_id (addresses w)) as [r|] eqn:Hg.
    + rewrite (get_address_found _ _ _ Hg). discriminate.
    + rewrite get_address_not_found
        by (unfold PyDict.contains; now rewrite Hg).
      intros [= <-]. eauto.
  - destruct (PyDict.get address_id (addresses w)) as [old|] eqn:Hg.
    + rewrite (update_address_found _ _ _ _ Hg).
      destruct (AddressRead.init _ (env w)) as [[r|y] e'] eqn:E;
        [discriminate|].
      intros [= <-]. right.
      exact (only_ValidationError_AddressRead_init _ _ _ _ E).
    + rewrite update_address_not_found
        by (unfold PyDict.contains; now rewrite Hg).
      intros [= <-]. eauto.
  - rewrite create_person_run. discriminate.
  - destruct (PyDict.get person_id (persons w)) as [r|] eqn:Hg.
    + rewrite (get_person_found _ _ _ Hg). discriminate.
    + rewrite get_person_not_found
        by (unfold PyDict.contains; now rewrite Hg).
      intros [= <-]. eauto.
  - destruct (PyDict.get person_id (persons w)) as [old|] eqn:Hg.
    + rewrite (update_person_found _ _ _ _ Hg).
      destruct (PersonRead.init _ (env w)) as [[r|y] e'] eqn:E;
        [discriminate|].
      intros [= <-]. right.
      exact (only_ValidationError_PersonRead_init _ _ _ _ E).
    + rewrite update_person_not_found
        by (unfold PyDict.contains; now rewrite Hg).
      intros [= <-]. eauto.
  - destruct (PyDict.contains (OrganizationBase.id organization)
                (organizations w)) eqn:Hin.
    + rewrite (create_organization_duplicate _ _ Hin). intros [= <-]. eauto.
    + rewrite (create_organization_run _ _ Hin). discriminate.
  - destruct (PyDict.get organization_id (organizations w)) as [r|] eqn:Hg.
    + rewrite (get_organization_found _ _ _ Hg). discriminate.
    + rewrite get_organization_not_found
        by (unfold PyDict.contains; now rewrite Hg).
      intros [= <-]. eauto.
  - destruct (PyDict.get organization_id (organizations w)) as [old|] eqn:Hg.
    + rewrite (update_organization_found _ _ _ _ Hg).
      destruct (OrganizationRead.init _ (env w)) as [[r|y] e'] eqn:E;
        [discriminate|].
      intros [= <-]. right.
      exact (only_ValidationError_OrganizationRead_init _ _ _ _ E).
    + rewrite update_organization_not_found
        by (unfold PyDict.contains; now rewrite Hg).
      intros [= <-]. eauto.
  - destruct (PyDict.contains (HouseBase.id house) (houses w)) eqn:Hin.
    + rewrite (create_house_duplicate _ _ Hin). intros [= <-]. eauto.
    + destruct (HouseBase.address house) as [a|] eqn:Ha.
      * rewrite (create_house_run _ _ _ Hin Ha). discriminate.
      * rewrite (create_house_without_address _ _ Hin Ha).
        intros [= <-]. now right.
  - rewrite (list_houses_returns _ _ _ _ _ Hh). discriminate.
  - destruct (PyDict.get house_id (houses w)) as [r|] eqn:Hg.
    + rewrite (get_house_found _ _ _ Hg). discriminate.
    + rewrite get_house_not_found
        by (unfold PyDict.contains; now rewrite Hg).
      intros [= <-]. eauto.
  - destruct (PyDict.get house_id (houses w)) as [old|] eqn:Hg.
    + rewrite (update_house_found _ _ _ _ Hg).
      destruct (HouseRead.init _ (env w)) as [[r|y] e'] eqn:E;
        [discriminate|].
      intros [= <-]. right.
      exact (only_ValidationError_HouseRead_init _ _ _ _ E).
    + rewrite update_house_not_found
        by (unfold PyDict.contains; now rewrite Hg).
      intros [= <-]. eauto.
Qed.

Lemma errors_of_a_request_witness :
  houses_have_address Example.with_house
  /\ error_of (UpdateHouse 5%N Example.take_residents) Example.with_house
     = Some ValidationError
  /\ ((exists detail, ValidationError = HTTPException 404 detail)
      \/ ValidationError = ValidationError).
Proof.
  assert (Hh : houses_have_address Example.with_house).
  { intros r Hin.
    assert (Hv : PyDict.values (houses Example.with_house)
                 = [stamped Example.env0 Example.house])
      by (vm_compute; reflexivity).
    rewrite Hv in Hin. destruct Hin as [<-|[]]. discriminate. }
  assert (He : error_of (UpdateHouse 5%N Example.take_residents)
                 Example.with_house = Some ValidationError)
    by (vm_compute; reflexivity).
  split; [exact Hh|]. split; [exact He|].
  exact (errors_of_a_request _ _ _ Hh He).
Defined.

(** ** Update succeeds exactly when the merge is a record *)

Lemma as_str_inv v e x e1 :
  as_str v e = (Return x, e1) -> v = PStr x /\ e1 = e.
Proof. destruct v; simpl; try discriminate. now intros [= -> ->]. Qed.

Lemma overwrite_dump_inv name fs given stored x :
  (if is_set name fs then dump_optional PStr given else PStr stored) = PStr x ->
  overwrite name fs given stored = Some x.
Proof.
  unfold overwrite. destruct (is_set name fs).
  - destruct given; simpl; [now intros [= ->]|discriminate].
  - now intros [= ->].
Qed.

Lemma validate_address_overwritten_inv name fs given stored e a e' :
  AddressBase.validate
    (if is_set name fs
     then dump_optional
            (fun s => PDict (AddressBase.model_dump_exclude_unset s)) given
     else PDict (AddressBase.model_dump stored)) e
  = (Return a, e') ->
  overwrite name fs
    (option_map (AddressBase.completed (uuid4_at e (uuid_draws e))) given)
    stored = Some a.
Proof.
  unfold overwrite. destruct (is_set name fs).
  - destruct given as [s|]; simpl dump_optional; [|discriminate].
    rewrite AddressBase_validate_exclude_unset. now intros [= <- _].
  - rewrite AddressBase_validate_dump. now intros [= <- _].
Qed.

Lemma validate_house_address_overwritten_inv name fs given stored e oa e' :
  bind
    (AddressBase.validate
       (if is_set name fs
        then dump_optional
               (fun s => PDict (AddressBase.model_dump_exclude_unset s)) given
        else match stored with
             | Some a => PDict (AddressBase.model_dump a)
             | None => PObject
             end))
    (fun a => ret (Some a)) e
  = (Return oa, e') ->
  exists a,
    oa = Some a
    /\ overwrite_nullable name fs
         (option_map (AddressBase.completed (uuid4_at e (uuid_draws e))) given)
         stored = Some a.
Proof.
  unfold overwrite_nullable. intros H.
  apply bind_inv in H as (a & e1 & Hv & Hret). injection Hret as <- _.
  exists a. split; [reflexivity|]. destruct (is_set name fs).
  - destruct given as [s|]; simpl dump_optional in Hv; [|discriminate].
    rewrite AddressBase_validate_exclude_unset in Hv.
    now injection Hv as <- _.
  - destruct stored as [a0|]; [|discriminate].
    rewrite AddressBase_validate_dump in Hv. now injection Hv as <- _.
Qed.

Lemma validate_people_overwritten_inv name fs (given : option (list UUID))
    (stored ps : list UNIType) e e' :
  as_list as_UNIType
    (if is_set name fs
     then dump_optional (fun l => PList (map PUuid l)) given
     else PList (map PStr stored)) e
  = (Return ps, e') ->
  (if is_set name fs
   then match given with Some [] => Some [] | _ => None end
   else Some stored) = Some ps.
Proof.
  destruct (is_set name fs).
  - destruct given as [[|x g]|]; try discriminate.
    + now intros [= <- _].
    + intros H. now destruct (as_list_as_UNIType_PUuid _ _ _ _ _ H).
  - cbn [as_list]. rewrite traverse_as_UNIType_dump. now intros [= <- _].
Qed.

Lemma OrganizationBase_init_merged_inv (old : OrganizationRead.t) u e b e' :
  OrganizationBase.init
    (PyDict.update (OrganizationRead.model_dump old)
       (OrganizationUpdate.model_dump_exclude_unset u)) e
  = (Return b, e') ->
  merge_organization e u (ReadModel.base old) = Some b.
Proof.
  unfold OrganizationBase.init. intros H.
  rewrite (field_given _ _ _ _ _ (Organization_stored_id old u)),
    (field_given _ _ _ _ _ (Organization_stored_org_name old u)),
    (field_given _ _ _ _ _ (Organization_stored_email old u)),
    (field_given _ _ _ _ _ (Organization_stored_phone old u)),
    (field_given _ _ _ _ _ (Organization_stored_address old u)) in H.
  rewrite overwrite_nullable_dump in H.
  apply ap_inv in H as (f5 & e5 & a & H & Ha & ->).
  apply ap_inv in H as (f4 & e4 & ph & H & Hph & ->).
  apply ap_inv in H as (f3 & e3 & m & H & Hm & ->).
  apply ap_inv in H as (f2 & e2 & n & H & Hn & ->).
  apply ap_inv in H as (f1 & e1 & i & H & Hi & ->).
  injection H as <- <-. injection Hi as <- <-.
  apply as_str_inv in Hn as [Hn ->]. apply overwrite_dump_inv in Hn.
  apply as_str_inv in Hm as [Hm ->]. apply overwrite_dump_inv in Hm.
  rewrite as_optional_str_dump in Hph. injection Hph as <- <-.
  apply validate_address_overwritten_inv in Ha.
  unfold merge_organization. cbv zeta. now rewrite Hn, Hm, Ha.
Qed.

Lemma HouseBase_init_merged_inv (old : HouseRead.t) u e b e' :
  HouseBase.init
    (PyDict.update (HouseRead.model_dump old)
       (HouseUpdate.model_dump_exclude_unset u)) e
  = (Return b, e') ->
  merge_house e u (ReadModel.base old) = Some b.
Proof.
  unfold HouseBase.init. intros H.
  rewrite (field_given _ _ _ _ _ (House_stored_id old u)),
    (field_given _ _ _ _ _ (House_stored_phone old u)),
    (field_given _ _ _ _ _ (House_stored_address old u)),
    (field_given _ _ _ _ _ (House_stored_people old u)) in H.
  rewrite overwrite_nullable_dump in H.
  apply ap_inv in H as (f4 & e4 & ps & H & Hps & ->).
  apply ap_inv in H as (f3 & e3 & oa & H & Ha & ->).
  apply ap_inv in H as (f2 & e2 & ph & H & Hph & ->).
  apply ap_inv in H as (f1 & e1 & i & H & Hi & ->).
  injection H as <- <-. injection Hi as <- <-.
  rewrite as_optional_str_dump in Hph. injection Hph as <- <-.
  apply validate_house_address_overwritten_inv in Ha as (a & -> & Ha).
  apply validate_people_overwritten_inv in Hps.
  unfold merge_house. cbv zeta. now rewrite Ha, Hps.
Qed.

(** X11. Update of a stored Organization succeeds exactly when the
    field-by-field merge of the payload into the stored record is an
    Organization, and then returns that merge; otherwise (an explicit
    null for [org_name], [email] or [address]) it leaves with
    [ValidationError] and changes no store. *)
Theorem update_organization_follows_the_merge (w : World) (id : UUID)
    (old : OrganizationRead.t) (u : OrganizationUpdate.t) :
  PyDict.get id (organizations w) = Some old ->
  match merge_organization (env w) u (ReadModel.base old) with
  | Some b =>
      fst (update_organization id u w)
      = Return (restamp b old (utcnow_at (env w) (clock_reads (env w))))
  | None =>
      fst (update_organization id u w) = Raise ValidationError
      /\ same_stores w (snd (update_organization id u w))
  end.
Proof.
  intros Hg. destruct (merge_organization _ _ _) as [b|] eqn:Hm.
  - destruct (OrganizationBase_init_merged old u (env w) b Hm) as (e' & Hb).
    now rewrite (update_organization_merged _ _ _ _ _ _ Hg Hb).
  - rewrite (update_organization_found _ _ _ _ Hg).
    destruct (OrganizationRead.init _ (env w)) as [[r|x] e'] eqn:E.
    + destruct (ReadModel_init_base _ _ _ _ _ E) as (e1 & Hb).
      apply OrganizationBase_init_merged_inv in Hb. congruence.
    + rewrite (only_ValidationError_OrganizationRead_init _ _ _ _ E).
      split; [reflexivity|apply same_stores_with_env].
Qed.

Lemma update_organization_follows_the_merge_witness :
  PyDict.get 4%N (organizations Example.populated)
  = Some (stamped (after_reads 4 Example.env0) Example.organization)
  /\ merge_organization (env Example.populated) Example.null_name
       Example.organization = None
  /\ fst (update_organization 4%N Example.null_name Example.populated)
     = Raise ValidationError.
Proof.
  assert (Hg : PyDict.get 4%N (organizations Example.populated)
               = Some (stamped (after_reads 4 Example.env0)
                         Example.organization))
    by (vm_compute; reflexivity).
  assert (Hm : merge_organization (env Example.populated) Example.null_name
                 Example.organization = None)
    by reflexivity.
  split; [exact Hg|]. split; [exact Hm|].
  pose proof (update_organization_follows_the_merge _ _ _ Example.null_name Hg)
    as H.
  cbn [stamped ReadModel.base] in H. rewrite Hm in H. exact (proj1 H).
Defined.

(** X12. Update of a stored House succeeds exactly when the merge of the
    payload into the stored record is a House, and then returns that
    merge; otherwise (an explicit null for [address], or any resident
    list but the empty one, since the payload holds [UUID]s where a House
    holds UNIs) it leaves with [ValidationError] and changes no store. *)
Theorem update_house_follows_the_merge (w : World) (id : UUID)
    (old : HouseRead.t) (u : HouseUpdate.t) :
  PyDict.get id (houses w) = Some old ->
  match merge_house (env w) u (ReadModel.base old) with
  | Some b =>
      fst (update_house id u w)
      = Return (restamp b old (utcnow_at (env w) (clock_reads (env w))))
  | None =>
      fst (update_house id u w) = Raise ValidationError
      /\ same_stores w (snd (update_house id u w))
  end.
Proof.
  intros Hg. destruct (merge_house _ _ _) as [b|] eqn:Hm.
  - destruct (HouseBase_init_merged old u (env w) b Hm) as (e' & Hb).
    now rewrite (update_house_merged _ _ _ _ _ _ Hg Hb).
  - rewrite (update_house_found _ _ _ _ Hg).
    destruct (HouseRead.init _ (env w)) as [[r|x] e'] eqn:E.
    + destruct (ReadModel_init_base _ _ _ _ _ E) as (e1 & Hb).
      apply HouseBase_init_merged_inv in Hb. congruence.
    + rewrite (only_ValidationError_HouseRead_init _ _ _ _ E).
      split; [reflexivity|apply same_stores_with_env].
Qed.

Lemma update_house_follows_the_merge_witness :
  PyDict.get 5%N (houses Example.with_house)
  = Some (stamped Example.env0 Example.house)
  /\ merge_house (env Example.with_house) Example.take_residents
       Example.house = None
  /\ fst (update_house 5%N Example.take_residents Example.with_house)
     = Raise ValidationError.
Proof.
  assert (Hg : PyDict.get 5%N (houses Example.with_house)
               = Some (stamped Example.env0 Example.house))
    by (vm_compute; reflexivity).
  assert (Hm : merge_house (env Example.with_house) Example.take_residents
                 Example.house = None)
    by reflexivity.
  split; [exact Hg|]. split; [exact Hm|].
  pose proof (update_house_follows_the_merge _ _ _ Example.take_residents Hg)
    as H.
  cbn [stamped ReadModel.base] in H. rewrite Hm in H. exact (proj1 H).
Defined.

(** ** The embedded address is replaced whole *)

Lemma completed_not_given fresh s :
  not_given_is_None s (AddressBase.completed fresh s).
Proof.
  unfold not_given_is_None, AddressBase.completed. cbn.
  repeat apply conj; intros ->; reflexivity.
Qed.

(** X13. An update that gives an address replaces the embedded address
    of an Organization or a House as a whole; it is not merged attribute
    by attribute.  The returned record holds the payload's address, and
    every attribute that address does not give is [None], whatever the
    stored address held. *)
Theorem update_replaces_the_address_whole (w : World) (id : UUID)
    (s : AddressBase.supplied) :
  (forall (old new : OrganizationRead.t) (u : OrganizationUpdate.t),
     PyDict.get id (organizations w) = Some old ->
     is_set "address" (OrganizationUpdate.model_fields_set u) = true ->
     OrganizationUpdate.address u = Some s ->
     fst (update_organization id u w) = Return new ->
     OrganizationBase.address (ReadModel.base new)
     = AddressBase.completed (uuid4_at (env w) (uuid_draws (env w))) s
     /\ not_given_is_None s (OrganizationBase.address (ReadModel.base new)))
  /\ (forall (old new : HouseRead.t) (u : HouseUpdate.t),
        PyDict.get id (houses w) = Some old ->
        is_set "address" (HouseUpdate.model_fields_set u) = true ->
        HouseUpdate.address u = Some s ->
        fst (update_house id u w) = Return new ->
        exists a,
          HouseBase.address (ReadModel.base new) = Some a
          /\ a = AddressBase.completed (uuid4_at (env w) (uuid_draws (env w))) s
          /\ not_given_is_None s a).
Proof.
  split; intros old new u Hg Hset Hs Hrun.
  - rewrite (update_organization_found _ _ _ _ Hg) in Hrun.
    destruct (OrganizationRead.init _ (env w)) as [[r|x] e'] eqn:E;
      [|discriminate].
    cbn in Hrun. injection Hrun as <-.
    destruct (ReadModel_init_base _ _ _ _ _ E) as (e1 & Hb).
    apply OrganizationBase_init_merged_inv in Hb.
    unfold merge_organization in Hb. cbv zeta in Hb.
    destruct (overwrite "org_name" _ _ _); [|discriminate].
    destruct (overwrite "email" _ _ _); [|discriminate].
    unfold overwrite in Hb. rewrite Hset, Hs in Hb.
    cbn [option_map] in Hb. injection Hb as Hb.
    cbn [ReadModel.base ReadModel.set_updated_at]. rewrite <- Hb.
    cbn [OrganizationBase.address].
    split; [reflexivity|apply completed_not_given].
  - rewrite (update_house_found _ _ _ _ Hg) in Hrun.
    destruct (HouseRead.init _ (env w)) as [[r|x] e'] eqn:E; [|discriminate].
    cbn in Hrun. injection Hrun as <-.
    destruct (ReadModel_init_base _ _ _ _ _ E) as (e1 & Hb).
    apply HouseBase_init_merged_inv in Hb.
    unfold merge_house in Hb. cbv zeta in Hb.
    unfold overwrite_nullable at 1 in Hb. rewrite Hset, Hs in Hb.
    cbn [option_map] in Hb.
    destruct (if is_set "people" _ then _ else _); [|discriminate].
    injection Hb as Hb.
    cbn [ReadModel.base ReadModel.set_updated_at]. rewrite <- Hb.
    cbn [HouseBase.address].
    eexists. split; [reflexivity|].
    split; [reflexivity|apply completed_not_given].
Qed.

Lemma update_replaces_the_address_whole_witness :
  PyDict.get 4%N (organizations Example.populated)
  = Some (stamped (after_reads 4 Example.env0) Example.organization)
  /\ fst (update_organization 4%N Example.org_moves Example.populated)
     = Return Example.org_moved
  /\ AddressBase.street
       (OrganizationBase.address (ReadModel.base Example.org_moved)) = None
  /\ AddressBase.city
       (OrganizationBase.address (ReadModel.base Example.org_moved))
     = Some "Boston".
Proof.
  assert (Hg : PyDict.get 4%N (organizations Example.populated)
               = Some (stamped (after_reads 4 Example.env0)
                         Example.organization))
    by (vm_compute; reflexivity).
  assert (Hrun : fst (update_organization 4%N Example.org_moves
                        Example.populated) = Return Example.org_moved)
    by (vm_compute; reflexivity).
  split; [exact Hg|]. split; [exact Hrun|].
  destruct (update_replaces_the_address_whole Example.populated 4%N
              {| AddressBase.value :=
                   {| AddressBase.id := 999%N;
                      AddressBase.street := None;
                      AddressBase.city := Some "Boston";
                      AddressBase.state := None;
                      AddressBase.postal_code := None;
                      AddressBase.country := None |};
                 AddressBase.model_fields_set := ["city"] |})
    as [Horg _].
  destruct (Horg _ _ Example.org_moves Hg eq_refl eq_refl Hrun) as (Ha & Hnone & _).
  split; [exact (Hnone eq_refl)|]. rewrite Ha. reflexivity.
Defined.

(** ** A payload that gives nothing *)

Lemma merge_address_nothing u old :
  AddressUpdate.model_fields_set u = [] -> merge_address u old = old.
Proof. intros H. destruct old. unfold merge_address. now rewrite H. Qed.

Lemma merge_person_nothing e u old :
  PersonUpdate.model_fields_set u = [] -> merge_person e u old = Some old.
Proof. intros H. destruct old. unfold merge_person. now rewrite H. Qed.

Lemma merge_organization_nothing e u old :
  OrganizationUpdate.model_fields_set u = [] ->
  merge_organization e u old = Some old.
Proof. intros H. destruct old. unfold merge_organization. now rewrite H. Qed.

Lemma merge_house_nothing e u old :
  HouseUpdate.model_fields_set u = [] ->
  HouseBase.address old <> None ->
  merge_house e u old = Some old.
Proof.
  intros H Ha. destruct old as [i ph [a|] ps]; [|now destruct Ha].
  unfold merge_house. now rewrite H.
Qed.

(** X14. An update whose payload gives no field still succeeds and still
    stamps the record: every field and [created_at] are returned as
    stored, and [updated_at] is the reading of the clock.  (For a House
    the stored record has an address, as every record that Create stored
    has.) *)
Theorem update_with_empty_payload (w : World) (id : UUID) :
  let now := utcnow_at (env w) (clock_reads (env w)) in
  (forall old u,
     PyDict.get id (addresses w) = Some old ->
     AddressUpdate.model_fields_set u = [] ->
     fst (update_address id u w) = Return (restamp (ReadModel.base old) old now))
  /\ (forall old u,
        PyDict.get id (persons w) = Some old ->
        PersonUpdate.model_fields_set u = [] ->
        fst (update_person id u w)
        = Return (restamp (ReadModel.base old) old now))
  /\ (forall old u,
        PyDict.get id (organizations w) = Some old ->
        OrganizationUpdate.model_fields_set u = [] ->
        fst (update_organization id u w)
        = Return (restamp (ReadModel.base old) old now))
  /\ (forall old u,
        PyDict.get id (houses w) = Some old ->
        HouseUpdate.model_fields_set u = [] ->
        HouseBase.address (ReadModel.base old) <> None ->
        fst (update_house id u w)
        = Return (restamp (ReadModel.base old) old now)).
Proof.
  cbv zeta. repeat apply conj.
  - intros old u Hg Hfs.
    pose proof (AddressBase_init_merged old u (env w)) as Hb.
    rewrite (merge_address_nothing _ _ Hfs) in Hb.
    now rewrite (update_address_merged _ _ _ _ _ _ Hg Hb).
  - intros old u Hg Hfs.
    destruct (PersonBase_init_merged old u (env w) _
                (merge_person_nothing _ _ _ Hfs)) as (e' & Hb).
    now rewrite (update_person_merged _ _ _ _ _ _ Hg Hb).
  - intros old u Hg Hfs.
    destruct (OrganizationBase_init_merged old u (env w) _
                (merge_organization_nothing _ _ _ Hfs)) as (e' & Hb).
    now rewrite (update_organization_merged _ _ _ _ _ _ Hg Hb).
  - intros old u Hg Hfs Ha.
    destruct (HouseBase_init_merged old u (env w) _
                (merge_house_nothing _ _ _ Hfs Ha)) as (e' & Hb).
    now rewrite (update_house_merged _ _ _ _ _ _ Hg Hb).
Qed.

Lemma update_with_empty_payload_witness :
  PyDict.get 4%N (organizations Example.populated)
  = Some (stamped (after_reads 4 Example.env0) Example.organization)
  /\ fst (update_organization 4%N Example.nothing Example.populated)
     = Return (restamp Example.organization
                 (stamped (after_reads 4 Example.env0) Example.organization)
                 (utcnow_at (env Example.populated)
                    (clock_reads (env Example.populated)))).
Proof.
  assert (Hg : PyDict.get 4%N (organizations Example.populated)
               = Some (stamped (after_reads 4 Example.env0)
                         Example.organization))
    by (vm_compute; reflexivity).
  split; [exact Hg|].
  destruct (update_with_empty_payload Example.populated 4%N)
    as (_ & _ & Horg & _).
  exact (Horg _ Example.nothing Hg eq_refl).
Defined.

(** ** The residents of a house *)

(** What a request does to [houses]: nothing, a new item by Create, or
    the merged record by Update. *)
Lemma serve_houses rq w :
  houses (serve rq w) = houses w
  \/ (exists house : HouseCreate.t,
        PyDict.contains (HouseBase.id house) (houses w) = false
        /\ houses (serve rq w)
           = PyDict.setitem (HouseBase.id house) (stamped (env w) house)
               (houses w))
  \/ (exists id u old b,
        PyDict.get id (houses w) = Some old
        /\ merge_house (env w) u (ReadModel.base old) = Some b
        /\ houses (serve rq w)
           = PyDict.setitem id
               (restamp b old (utcnow_at (env w) (clock_reads (env w))))
               (houses w)).
Proof.
  destruct rq; cbn [serve];
    rewrite ?get_address_state, ?get_person_state, ?get_organization_state,
      ?get_house_state, ?list_houses_state;
    try (left; reflexivity).
  - destruct (PyDict.contains (AddressBase.id address) (addresses w)) eqn:Hin.
    + rewrite (create_address_duplicate _ _ Hin). now left.
    + rewrite (create_address_run _ _ Hin). now left.
  - destruct (PyDict.get address_id (addresses w)) as [old|] eqn:Hg.
    + rewrite (update_address_found _ _ _ _ Hg).
      destruct (AddressRead.init _ (env w)) as [[r|x] e'] eqn:E; now left.
    + rewrite update_address_not_found
        by (unfold PyDict.contains; now rewrite Hg).
      now left.
  - rewrite create_person_run. now left.
  - destruct (PyDict.get person_id (persons w)) as [old|] eqn:Hg.
    + rewrite (update_person_found _ _ _ _ Hg).
      destruct (PersonRead.init _ (env w)) as [[r|x] e'] eqn:E; now left.
    + rewrite update_person_not_found
        by (unfold PyDict.contains; now rewrite Hg).
      now left.
  - destruct (PyDict.contains (OrganizationBase.id organization)
                (organizations w)) eqn:Hin.
    + rewrite (create_organization_duplicate _ _ Hin). now left.
    + rewrite (create_organization_run _ _ Hin). now left.
  - destruct (PyDict.get organization_id (organizations w)) as [old|] eqn:Hg.
    + rewrite (update_organization_found _ _ _ _ Hg).
      destruct (OrganizationRead.init _ (env w)) as [[r|x] e'] eqn:E;
        now left.
    + rewrite update_organization_not_found
        by (unfold PyDict.contains; now rewrite Hg).
      now left.
  - destruct (PyDict.contains (HouseBase.id house) (houses w)) eqn:Hin.
    + rewrite (create_house_duplicate _ _ Hin). now left.
    + destruct (HouseBase.address house) as [a|] eqn:Ha.
      * rewrite (create_house_run _ _ _ Hin Ha). right; left.
        exists house. now split.
      * rewrite (create_house_without_address _ _ Hin Ha). now left.
  - destruct (PyDict.get house_id (houses w)) as [old|] eqn:Hg.
    + destruct (merge_house (env w) update (ReadModel.base old))
        as [b|] eqn:Hm.
      * destruct (HouseBase_init_merged old update (env w) b Hm)
          as (e' & Hb).
        rewrite (update_house_merged _ _ _ _ _ _ Hg Hb).
        right; right. exists house_id, update, old, b. auto.
      * rewrite (update_house_found _ _ _ _ Hg).
        destruct (HouseRead.init _ (env w)) as [[r|x] e'] eqn:E;
          [|now left].
        destruct (ReadModel_init_base _ _ _ _ _ E) as (e1 & Hb).
        apply HouseBase_init_merged_inv in Hb. congruence.
    + rewrite update_house_not_found
        by (unfold PyDict.contains; now rewrite Hg).
      now left.
Qed.

(** X15. No request adds a resident to a stored house.  Whatever the
    request, a house that was stored before it has afterwards the
    resident list it had, or the empty one: Create refuses an identifier
    that is a key already, and the only resident list that Update
    accepts is the empty list, as [HouseUpdate.people] holds [UUID]s
    where [HouseBase.people] holds UNIs. *)
Theorem no_request_adds_a_resident (rq : request) (w : World) (id : UUID)
    (old new : HouseRead.t) :
  PyDict.get id (houses w) = Some old ->
  PyDict.get id (houses (serve rq w)) = Some new ->
  HouseBase.people (ReadModel.base new) = HouseBase.people (ReadModel.base old)
  \/ HouseBase.people (ReadModel.base new) = [].
Proof.
  intros Hg Hg'.
  destruct (serve_houses rq w)
    as [E|[(house & Hnew & E)|(k & u & old0 & b & Hk & Hm & E)]];
    rewrite E in Hg'.
  - left. congruence.
  - assert (Hne : id <> HouseBase.id house).
    { intros ->. apply PyDictFacts.get_contains in Hg. congruence. }
    rewrite (PyDictFacts.get_setitem_other _ _ _ _ Hne) in Hg'.
    left. congruence.
  - destruct (N.eq_dec id k) as [->|Hne].
    + rewrite PyDictFacts.get_setitem_same in Hg'. injection Hg' as <-.
      assert (old0 = old) as -> by congruence.
      cbn [restamp ReadModel.base].
      unfold merge_house in Hm. cbv zeta in Hm.
      destruct (overwrite_nullable "address" _ _ _); [|discriminate].
      destruct (is_set "people" _).
      * destruct (HouseUpdate.people u) as [[|x l]|]; try discriminate.
        injection Hm as <-. now right.
      * injection Hm as <-. now left.
    + rewrite (PyDictFacts.get_setitem_other _ _ _ _ Hne) in Hg'.
      left. pose proof (eq_trans (eq_sym Hg') Hg) as H.
      now injection H as ->.
Qed.

Lemma no_request_adds_a_resident_witness :
  let stored := stamped Example.env0 Example.house in
  PyDict.get 5%N (houses Example.with_house) = Some stored
  /\ PyDict.get 5%N
       (houses (serve (UpdateHouse 5%N Example.take_residents)
                  Example.with_house))
     = Some stored
  /\ (HouseBase.people (ReadModel.base stored)
      = HouseBase.people (ReadModel.base stored)
      \/ HouseBase.people (ReadModel.base stored) = []).
Proof.
  cbv zeta.
  assert (Hg : PyDict.get 5%N (houses Example.with_house)
               = Some (stamped Example.env0 Example.house))
    by (vm_compute; reflexivity).
  assert (Hg' : PyDict.get 5%N
                  (houses (serve (UpdateHouse 5%N Example.take_residents)
                             Example.with_house))
                = Some (stamped Example.env0 Example.house))
    by (vm_compute; reflexivity).
  split; [exact Hg|]. split; [exact Hg'|].
  exact (no_request_adds_a_resident _ _ _ _ _ Hg Hg').
Defined.

(** ** A House without an address *)

(** X16. A House payload without an address is never stored.  Create
    answers 400 when its identifier is a key already, and the process is
    as it was.  Otherwise it leaves with the [ValidationError] of
    [HouseRead]: without a value the field takes its class default, which
    the trailing comma of its declaration makes a tuple and not an
    address.  The stores are as they were; the clock has been read
    twice, since pydantic runs the default factories of [created_at] and
    [updated_at] before it raises. *)
Theorem house_without_address_is_refused (w : World) (house : HouseCreate.t) :
  HouseBase.address house = None ->
  create_house house w
  = if PyDict.contains (HouseBase.id house) (houses w)
    then (Raise (HTTPException 400 "House with this ID already exists"), w)
    else (Raise ValidationError, with_env (after_reads 2 (env w)) w).
Proof.
  intros Ha. destruct (PyDict.contains _ _) eqn:Hin.
  - now apply create_house_duplicate.
  - now apply create_house_without_address.
Qed.

Lemma house_without_address_is_refused_witness :
  HouseBase.address Example.homeless = None
  /\ create_house Example.homeless Example.populated
     = (Raise ValidationError,
        with_env (after_reads 2 (env Example.populated)) Example.populated)
  /\ clock_reads (env Example.populated) = 8
  /\ clock_reads
       (env (snd (create_house Example.homeless Example.populated))) = 10.
Proof.
  split; [reflexivity|].
  pose proof (house_without_address_is_refused Example.populated
                Example.homeless eq_refl) as H.
  assert (Hnew : PyDict.contains (HouseBase.id Example.homeless)
                   (houses Example.populated) = false)
    by (vm_compute; reflexivity).
  rewrite Hnew in H.
  split; [exact H|]. rewrite H. split; reflexivity.
Defined.

(** ** Timestamps in order *)

(** C9, as the code has it.  In a process that starts with empty stores
    and whose clock never steps back, after any sequence of requests:
    every stored record of every kind has [updated_at >= created_at];
    Create stamps [created_at] with one reading of the clock and
    [updated_at] with the next, in order, and stores the record; Update
    leaves [created_at] as stored, moves [updated_at] forward to the
    reading of the clock, and stores the record. *)
Theorem updated_at_not_before_created_at (w0 : World) (rqs : list request) :
  clock_never_steps_back (env w0) ->
  just_started w0 ->
  let w := serve_all rqs w0 in
  all_timestamps_ordered w
  /\ (forall address : AddressCreate.t,
        PyDict.contains (AddressBase.id address) (addresses w) = false ->
        exists w',
          create_address address w = (Return (stamped (env w) address), w')
          /\ get_address (AddressBase.id address) w'
             = (Return (stamped (env w) address), w')
          /\ timestamps_ordered (stamped (env w) address))
  /\ (forall person : PersonCreate.t,
        exists w',
          create_person person w = (Return (stamped (env w) person), w')
          /\ get_person (PersonBase.id person) w'
             = (Return (stamped (env w) person), w')
          /\ timestamps_ordered (stamped (env w) person))
  /\ (forall organization : OrganizationCreate.t,
        PyDict.contains (OrganizationBase.id organization) (organizations w)
          = false ->
        exists w',
          create_organization organization w
            = (Return (stamped (env w) organization), w')
          /\ get_organization (OrganizationBase.id organization) w'
             = (Return (stamped (env w) organization), w')
          /\ timestamps_ordered (stamped (env w) organization))
  /\ (forall (house : HouseCreate.t) a,
        PyDict.contains (HouseBase.id house) (houses w) = false ->
        HouseBase.address house = Some a ->
        exists w',
          create_house house w = (Return (stamped (env w) house), w')
          /\ get_house (HouseBase.id house) w'
             = (Return (stamped (env w) house), w')
          /\ timestamps_ordered (stamped (env w) house))
  /\ (forall id u new w',
        update_address id u w = (Return new, w') ->
        exists old,
          PyDict.get id (addresses w) = Some old
          /\ restamped_by_update (env w) old new
          /\ timestamps_ordered new
          /\ get_address id w' = (Return new, w'))
  /\ (forall id u new w',
        update_person id u w = (Return new, w') ->
        exists old,
          PyDict.get id (persons w) = Some old
          /\ restamped_by_update (env w) old new
          /\ timestamps_ordered new
          /\ get_person id w' = (Return new, w'))
  /\ (forall id u new w',
        update_organization id u w = (Return new, w') ->
        exists old,
          PyDict.get id (organizations w) = Some old
          /\ restamped_by_update (env w) old new
          /\ timestamps_ordered new
          /\ get_organization id w' = (Return new, w'))
  /\ (forall id u new w',
        update_house id u w = (Return new, w') ->
        exists old,
          PyDict.get id (houses w) = Some old
          /\ restamped_by_update (env w) old new
          /\ timestamps_ordered new
          /\ get_house id w' = (Return new, w')).
Proof.
  intros Hmono Hstart. cbv zeta.
  pose proof (serve_all_well_stamped rqs w0
                (just_started_well_stamped _ Hmono Hstart)) as Hw.
  set (w := serve_all rqs w0) in *.
  pose proof Hw as (Hm & Hp & Ha & Ho & Hh).
  assert (Hrestamp : forall B (d : PyDict.t UUID (ReadModel.t B)) id old new,
            stamped_in_the_past (env w) d ->
            PyDict.get id d = Some old ->
            ReadModel.created_at new = ReadModel.created_at old ->
            ReadModel.updated_at new
            = utcnow_at (env w) (clock_reads (env w)) ->
            restamped_by_update (env w) old new /\ timestamps_ordered new).
  { intros B d id old new Hd Hg Hc Hu.
    pose proof (stored_not_in_future _ _ _ _ Hd Hg) as Hpast.
    destruct (Hd old (PyDictFacts.get_In_values _ _ _ Hg)) as [Hord _].
    unfold restamped_by_update, timestamps_ordered in *.
    rewrite Hc, Hu. repeat split; lia. }
  split; [now apply well_stamped_ordered|].
  split.
  { intros address Hnew. rewrite (create_address_run _ _ Hnew).
    eexists. split; [reflexivity|]. split; [|now apply stamped_new].
    apply get_address_found. cbn [addresses].
    apply PyDictFacts.get_setitem_same. }
  split.
  { intros person. rewrite create_person_run.
    eexists. split; [reflexivity|]. split; [|now apply stamped_new].
    apply get_person_found. cbn [persons].
    apply PyDictFacts.get_setitem_same. }
  split.
  { intros organization Hnew. rewrite (create_organization_run _ _ Hnew).
    eexists. split; [reflexivity|]. split; [|now apply stamped_new].
    apply get_organization_found. cbn [organizations].
    apply PyDictFacts.get_setitem_same. }
  split.
  { intros house a Hnew Hsome. rewrite (create_house_run _ _ _ Hnew Hsome).
    eexists. split; [reflexivity|]. split; [|now apply stamped_new].
    apply get_house_found. cbn [houses].
    apply PyDictFacts.get_setitem_same. }
  split.
  { intros id u new w' Hrun.
    destruct (update_address_returned _ _ _ _ _ Hrun)
      as (old & Hg & _ & Hc & Hu & Hget & _).
    exists old. split; [exact Hg|].
    destruct (Hrestamp _ _ _ _ _ Ha Hg Hc Hu). auto. }
  split.
  { intros id u new w' Hrun.
    destruct (update_person_returned _ _ _ _ _ Hrun)
      as (old & Hg & _ & Hc & Hu & Hget & _).
    exists old. split; [exact Hg|].
    destruct (Hrestamp _ _ _ _ _ Hp Hg Hc Hu). auto. }
  split.
  { intros id u new w' Hrun.
    destruct (update_organization_returned _ _ _ _ _ Hrun)
      as (old & Hg & _ & Hc & Hu & Hget & _).
    exists old. split; [exact Hg|].
    destruct (Hrestamp _ _ _ _ _ Ho Hg Hc Hu). auto. }
  intros id u new w' Hrun.
  destruct (update_house_returned _ _ _ _ _ Hrun)
    as (old & Hg & _ & Hc & Hu & Hget & _).
  exists old. split; [exact Hg|].
  destruct (Hrestamp _ _ _ _ _ Hh Hg Hc Hu). auto.
Qed.

Lemma updated_at_not_before_created_at_witness :
  clock_never_steps_back (env Example.empty_world)
  /\ just_started Example.empty_world
  /\ all_timestamps_ordered
       (serve_all Example.house_requests Example.empty_world).
Proof.
  assert (Hmono : clock_never_steps_back (env Example.empty_world))
    by (intros i j Hij; cbn; lia).
  assert (Hstart : just_started Example.empty_world)
    by (repeat split; reflexivity).
  split; [exact Hmono|]. split; [exact Hstart|].
  exact (proj1 (updated_at_not_before_created_at Example.empty_world
                  Example.house_requests Hmono Hstart)).
Defined.

(** C9, as the spec has it, fails: the handlers stamp with
    [datetime.utcnow()], the wall clock, and nothing keeps it from being
    set back.  When it steps back between the two readings that
    [HouseRead] takes, Create stores a House whose [updated_at] is
    earlier than its [created_at]. *)
Lemma updated_at_before_created_at_on_backward_clock :
  just_started Example.backward
  /\ ~ all_timestamps_ordered
        (serve_all [CreateHouse Example.house] Example.backward)
  /\ match fst (get_house 5%N
                  (serve_all [CreateHouse Example.house] Example.backward))
     with
     | Return r => (ReadModel.updated_at r < ReadModel.created_at r)%Z
     | Raise _ => False
     end.
Proof.
  split; [repeat split|]. split.
  - intros (_ & _ & _ & Hh).
    assert (Hv : PyDict.values
                   (houses (serve_all [CreateHouse Example.house]
                              Example.backward))
                 = [stamped (env Example.backward) Example.house])
      by reflexivity.
    rewrite Hv in Hh.
    specialize (Hh _ (or_introl eq_refl)).
    unfold timestamps_ordered in Hh. cbn in Hh. lia.
  - vm_compute. reflexivity.
Qed.
